(** * labfis: object registry, physics facade and frame loop

    A shallow embedding of the JavaScript sources

    - [ObjectManager]   (the object registry: spawn, sync, remove, clear),
    - [PhysicsEngine]   (the facade over the CANNON world),
    - [PhysicsRenderer] (the facade over the THREE scene), and
    - the driver's [animate] frame function and its callbacks,

    followed by the properties the specification states about them and
    by further properties of the same code.

    Conventions of the embedding.

    - JavaScript objects that the program shares by reference (meshes,
      bodies, tracked objects) live in a store and are named by their
      address; arrays of such objects are lists of addresses.  Nothing is
      ever freed, so the address of a new object is the current size of
      its store.
    - Numbers are rationals.  A value that may also be [undefined] (an
      omitted argument, a property an object literal does not carry) or
      [NaN] (arithmetic on [undefined]) has type [value].  The id
      counter of the registry, which only ever counts up from 0 by 1, is
      a natural number.
    - Every method is a computation in a state-and-exception monad over
      the whole program state; dereferencing something that is not an
      object raises [TypeError], as it does in JavaScript, and the
      constructors of the CANNON shapes raise what the library raises.
    - [Math.random], [performance.now] and the numerical work of the
      CANNON library (stepping the world, Euler angles) are oracles held
      in the environment part of the state. *)

From stdpp Require Import base option list strings gmap.
From Stdlib Require Import ZArith QArith Qround Lia Lqa.

#[local] Set Warnings "-clear-no-such-hyp".

Open Scope Z_scope.
Open Scope nat_scope.

(** ** Numbers and vectors *)

Inductive value : Type :=
  | Undefined
  | NaN
  | Num (q : Q).

(** [v / d] for a literal, non-zero divisor [d] *)
Definition divide (v : value) (d : Q) : value :=
  match v with
  | Num q => Num (q / d)%Q
  | _ => NaN
  end.

(** A default parameter [p = d]: the default replaces [undefined] only. *)
Definition orDefault (d : Q) (v : value) : value :=
  match v with
  | Undefined => Num d
  | _ => v
  end.

(** What is thrown: a [TypeError] by the language, an [Error] by a
    library. *)
Inductive Exn : Type :=
  | TypeError
  | Error.

Record Vec3 : Type := mkVec3 { vx : Q; vy : Q; vz : Q }.
Record Quat : Type := mkQuat { qx : Q; qy : Q; qz : Q; qw : Q }.

Definition vec3_zero : Vec3 := mkVec3 0 0 0.
Definition quat_identity : Quat := mkQuat 0 0 0 1.

(** [a > b] on numbers *)
Definition Qgtb (a b : Q) : bool := negb (Qle_bool a b).

(** [Math.max(a, b)], [Math.min(a, b)] and [Math.round(a)] *)
Definition Math_max (a b : Q) : Q := if Qle_bool a b then b else a.
Definition Math_min (a b : Q) : Q := if Qle_bool a b then a else b.
Definition Math_round (a : Q) : Z := Qfloor (a + 1 / 2)%Q.

(** ** Addresses and arrays *)

(** An address is an index into a store. *)
Abbreviation addr := nat (only parsing).

Section Arrays.
Context {A : Type} `{EqDecision A}.

(** [Array.prototype.indexOf]: the first index holding [x], or [-1]. *)
Definition indexOf (x : A) (l : list A) : Z :=
  match list_find (λ y, y = x) l with
  | Some (i, _) => Z.of_nat i
  | None => (-1)%Z
  end.

(** [Array.prototype.splice(index, 1)] for a non-negative index. *)
Definition splice1 (index : Z) (l : list A) : list A :=
  delete (Z.to_nat index) l.

(** The idiom [i = a.indexOf(x); if (i > -1) a.splice(i, 1)]. *)
Definition removeFirst (x : A) (l : list A) : list A :=
  let index := indexOf x l in
  if (-1 <? index)%Z then splice1 index l else l.

End Arrays.

(** ** THREE: geometries, materials, meshes, scene children *)

Module THREE.

Inductive Geometry : Type :=
  | BoxGeometry (width height depth : value)
  | SphereGeometry (radius : value) (widthSegments heightSegments : Z)
  | CylinderGeometry (radiusTop radiusBottom height : value) (radialSegments : Z)
  | ConeGeometry (radius height : value) (radialSegments : Z)
  | TorusGeometry (radius tube : value) (radialSegments tubularSegments : Z).

Record MeshStandardMaterial : Type := mkMaterial {
  color : Z;
  metalness : Q;
  roughness : Q;
}.

Record Mesh : Type := mkMesh {
  geometry : Geometry;
  material : MeshStandardMaterial;
  position : Vec3;
  quaternion : Quat;
  castShadow : bool;
  receiveShadow : bool;
  (** set by [geometry.dispose()] and [material.dispose()] *)
  geometryDisposed : bool;
  materialDisposed : bool;
}.

(** [new THREE.Mesh(geometry, material)] *)
Definition newMesh (g : Geometry) (m : MeshStandardMaterial) : Mesh :=
  mkMesh g m vec3_zero quat_identity false false false false.

(** A child of the scene: a mesh made by the registry, or one of the
    fixtures the renderer installs once (lights, grid, ground, axes). *)
Inductive Object3D : Type :=
  | Fixture (name : string)
  | MeshRef (a : addr).

#[global] Instance Object3D_eq_dec : EqDecision Object3D.
Proof. solve_decision. Defined.

(** [Object3D.add] for a scene that is the only parent there is: an
    object that already has a parent is detached from it first. *)
Definition add (o : Object3D) (children : list Object3D) : list Object3D :=
  removeFirst o children ++ [o].

(** [Object3D.remove] *)
Definition remove (o : Object3D) (children : list Object3D) : list Object3D :=
  removeFirst o children.

(** What one call of [WebGLRenderer.render] draws: the registry meshes
    in the scene, each with the transform it has at that moment. *)
Definition Frame : Type := list (addr * Vec3 * Quat).

End THREE.

(** ** CANNON: shapes, bodies, the world *)

Module CANNON.

Inductive Shape : Type :=
  | Plane
  | Box (hx hy hz : value)
  | Sphere (radius : value)
  | Cylinder (radiusTop radiusBottom height numSegments : value).

(** [new CANNON.Vec3(x, y, z)] stores [x || 0.0]: a component that is
    [undefined] or [NaN] is stored as 0. *)
Definition orZero (v : value) : value :=
  match v with
  | Num q => Num q
  | _ => Num 0
  end.

(** [new CANNON.Box(new CANNON.Vec3(x, y, z))] *)
Definition newBox (x y z : value) : Shape :=
  Box (orZero x) (orZero y) (orZero z).

(** [new CANNON.Sphere(radius)]: an omitted radius is 1, and a negative
    radius is refused with an [Error]. *)
Definition newSphere (radius : value) : Exn + Shape :=
  match radius with
  | Undefined => inr (Sphere (Num 1))
  | NaN => inr (Sphere NaN)
  | Num q => if Qle_bool 0 q then inr (Sphere (Num q)) else inl Error
  end.

(** [new CANNON.Cylinder(radiusTop, radiusBottom, height, numSegments)]:
    the faces of the hull are built in a loop over the segments, and
    the hull cannot be made, with a [TypeError], unless its top face
    gets three vertices: [numSegments] has to be a number above 2. *)
Definition newCylinder (radiusTop radiusBottom height numSegments : value)
    : Exn + Shape :=
  match numSegments with
  | Num n =>
      if Qle_bool n 2 then inl TypeError
      else inr (Cylinder radiusTop radiusBottom height numSegments)
  | _ => inl TypeError
  end.

Inductive Material : Type :=
  | DefaultMaterial
  | GroundMaterial.

Record Body : Type := mkBody {
  mass : Q;
  material : Material;
  position : Vec3;
  quaternion : Quat;
  linearDamping : Q;
  angularDamping : Q;
  shapes : list Shape;
  velocity : Vec3;
  angularVelocity : Vec3;
}.

(** [new CANNON.Body({mass, material, position, linearDamping, angularDamping})] *)
Definition newBody (m : Q) (mat : Material) (p : Vec3) (ld ad : Q) : Body :=
  mkBody m mat p quat_identity ld ad [] vec3_zero vec3_zero.

(** [body.addShape(shape)] *)
Definition addShape (s : Shape) (b : Body) : Body :=
  mkBody (mass b) (material b) (position b) (quaternion b) (linearDamping b)
         (angularDamping b) (shapes b ++ [s]) (velocity b) (angularVelocity b).

(** [body.angularVelocity.set(x, y, z)] *)
Definition setAngularVelocity (w : Vec3) (b : Body) : Body :=
  mkBody (mass b) (material b) (position b) (quaternion b) (linearDamping b)
         (angularDamping b) (shapes b) (velocity b) w.

(** The part of a body that a simulation step changes: position,
    orientation, velocity and angular velocity. *)
Definition Motion : Type := Vec3 * Quat * Vec3 * Vec3.

Definition setMotion (m : Motion) (b : Body) : Body :=
  let '(p, q, v, w) := m in
  mkBody (mass b) (material b) p q (linearDamping b) (angularDamping b) (shapes b) v w.

(** [body.quaternion] assigned *)
Definition setQuaternion (q : Quat) (b : Body) : Body :=
  mkBody (mass b) (material b) (position b) q (linearDamping b)
         (angularDamping b) (shapes b) (velocity b) (angularVelocity b).

Record ContactMaterial : Type := mkContactMaterial {
  friction : Q;
  restitution : Q;
}.

(** The world.  Its contact material is the object the engine keeps in
    [contactMaterial]; it is stored there only. *)
Record World : Type := mkWorld {
  gravity : Vec3;
  allowSleep : bool;
  bodies : list addr;
}.

(** [world.addBody(body)]: a body already in the world is not added twice. *)
Definition addBody (b : addr) (w : World) : World :=
  mkWorld (gravity w) (allowSleep w)
          (if bool_decide (b ∈ bodies w) then bodies w else bodies w ++ [b]).

(** [world.removeBody(body)], on the body list *)
Definition removeBody (b : addr) (w : World) : World :=
  mkWorld (gravity w) (allowSleep w) (removeFirst b (bodies w)).

(** [world.gravity.set(x, y, z)] *)
Definition setGravity (g : Vec3) (w : World) : World :=
  mkWorld g (allowSleep w) (bodies w).

End CANNON.

(** ** Object literals passed between the components *)

(** The shape description [{ type, size, radius, ... }] handed to
    [PhysicsEngine.createBody]; a property the literal does not carry
    reads as [Undefined]. *)
Module Desc.
Record t : Type := mk {
  type : string;
  size : value;
  radius : value;
  radiusTop : value;
  radiusBottom : value;
  height : value;
  segments : value;
}.
Definition empty (ty : string) : t :=
  mk ty Undefined Undefined Undefined Undefined Undefined Undefined.
End Desc.

(** The record [{ id, type, mesh, body }] the registry keeps per object. *)
Module Obj.
Record t : Type := mk {
  id : nat;
  type : string;
  mesh : addr;
  body : addr;
}.
End Obj.

(** ** Program state *)

Record Store : Type := mkStore {
  meshes : list THREE.Mesh;
  bodies : list CANNON.Body;
  objs : list Obj.t;
}.

Record Settings : Type := mkSettings {
  gravity : Vec3;
  restitution : Q;
  friction : Q;
  defaultMass : Q;
}.

Record PhysicsEngineState : Type := mkEngine {
  world : CANNON.World;
  timeStep : Q;
  maxSubSteps : Z;
  timeScale : Q;
  isPaused : bool;
  contactMaterial : CANNON.ContactMaterial;
  settings : Settings;
}.

Module Stats.
Record t : Type := mk {
  fps : Z;
  lastTime : Q;
  frames : Z;
}.
End Stats.

Record PhysicsRendererState : Type := mkRenderer {
  scene : list THREE.Object3D;
  showWireframe : bool;
  showAxes : bool;
  stats : Stats.t;
  (** output: the frames drawn so far, oldest first *)
  drawn : list THREE.Frame;
}.

Record ObjectManagerState : Type := mkManager {
  objects : list addr;
  objectId : nat;
  colors : gmap string Z;
}.

(** The globals of the driver and the two page elements it writes. *)
Record Driver : Type := mkDriver {
  animationId : nat;
  lastTime : Q;
  selectedShape : string;
  uiPaused : bool;
  fpsText : Z;
  objectCountText : nat;
}.

(** Oracles: the values [Math.random] and [performance.now] will return,
    and the numerical routines of the CANNON library. *)
Record Env : Type := mkEnv {
  random : nat → Q;
  randomCalls : nat;
  clock : nat → Q;
  clockReads : nat;
  (** where one [world.step(dt, timeSinceLastCalled, maxSubSteps)] takes
      a body that is in the world *)
  integrate :
    CANNON.World → list CANNON.Body → Q → Q → Z → addr → CANNON.Body → CANNON.Motion;
  setFromEuler : Q → Q → Q → Quat;
  (** [Math.PI] *)
  PI : Q;
}.

Record Sys : Type := mkSys {
  store : Store;
  physicsEngine : PhysicsEngineState;
  renderer : PhysicsRendererState;
  objectManager : ObjectManagerState;
  driver : Driver;
  env : Env;
}.

(** ** The monad of methods *)

Inductive Res (A : Type) : Type :=
  | Ok (a : A) (s : Sys)
  | Throw (e : Exn).
Arguments Ok {A} a s.
Arguments Throw {A} e.

Definition M (A : Type) : Type := Sys → Res A.

Definition ret {A} (a : A) : M A := λ s, Ok a s.

Definition bind {A B} (c : M A) (k : A → M B) : M B :=
  λ s, match c s with
       | Ok a s' => k a s'
       | Throw e => Throw e
       end.

Definition throw {A} (e : Exn) : M A := λ _, Throw e.

(** [new C(...)]: the object, or what the constructor throws. *)
Definition construct {A} (r : Exn + A) : M A :=
  match r with
  | inr a => ret a
  | inl e => throw e
  end.

Definition gets {A} (f : Sys → A) : M A := λ s, Ok (f s) s.

Definition modify (f : Sys → Sys) : M unit := λ s, Ok tt (f s).

Notation "'let*' x ':=' c 'in' k" := (bind c (λ x, k))
  (at level 10, x binder, c at level 100, k at level 200).
Notation "c ';;' k" := (bind c (λ _, k))
  (at level 100, k at level 200, right associativity).

(** Reading through a reference; [undefined.p] raises. *)
Definition deref {A} (l : Sys → list A) (a : addr) : M A :=
  λ s, match l s !! a with
       | Some x => Ok x s
       | None => Throw TypeError
       end.

(** Component updates. *)
Definition withStore (f : Store → Store) (s : Sys) : Sys :=
  mkSys (f (store s)) (physicsEngine s) (renderer s) (objectManager s) (driver s) (env s).
Definition withEngine (f : PhysicsEngineState → PhysicsEngineState) (s : Sys) : Sys :=
  mkSys (store s) (f (physicsEngine s)) (renderer s) (objectManager s) (driver s) (env s).
Definition withRenderer (f : PhysicsRendererState → PhysicsRendererState) (s : Sys) : Sys :=
  mkSys (store s) (physicsEngine s) (f (renderer s)) (objectManager s) (driver s) (env s).
Definition withManager (f : ObjectManagerState → ObjectManagerState) (s : Sys) : Sys :=
  mkSys (store s) (physicsEngine s) (renderer s) (f (objectManager s)) (driver s) (env s).
Definition withDriver (f : Driver → Driver) (s : Sys) : Sys :=
  mkSys (store s) (physicsEngine s) (renderer s) (objectManager s) (f (driver s)) (env s).
Definition withEnv (f : Env → Env) (s : Sys) : Sys :=
  mkSys (store s) (physicsEngine s) (renderer s) (objectManager s) (driver s) (f (env s)).

Definition setMeshes (l : list THREE.Mesh) (st : Store) : Store :=
  mkStore l (bodies st) (objs st).
Definition setBodies (l : list CANNON.Body) (st : Store) : Store :=
  mkStore (meshes st) l (objs st).
Definition setObjs (l : list Obj.t) (st : Store) : Store :=
  mkStore (meshes st) (bodies st) l.

Definition setWorld (w : CANNON.World) (e : PhysicsEngineState) : PhysicsEngineState :=
  mkEngine w (timeStep e) (maxSubSteps e) (timeScale e) (isPaused e)
           (contactMaterial e) (settings e).
Definition setScene (c : list THREE.Object3D) (r : PhysicsRendererState) : PhysicsRendererState :=
  mkRenderer c (showWireframe r) (showAxes r) (stats r) (drawn r).
Definition setObjects (l : list addr) (m : ObjectManagerState) : ObjectManagerState :=
  mkManager l (objectId m) (colors m).

(** [new]: the object is placed at the end of its store. *)
Definition newMeshAt (m : THREE.Mesh) : M addr :=
  λ s, Ok (length (meshes (store s))) (withStore (setMeshes (meshes (store s) ++ [m])) s).
Definition newBodyAt (b : CANNON.Body) : M addr :=
  λ s, Ok (length (bodies (store s))) (withStore (setBodies (bodies (store s) ++ [b])) s).
Definition newObjAt (o : Obj.t) : M addr :=
  λ s, Ok (length (objs (store s))) (withStore (setObjs (objs (store s) ++ [o])) s).

(** [Math.random()] and [performance.now()] *)
Definition Math_random : M Q :=
  λ s, Ok (random (env s) (randomCalls (env s)))
          (withEnv (λ e, mkEnv (random e) (S (randomCalls e)) (clock e) (clockReads e)
                               (integrate e) (setFromEuler e) (PI e)) s).
Definition performance_now : M Q :=
  λ s, Ok (clock (env s) (clockReads (env s)))
          (withEnv (λ e, mkEnv (random e) (randomCalls e) (clock e) (S (clockReads e))
                               (integrate e) (setFromEuler e) (PI e)) s).

(** [Array.prototype.forEach], with an accumulator standing for the
    local variables the callback assigns.  The length is read once; the
    element at each index is read from the array as it is when the index
    is reached, and an index that no longer exists is passed over. *)
Fixpoint forEachFrom {A B} (arr : Sys → list A) (f : B → A → M B)
    (n k : nat) (b : B) : M B :=
  match n with
  | 0 => ret b
  | S n' => λ s,
      match arr s !! k with
      | Some x => (let* b' := f b x in forEachFrom arr f n' (S k) b') s
      | None => forEachFrom arr f n' (S k) b s
      end
  end.

Definition foldEach {A B} (arr : Sys → list A) (f : B → A → M B) (b : B) : M B :=
  λ s, forEachFrom arr f (length (arr s)) 0 b s.

Definition forEach {A} (arr : Sys → list A) (f : A → M unit) : M unit :=
  foldEach arr (λ _ x, f x) tt.

(** ** physics-engine.js: class PhysicsEngine *)

Module PhysicsEngine.

Definition theWorld (s : Sys) : CANNON.World := world (physicsEngine s).

Definition updWorld (f : CANNON.World → CANNON.World) : M unit :=
  modify (withEngine (λ e, setWorld (f (world e)) e)).

(** [this.world.addBody(body)] for a body object *)
Definition world_addBody (body : addr) : M unit :=
  updWorld (CANNON.addBody body).

(** [this.world.removeBody(body)]: the library first clears the body's
    back pointer, which raises when [body] is not an object. *)
Definition world_removeBody (body : addr) : M unit :=
  deref (λ s, bodies (store s)) body ;;
  updWorld (CANNON.removeBody body).

(** [this.world.step(dt, timeSinceLastCalled, maxSubSteps)]: the bodies
    in the world move as the library decides; nothing else changes. *)
Definition world_step (dt timeSinceLastCalled : Q) (maxSub : Z) : M unit :=
  modify (λ s,
    let w := theWorld s in
    let all := bodies (store s) in
    withStore (setBodies
      (imap (λ a b, if bool_decide (a ∈ CANNON.bodies w)
                    then CANNON.setMotion
                           (integrate (env s) w all dt timeSinceLastCalled maxSub a b) b
                    else b) all)) s).

Definition createGround : M unit :=
  let groundShape := CANNON.Plane in
  let groundBody := CANNON.newBody 0 CANNON.GroundMaterial vec3_zero 0.01 0.01 in
  let groundBody := CANNON.addShape groundShape groundBody in
  let* q := gets (λ s, setFromEuler (env s) (- PI (env s) / 2)%Q 0 0) in
  let groundBody := CANNON.setQuaternion q groundBody in
  let* a := newBodyAt groundBody in
  world_addBody a.

Definition init : M unit :=
  modify (withEngine (λ e,
    let g := gravity (settings e) in
    let w := CANNON.mkWorld vec3_zero false [] in
    let w := CANNON.setGravity (mkVec3 (vx g) (vy g) (vz g)) w in
    let w := CANNON.mkWorld (CANNON.gravity w) true (CANNON.bodies w) in
    mkEngine w (timeStep e) (maxSubSteps e) (timeScale e) (isPaused e)
             (CANNON.mkContactMaterial (friction (settings e)) (restitution (settings e)))
             (settings e))) ;;
  createGround.

Definition constructor : M unit :=
  modify (withEngine (λ e,
    mkEngine (world e) (1 / 60)%Q 3%Z 1.0%Q false (contactMaterial e)
             (mkSettings (mkVec3 0 (-9.8) 0) 0.3 0.3 5)%Q)) ;;
  init.

(** The [switch] of [createBody]: the shape made for a description, or
    what its constructor throws. *)
Definition cannonShapeOf (shape : Desc.t) : Exn + CANNON.Shape :=
  if String.eqb (Desc.type shape) "box" then
    inr (CANNON.newBox (divide (Desc.size shape) 2) (divide (Desc.size shape) 2)
                       (divide (Desc.size shape) 2))
  else if String.eqb (Desc.type shape) "sphere" then
    CANNON.newSphere (Desc.radius shape)
  else if String.eqb (Desc.type shape) "cylinder" then
    CANNON.newCylinder (Desc.radiusTop shape) (Desc.radiusBottom shape)
                       (Desc.height shape) (Desc.segments shape)
  else if String.eqb (Desc.type shape) "cone" then
    CANNON.newCylinder (Num 0.01) (Desc.radius shape)
                       (Desc.height shape) (Desc.segments shape)
  else
    CANNON.newSphere (Num 1).

(** [createBody(shape, mass, position)] *)
Definition createBody (shape : Desc.t) (mass : Q) (position : Vec3) : M addr :=
  let* cannonShape := construct (cannonShapeOf shape) in
  let body := CANNON.newBody mass CANNON.DefaultMaterial
                (mkVec3 (vx position) (vy position) (vz position)) 0.1 0.1 in
  let body := CANNON.addShape cannonShape body in
  let* r1 := Math_random in
  let* r2 := Math_random in
  let* r3 := Math_random in
  let body := CANNON.setAngularVelocity
                (mkVec3 ((r1 - 0.5) * 2) ((r2 - 0.5) * 2) ((r3 - 0.5) * 2))%Q body in
  let* a := newBodyAt body in
  world_addBody a ;;
  ret a.

(** [removeBody(body)] *)
Definition removeBody (body : addr) : M unit :=
  world_removeBody body.

(** [update(deltaTime)] *)
Definition update (deltaTime : Q) : M unit :=
  let* e := gets physicsEngine in
  if negb (isPaused e) then
    let dt := (deltaTime * timeScale e)%Q in
    world_step (timeStep e) dt (maxSubSteps e)
  else ret tt.

(** [setGravity(x, y, z)] *)
Definition setGravity (x y z : Q) : M unit :=
  modify (withEngine (λ e,
    mkEngine (CANNON.setGravity (mkVec3 x y z) (world e))
             (timeStep e) (maxSubSteps e) (timeScale e) (isPaused e) (contactMaterial e)
             (mkSettings (mkVec3 x y z) (restitution (settings e))
                         (friction (settings e)) (defaultMass (settings e))))).

(** [updateMaterialProperties(restitution, friction)] *)
Definition updateMaterialProperties (r f : Q) : M unit :=
  modify (withEngine (λ e,
    mkEngine (world e) (timeStep e) (maxSubSteps e) (timeScale e) (isPaused e)
             (CANNON.mkContactMaterial f r)
             (mkSettings (gravity (settings e)) r f (defaultMass (settings e))))).

(** [setTimeScale(scale)]: [Math.max(0.1, Math.min(2, scale))] *)
Definition setTimeScale (scale : Q) : M unit :=
  modify (withEngine (λ e,
    mkEngine (world e) (timeStep e) (maxSubSteps e)
             (Math_max 0.1 (Math_min 2 scale)) (isPaused e)
             (contactMaterial e) (settings e))).

(** [setPaused(paused)] *)
Definition setPaused (paused : bool) : M unit :=
  modify (withEngine (λ e,
    mkEngine (world e) (timeStep e) (maxSubSteps e) (timeScale e) paused
             (contactMaterial e) (settings e))).

(** [clearAllBodies()] *)
Definition clearAllBodies : M unit :=
  let* bodiesToRemove :=
    foldEach (λ s, CANNON.bodies (theWorld s))
      (λ (acc : list addr) body,
         let* b := deref (λ s, bodies (store s)) body in
         if Qgtb (CANNON.mass b) 0 then ret (acc ++ [body]) else ret acc)
      [] in
  forEach (λ _, bodiesToRemove) world_removeBody.

(** [getStats()], as the pair [(bodyCount, isActive)] *)
Definition getStats : M (nat * bool) :=
  let* ws := gets (λ s, CANNON.bodies (theWorld s)) in
  let* dynamicBodies :=
    foldEach (λ _, ws)
      (λ (acc : list addr) body,
         let* b := deref (λ s, bodies (store s)) body in
         if Qgtb (CANNON.mass b) 0 then ret (acc ++ [body]) else ret acc)
      [] in
  let* p := gets (λ s, isPaused (physicsEngine s)) in
  ret (length dynamicBodies, negb p).

End PhysicsEngine.

(** ** physics-engine.js: class PhysicsRenderer *)

Module PhysicsRenderer.

(** [this.scene.add(o)] and [this.scene.remove(o)] *)
Definition scene_add (o : THREE.Object3D) : M unit :=
  modify (withRenderer (λ r, setScene (THREE.add o (scene r)) r)).
Definition scene_remove (o : THREE.Object3D) : M unit :=
  modify (withRenderer (λ r, setScene (THREE.remove o (scene r)) r)).

Definition setupLights : M unit :=
  scene_add (THREE.Fixture "AmbientLight") ;;
  scene_add (THREE.Fixture "DirectionalLight") ;;
  scene_add (THREE.Fixture "HemisphereLight").

Definition createGround : M unit :=
  scene_add (THREE.Fixture "GridHelper") ;;
  scene_add (THREE.Fixture "ground").

Definition createAxes : M unit :=
  scene_add (THREE.Fixture "AxesHelper").

Definition init : M unit :=
  modify (withRenderer (setScene [])) ;;
  setupLights ;;
  createGround ;;
  createAxes.

Definition constructor : M unit :=
  let* now := performance_now in
  modify (withRenderer (λ r, mkRenderer (scene r) false true (Stats.mk 0 now 0) (drawn r))) ;;
  init.

(** [updateFPS()] *)
Definition updateFPS : M Z :=
  let* currentTime := performance_now in
  modify (withRenderer (λ r,
    let st := stats r in
    let frames := (Stats.frames st + 1)%Z in
    let st :=
      if Qle_bool (Stats.lastTime st + 1000)%Q currentTime then
        Stats.mk
          (Math_round (inject_Z frames * 1000 / (currentTime - Stats.lastTime st))%Q)
          currentTime 0
      else Stats.mk (Stats.fps st) (Stats.lastTime st) frames in
    mkRenderer (scene r) (showWireframe r) (showAxes r) st (drawn r))) ;;
  gets (λ s, Stats.fps (stats (renderer s))).

(** The picture of the scene as it is now. *)
Definition picture (s : Sys) : THREE.Frame :=
  omap (λ o, match o with
             | THREE.MeshRef a =>
                 match meshes (store s) !! a with
                 | Some m => Some (a, THREE.position m, THREE.quaternion m)
                 | None => None
                 end
             | THREE.Fixture _ => None
             end) (scene (renderer s)).

(** [render()]: the camera controls are not part of the state *)
Definition render : M unit :=
  modify (λ s, withRenderer (λ r,
    mkRenderer (scene r) (showWireframe r) (showAxes r) (stats r)
               (drawn r ++ [picture s])) s) ;;
  updateFPS ;;
  ret tt.

(** [getStats()], the [fps] field *)
Definition getStats : M Z :=
  gets (λ s, Stats.fps (stats (renderer s))).

End PhysicsRenderer.

(** ** class ObjectManager *)

Module ObjectManager.

Definition constructor : M unit :=
  modify (withManager (λ _,
    mkManager [] 0
      (<["box" := 0x00ff88%Z]> (<["sphere" := 0x00d4ff%Z]> (<["cylinder" := 0xb24bf3%Z]>
       (<["cone" := 0xff6b6b%Z]> (<["torus" := 0xffd93d%Z]> ∅))))))).

Definition standardMaterial (color : Z) : THREE.MeshStandardMaterial :=
  THREE.mkMaterial color 0.3 0.6.

(** [new THREE.Mesh(geometry, material)], then both shadow flags set *)
Definition shadowedMesh (g : THREE.Geometry) (m : THREE.MeshStandardMaterial) : M addr :=
  let mesh := THREE.newMesh g m in
  newMeshAt (THREE.mkMesh (THREE.geometry mesh) (THREE.material mesh)
               (THREE.position mesh) (THREE.quaternion mesh) true true
               (THREE.geometryDisposed mesh) (THREE.materialDisposed mesh)).

Definition createBox (size : value) (color : Z) : M addr :=
  shadowedMesh (THREE.BoxGeometry size size size) (standardMaterial color).

Definition createSphere (radius : value) (color : Z) : M addr :=
  shadowedMesh (THREE.SphereGeometry radius 32 32) (standardMaterial color).

Definition createCylinder (radius height : value) (color : Z) : M addr :=
  shadowedMesh (THREE.CylinderGeometry radius radius height 32) (standardMaterial color).

Definition createCone (radius height : value) (color : Z) : M addr :=
  shadowedMesh (THREE.ConeGeometry radius height 32) (standardMaterial color).

Definition createTorus (radius tube : value) (color : Z) : M addr :=
  shadowedMesh (THREE.TorusGeometry radius tube 16 100) (standardMaterial color).

(** [this.colors[type] || 0x00ff88] *)
Definition colorOf (m : ObjectManagerState) (type : string) : Z :=
  match colors m !! type with
  | Some c => if (c =? 0)%Z then 0x00ff88%Z else c
  | None => 0x00ff88%Z
  end.

(** [createObject(type, position, size = 2)]; [None] is [null] *)
Definition createObject (type : string) (position : Vec3) (size : value)
    : M (option addr) :=
  let size := orDefault 2 size in
  let* color := gets (λ s, colorOf (objectManager s) type) in
  let* mass := gets (λ s, defaultMass (settings (physicsEngine s))) in
  let* made :=
    if String.eqb type "box" then
      let* mesh := createBox size color in
      let* body := PhysicsEngine.createBody
        (Desc.mk "box" size Undefined Undefined Undefined Undefined Undefined)
        mass position in
      ret (Some (mesh, body))
    else if String.eqb type "sphere" then
      let* mesh := createSphere (divide size 2) color in
      let* body := PhysicsEngine.createBody
        (Desc.mk "sphere" Undefined (divide size 2) Undefined Undefined Undefined Undefined)
        mass position in
      ret (Some (mesh, body))
    else if String.eqb type "cylinder" then
      let* mesh := createCylinder (divide size 2) size color in
      let* body := PhysicsEngine.createBody
        (Desc.mk "cylinder" Undefined Undefined (divide size 2) (divide size 2) size (Num 8))
        mass position in
      ret (Some (mesh, body))
    else if String.eqb type "cone" then
      let* mesh := createCone (divide size 2) size color in
      let* body := PhysicsEngine.createBody
        (Desc.mk "cone" Undefined (divide size 2) Undefined Undefined size (Num 8))
        mass position in
      ret (Some (mesh, body))
    else if String.eqb type "torus" then
      let* mesh := createTorus (divide size 2) (divide size 4) color in
      let* body := PhysicsEngine.createBody
        (Desc.mk "sphere" Undefined (divide size 2) Undefined Undefined Undefined Undefined)
        mass position in
      ret (Some (mesh, body))
    else ret None in
  match made with
  | None => ret None
  | Some (mesh, body) =>
      PhysicsRenderer.scene_add (THREE.MeshRef mesh) ;;
      let* n := gets (λ s, objectId (objectManager s)) in
      modify (withManager (λ m, mkManager (objects m) (S (objectId m)) (colors m))) ;;
      let* obj := newObjAt (Obj.mk n type mesh body) in
      modify (withManager (λ m, setObjects (objects m ++ [obj]) m)) ;;
      ret (Some obj)
  end.

(** [update()]: copy every body's transform to its mesh *)
Definition update : M unit :=
  forEach (λ s, objects (objectManager s)) (λ obj,
    let* o := deref (λ s, objs (store s)) obj in
    let* m := deref (λ s, meshes (store s)) (Obj.mesh o) in
    let* b := deref (λ s, bodies (store s)) (Obj.body o) in
    (* obj.mesh.position.copy(obj.body.position) *)
    let p := CANNON.position b in
    let m := THREE.mkMesh (THREE.geometry m) (THREE.material m)
               (mkVec3 (vx p) (vy p) (vz p)) (THREE.quaternion m)
               (THREE.castShadow m) (THREE.receiveShadow m)
               (THREE.geometryDisposed m) (THREE.materialDisposed m) in
    (* obj.mesh.quaternion.copy(obj.body.quaternion) *)
    let q := CANNON.quaternion b in
    let m := THREE.mkMesh (THREE.geometry m) (THREE.material m)
               (THREE.position m) (mkQuat (qx q) (qy q) (qz q) (qw q))
               (THREE.castShadow m) (THREE.receiveShadow m)
               (THREE.geometryDisposed m) (THREE.materialDisposed m) in
    modify (withStore (λ st, setMeshes (<[Obj.mesh o := m]> (meshes st)) st))).

(** [removeObject(obj)] *)
Definition removeObject (obj : addr) : M unit :=
  let* o := deref (λ s, objs (store s)) obj in
  (* remove from scene *)
  PhysicsRenderer.scene_remove (THREE.MeshRef (Obj.mesh o)) ;;
  (* dispose geometry and material *)
  let* m := deref (λ s, meshes (store s)) (Obj.mesh o) in
  let m := THREE.mkMesh (THREE.geometry m) (THREE.material m)
             (THREE.position m) (THREE.quaternion m)
             (THREE.castShadow m) (THREE.receiveShadow m) true true in
  modify (withStore (λ st, setMeshes (<[Obj.mesh o := m]> (meshes st)) st)) ;;
  (* remove from physics world *)
  PhysicsEngine.removeBody (Obj.body o) ;;
  (* remove from array *)
  let* index := gets (λ s, indexOf obj (objects (objectManager s))) in
  if (-1 <? index)%Z then
    modify (withManager (λ m, setObjects (splice1 index (objects m)) m))
  else ret tt.

(** [clearAll()] *)
Definition clearAll : M unit :=
  let* snapshot := gets (λ s, objects (objectManager s)) in
  forEach (λ _, snapshot) removeObject ;;
  PhysicsEngine.clearAllBodies.

(** [getCount()] *)
Definition getCount : M nat :=
  gets (λ s, length (objects (objectManager s))).

(** [spawnRandom(type)] *)
Definition spawnRandom (type : string) : M (option addr) :=
  let* r1 := Math_random in
  let* r2 := Math_random in
  let* r3 := Math_random in
  let position := (mkVec3 ((r1 - 0.5) * 10) (10 + r2 * 5) ((r3 - 0.5) * 10))%Q in
  let* r4 := Math_random in
  let size := (1.5 + r4 * 1.5)%Q in
  createObject type position (Num size).

(** [spawnAtPosition(type, position)] *)
Definition spawnAtPosition (type : string) (position : Vec3) : M (option addr) :=
  let spawnPos := (mkVec3 (vx position) (vy position + 2) (vz position))%Q in
  let* r := Math_random in
  let size := (1.5 + r * 0.5)%Q in
  createObject type spawnPos (Num size).

End ObjectManager.

(** ** app.js: the driver *)

Module App.

(** The state before any script has run. *)
Definition boot (e : Env) : Sys :=
  mkSys (mkStore [] [] [])
        (mkEngine (CANNON.mkWorld vec3_zero false []) 0 0 0 false
                  (CANNON.mkContactMaterial 0 0)
                  (mkSettings vec3_zero 0 0 0))
        (mkRenderer [] false false (Stats.mk 0 0 0) [])
        (mkManager [] 0 ∅)
        (mkDriver 0 0 "box" false 0 0)
        e.

(** The top-level [let lastTime = performance.now()] *)
Definition load : M unit :=
  let* now := performance_now in
  modify (withDriver (λ d,
    mkDriver (animationId d) now "box" false (fpsText d) (objectCountText d))).

(** [updateStats()] *)
Definition updateStats : M unit :=
  let* renderStats := PhysicsRenderer.getStats in
  let* n := ObjectManager.getCount in
  modify (withDriver (λ d,
    mkDriver (animationId d) (lastTime d) (selectedShape d) (uiPaused d) renderStats n)).

(** [animate()]: one frame.  The host numbers its frame requests
    consecutively; running the requested frame is a later call. *)
Definition animate : M unit :=
  modify (withDriver (λ d,
    mkDriver (S (animationId d)) (lastTime d) (selectedShape d) (uiPaused d)
             (fpsText d) (objectCountText d))) ;;
  let* currentTime := performance_now in
  let* last := gets (λ s, lastTime (driver s)) in
  let deltaTime := ((currentTime - last) / 1000)%Q in
  modify (withDriver (λ d,
    mkDriver (animationId d) currentTime (selectedShape d) (uiPaused d)
             (fpsText d) (objectCountText d))) ;;
  (* update physics *)
  PhysicsEngine.update deltaTime ;;
  (* update object positions *)
  ObjectManager.update ;;
  (* render scene *)
  PhysicsRenderer.render ;;
  (* update stats *)
  updateStats.

(** [init()], up to and including the first frame; the initial objects
    are spawned by later timer callbacks. *)
Definition init : M unit :=
  PhysicsEngine.constructor ;;
  PhysicsRenderer.constructor ;;
  ObjectManager.constructor ;;
  animate.

(** The click handler of the pause button *)
Definition togglePause : M unit :=
  modify (withDriver (λ d,
    mkDriver (animationId d) (lastTime d) (selectedShape d) (negb (uiPaused d))
             (fpsText d) (objectCountText d))) ;;
  let* p := gets (λ s, uiPaused (driver s)) in
  PhysicsEngine.setPaused p.

(** [resetSimulation()], without the camera *)
Definition resetSimulation : M unit :=
  ObjectManager.clearAll ;;
  PhysicsEngine.setGravity 0 (-9.8) 0 ;;
  PhysicsEngine.updateMaterialProperties 0.3 0.3 ;;
  let* p := gets (λ s, uiPaused (driver s)) in
  if p then
    modify (withDriver (λ d,
      mkDriver (animationId d) (lastTime d) (selectedShape d) false
               (fpsText d) (objectCountText d))) ;;
    PhysicsEngine.setPaused false
  else ret tt.

End App.

(** ** Histories: what the page can make the program do *)

Inductive Call : Type :=
  | CreateObject (type : string) (position : Vec3) (size : value)
  | SpawnRandom (type : string)
  | SpawnAtPosition (type : string) (position : Vec3)
  | RemoveObject (obj : addr)
  | SyncAll
  | ClearAll
  | EngineCreateBody (shape : Desc.t) (mass : Q) (position : Vec3)
  | EngineRemoveBody (body : addr)
  | EngineUpdate (deltaTime : Q)
  | EngineClearAllBodies
  | SetGravity (x y z : Q)
  | UpdateMaterialProperties (restitution friction : Q)
  | SetTimeScale (scale : Q)
  | SetPaused (paused : bool)
  | Render
  | Animate
  | TogglePause
  | ResetSimulation.

(** One call; the objects it returns to the caller are collected. *)
Definition perform (c : Call) : M (list addr) :=
  let issued (r : option addr) : list addr :=
    match r with Some a => [a] | None => [] end in
  match c with
  | CreateObject ty p sz =>
      let* r := ObjectManager.createObject ty p sz in ret (issued r)
  | SpawnRandom ty =>
      let* r := ObjectManager.spawnRandom ty in ret (issued r)
  | SpawnAtPosition ty p =>
      let* r := ObjectManager.spawnAtPosition ty p in ret (issued r)
  | RemoveObject obj => ObjectManager.removeObject obj ;; ret []
  | SyncAll => ObjectManager.update ;; ret []
  | ClearAll => ObjectManager.clearAll ;; ret []
  | EngineCreateBody sh m p => PhysicsEngine.createBody sh m p ;; ret []
  | EngineRemoveBody b => PhysicsEngine.removeBody b ;; ret []
  | EngineUpdate dt => PhysicsEngine.update dt ;; ret []
  | EngineClearAllBodies => PhysicsEngine.clearAllBodies ;; ret []
  | SetGravity x y z => PhysicsEngine.setGravity x y z ;; ret []
  | UpdateMaterialProperties r f => PhysicsEngine.updateMaterialProperties r f ;; ret []
  | SetTimeScale sc => PhysicsEngine.setTimeScale sc ;; ret []
  | SetPaused p => PhysicsEngine.setPaused p ;; ret []
  | Render => PhysicsRenderer.render ;; ret []
  | Animate => App.animate ;; ret []
  | TogglePause => App.togglePause ;; ret []
  | ResetSimulation => App.resetSimulation ;; ret []
  end.

(** A history of calls, with everything the registry has issued. *)
Fixpoint perform_all (cs : list Call) : M (list addr) :=
  match cs with
  | [] => ret []
  | c :: cs' =>
      let* xs := perform c in
      let* ys := perform_all cs' in
      ret (xs ++ ys)
  end.

(** The page after loading and [init()], then a history of calls. *)
Definition run (e : Env) (cs : list Call) : Res (list addr) :=
  (App.load ;; App.init ;; perform_all cs) (App.boot e).

(** ** Sample data *)

Definition sampleEnv : Env :=
  mkEnv (λ n, (inject_Z (Z.of_nat (n mod 7)) / 7)%Q) 0
        (λ n, (inject_Z (Z.of_nat n) * 16)%Q) 0
        (λ w _ dt _ _ _ b,
           let p := CANNON.position b in
           (if Qgtb (CANNON.mass b) 0
            then mkVec3 (vx p) (vy p + vy (CANNON.gravity w) * dt) (vz p)
            else p,
            CANNON.quaternion b, CANNON.velocity b, CANNON.angularVelocity b)%Q)
        (λ x y z, mkQuat (-0.7071) 0 0 0.7071)%Q
        (884279719003555 # 281474976710656)%Q.

Definition origin10 : Vec3 := mkVec3 0 10 0.

Definition sampleHistory : list Call :=
  [ SpawnRandom "sphere"; CreateObject "box" origin10 (Num 2); Animate;
    CreateObject "cylinder" origin10 Undefined; CreateObject "pyramid" origin10 (Num 1);
    RemoveObject 1; Animate; SpawnRandom "torus"; RemoveObject 1; TogglePause; Animate ].


(** ** Vocabulary of the properties *)

(** The closed set of shape kinds. *)
Definition kinds : list string := ["box"; "sphere"; "cylinder"; "cone"; "torus"].

(** The shape types [PhysicsEngine.createBody] knows. *)
Definition bodyTypes : list string := ["box"; "sphere"; "cylinder"; "cone"].

(** Iteration over a list that nothing changes meanwhile. *)
Fixpoint foldList {A B} (f : B → A → M B) (l : list A) (b : B) : M B :=
  match l with
  | [] => ret b
  | x :: l' => let* b' := f b x in foldList f l' b'
  end.

(** Projections of the state that the properties speak about. *)
Definition tracked (s : Sys) : list addr := objects (objectManager s).
Definition inWorld (s : Sys) : list addr := CANNON.bodies (world (physicsEngine s)).
Definition inScene (s : Sys) : list THREE.Object3D := scene (renderer s).
Definition objAt (s : Sys) (a : addr) : option Obj.t := objs (store s) !! a.
Definition meshAt (s : Sys) (a : addr) : option THREE.Mesh := meshes (store s) !! a.
Definition bodyAt (s : Sys) (a : addr) : option CANNON.Body := bodies (store s) !! a.

(** A body is dynamic when its mass is positive. *)
Definition dynamic (s : Sys) (b : addr) : bool :=
  match bodyAt s b with
  | Some x => Qgtb (CANNON.mass x) 0
  | None => false
  end.

(** The mesh of a tracked object shows the transform of its body. *)
Definition synced (before after : Sys) (obj : addr) : Prop :=
  ∃ o m b,
    objAt before obj = Some o ∧
    bodyAt before (Obj.body o) = Some b ∧
    meshAt after (Obj.mesh o) = Some m ∧
    THREE.position m = CANNON.position b ∧
    THREE.quaternion m = CANNON.quaternion b.

(** The mesh of an object is out of the scene and its resources are released. *)
Definition released (s : Sys) (o : Obj.t) : Prop :=
  (THREE.MeshRef (Obj.mesh o) ∉ inScene s) ∧
  (Obj.body o ∉ inWorld s) ∧
  ∃ m, meshAt s (Obj.mesh o) = Some m ∧
       THREE.geometryDisposed m = true ∧ THREE.materialDisposed m = true.

(** The invariant of the program. *)
Record wf (s : Sys) : Prop := mkWf {
  wf_issued : length (objs (store s)) = objectId (objectManager s);
  wf_id : ∀ a o, objAt s a = Some o → Obj.id o = a;
  wf_tracked : ∀ a, a ∈ tracked s → a < length (objs (store s));
  wf_tracked_nodup : NoDup (tracked s);
  wf_fields : ∀ a o, objAt s a = Some o →
      Obj.mesh o < length (meshes (store s)) ∧ Obj.body o < length (bodies (store s));
  wf_mesh_inj : ∀ a a' o o', objAt s a = Some o → objAt s a' = Some o' →
      Obj.mesh o = Obj.mesh o' → a = a';
  wf_body_inj : ∀ a a' o o', objAt s a = Some o → objAt s a' = Some o' →
      Obj.body o = Obj.body o' → a = a';
  wf_scene_nodup : NoDup (inScene s);
  wf_scene : ∀ a, THREE.MeshRef a ∈ inScene s → a < length (meshes (store s));
  wf_world_nodup : NoDup (inWorld s);
  wf_world : ∀ b, b ∈ inWorld s → b < length (bodies (store s));
  wf_untracked : ∀ a o, objAt s a = Some o → a ∉ tracked s → released s o;
  wf_defaultMass : Qgtb (defaultMass (settings (physicsEngine s))) 0 = true;
  wf_mass : ∀ a o, objAt s a = Some o → dynamic s (Obj.body o) = true;
}.

(** The state with another list of bodies in the world. *)
Definition setInWorld (l : list addr) (s : Sys) : Sys :=
  withEngine (λ e,
    setWorld (CANNON.mkWorld (CANNON.gravity (world e)) (CANNON.allowSleep (world e)) l) e) s.

(** Two meshes that differ at most in position and orientation. *)
Definition sameButTransform (m m' : THREE.Mesh) : Prop :=
  THREE.geometry m' = THREE.geometry m ∧
  THREE.material m' = THREE.material m ∧
  THREE.castShadow m' = THREE.castShadow m ∧
  THREE.receiveShadow m' = THREE.receiveShadow m ∧
  THREE.geometryDisposed m' = THREE.geometryDisposed m ∧
  THREE.materialDisposed m' = THREE.materialDisposed m.

(** Between two states only meshes changed, and only in their
    transform: no mesh, body or registry entry came or went. *)
Definition meshesMoved (s s' : Sys) : Prop :=
  physicsEngine s' = physicsEngine s ∧
  renderer s' = renderer s ∧
  objectManager s' = objectManager s ∧
  driver s' = driver s ∧
  env s' = env s ∧
  bodies (store s') = bodies (store s) ∧
  objs (store s') = objs (store s) ∧
  length (meshes (store s')) = length (meshes (store s)) ∧
  ∀ a m, meshAt s a = Some m → ∃ m', meshAt s' a = Some m' ∧ sameButTransform m m'.

(** Same registry, scene, world, meshes and bodies: only parameters,
    statistics, the driver or the oracles differ. *)
Definition sameObjects (s s' : Sys) : Prop :=
  store s' = store s ∧
  objectManager s' = objectManager s ∧
  defaultMass (settings (physicsEngine s')) = defaultMass (settings (physicsEngine s)) ∧
  inScene s' = inScene s ∧
  inWorld s' = inWorld s.

(** What a call does to the store of tracked-object records: it appends
    the records of the objects it returns, and nothing else. *)
Definition grows (s : Sys) (xs : list addr) (s' : Sys) : Prop :=
  wf s' ∧
  ∃ news, objs (store s') = objs (store s) ++ news ∧
          xs = seq (length (objs (store s))) (length news).

(** The ids of the entries of the registry, in order. *)
Definition ids (s : Sys) : list nat :=
  omap (λ a, Obj.id <$> objAt s a) (tracked s).

(** The geometry handed to THREE and the shape description handed to
    [PhysicsEngine.createBody] in each case of the [switch] of
    [createObject], for the size after defaulting; [None] in the
    [default] case. *)
Definition caseOf (type : string) (size : value) : option (THREE.Geometry * Desc.t) :=
  if String.eqb type "box" then
    Some (THREE.BoxGeometry size size size,
          Desc.mk "box" size Undefined Undefined Undefined Undefined Undefined)
  else if String.eqb type "sphere" then
    Some (THREE.SphereGeometry (divide size 2) 32 32,
          Desc.mk "sphere" Undefined (divide size 2) Undefined Undefined Undefined Undefined)
  else if String.eqb type "cylinder" then
    Some (THREE.CylinderGeometry (divide size 2) (divide size 2) size 32,
          Desc.mk "cylinder" Undefined Undefined (divide size 2) (divide size 2) size (Num 8))
  else if String.eqb type "cone" then
    Some (THREE.ConeGeometry (divide size 2) size 32,
          Desc.mk "cone" Undefined (divide size 2) Undefined Undefined size (Num 8))
  else if String.eqb type "torus" then
    Some (THREE.TorusGeometry (divide size 2) (divide size 4) 16 100,
          Desc.mk "sphere" Undefined (divide size 2) Undefined Undefined Undefined Undefined)
  else None.

(** The part of [createObject] that all five cases of its [switch]
    share, with the geometry and the shape description of the case as
    parameters. *)
Definition spawnWith (type : string) (g : THREE.Geometry) (d : Desc.t)
    (position : Vec3) : M (option addr) :=
  let* color := gets (λ s, ObjectManager.colorOf (objectManager s) type) in
  let* mass := gets (λ s, defaultMass (settings (physicsEngine s))) in
  let* mesh := ObjectManager.shadowedMesh g (ObjectManager.standardMaterial color) in
  let* body := PhysicsEngine.createBody d mass position in
  PhysicsRenderer.scene_add (THREE.MeshRef mesh) ;;
  let* n := gets (λ s, objectId (objectManager s)) in
  modify (withManager (λ m, mkManager (objects m) (S (objectId m)) (colors m))) ;;
  let* obj := newObjAt (Obj.mk n type mesh body) in
  modify (withManager (λ m, setObjects (objects m ++ [obj]) m)) ;;
  ret (Some obj).

(** A spawn of kind [type] and size [q] made, in [s'], the object
    [obj] with a mesh of geometry [g] and a body of the one shape [sh]. *)
Definition spawned (type : string) (position : Vec3) (size : value) (s : Sys)
    (g : THREE.Geometry) (sh : CANNON.Shape) : Prop :=
  ∃ obj o m b s',
    ObjectManager.createObject type position size s = Ok (Some obj) s' ∧
    objAt s' obj = Some o ∧
    Obj.type o = type ∧
    meshAt s' (Obj.mesh o) = Some m ∧
    bodyAt s' (Obj.body o) = Some b ∧
    THREE.geometry m = g ∧
    CANNON.shapes b = [sh].

(** The cylinder sentence as the specification words it: the geometry
    given to the scene has radius [q/2], height [q] and 8 segments. *)
Definition cylinderSceneHasEightSegments (position : Vec3) (q : Q) (s : Sys) : Prop :=
  ∃ sh, spawned "cylinder" position (Num q) s
          (THREE.CylinderGeometry (Num (q / 2)) (Num (q / 2)) (Num q) 8) sh.

(** An environment whose simulation step puts every body of the world
    at (0, 8, 0). *)
Definition mockedEnv : Env :=
  mkEnv (random sampleEnv) 0 (clock sampleEnv) 0
        (λ _ _ _ _ _ _ b,
           (mkVec3 0 8 0, CANNON.quaternion b, CANNON.velocity b, CANNON.angularVelocity b))
        (setFromEuler sampleEnv) (PI sampleEnv).

(** The state after the sample history, and the objects issued in it. *)
Definition sampleState : Sys :=
  Eval vm_compute in
    match run sampleEnv sampleHistory with
    | Ok _ s => s
    | Throw _ => App.boot sampleEnv
    end.

Definition sampleIssued : list addr := [0; 1; 2; 3].

(** A shorter history that leaves two objects tracked. *)
Definition twoObjects : Sys :=
  Eval vm_compute in
    match run sampleEnv [CreateObject "box" origin10 (Num 2); SpawnRandom "cone"] with
    | Ok _ s => s
    | Throw _ => App.boot sampleEnv
    end.

(** [clearAll] as it would be without the copy of the array: the loop
    runs over the array that [removeObject] is shortening. *)
Definition clearAllWithoutSnapshot : M unit :=
  forEach (λ s, objects (objectManager s)) ObjectManager.removeObject ;;
  PhysicsEngine.clearAllBodies.

(** ** Further vocabulary *)

(** The colour table the constructor of the registry installs. *)
Definition palette : gmap string Z :=
  <["box" := 0x00ff88%Z]> (<["sphere" := 0x00d4ff%Z]> (<["cylinder" := 0xb24bf3%Z]>
    (<["cone" := 0xff6b6b%Z]> (<["torus" := 0xffd93d%Z]> ∅)))).

(** The children the renderer gives the scene in [init()]. *)
Definition fixtures : list THREE.Object3D :=
  [ THREE.Fixture "AmbientLight"; THREE.Fixture "DirectionalLight";
    THREE.Fixture "HemisphereLight"; THREE.Fixture "GridHelper";
    THREE.Fixture "ground"; THREE.Fixture "AxesHelper" ].

(** The meshes of the tracked objects, in the order of the registry. *)
Definition trackedMeshes (s : Sys) : list addr :=
  omap (λ a, Obj.mesh <$> objAt s a) (tracked s).

(** The static bodies of the world, in its order. *)
Definition statics (s : Sys) : list addr :=
  filter (λ b, dynamic s b = false) (inWorld s).

(** The number of dynamic bodies in the world. *)
Definition dynamicCount (s : Sys) : nat :=
  length (filter (λ b, dynamic s b = true) (inWorld s)).

(** A size that the library takes for every kind: omitted, or a number
    that is not negative.  The sizes of the specification, the positive
    numbers and the default, are among them. *)
Definition validSize (size : value) : Prop :=
  match size with
  | Undefined => True
  | NaN => False
  | Num q => (0 <= q)%Q
  end.

(** What [Math.random()] promises of its result. *)
Definition unitInterval (r : Q) : Prop := (0 <= r)%Q ∧ (r < 1)%Q.

(** The [k]-th next result of [Math.random()]. *)
Definition nextRandom (s : Sys) (k : nat) : Q :=
  random (env s) (randomCalls (env s) + k).

(** The mesh and the body one spawn makes, and the environment after
    [k] more calls of [Math.random()]. *)
Definition meshMade (s : Sys) (ty : string) (g : THREE.Geometry) : THREE.Mesh :=
  THREE.mkMesh g (ObjectManager.standardMaterial (ObjectManager.colorOf (objectManager s) ty))
    vec3_zero quat_identity true true false false.

Definition bodyMade (s : Sys) (mass : Q) (sh : CANNON.Shape) (p : Vec3) : CANNON.Body :=
  CANNON.mkBody mass CANNON.DefaultMaterial (mkVec3 (vx p) (vy p) (vz p)) quat_identity
    0.1 0.1 [sh] vec3_zero
    (mkVec3 ((nextRandom s 0 - 0.5) * 2) ((nextRandom s 1 - 0.5) * 2)
            ((nextRandom s 2 - 0.5) * 2))%Q.

Definition drawRandom (k : nat) (e : Env) : Env :=
  mkEnv (random e) (k + randomCalls e) (clock e) (clockReads e)
        (integrate e) (setFromEuler e) (PI e).

(** Two bodies that differ at most in their motion. *)
Definition sameButMotion (b b' : CANNON.Body) : Prop :=
  CANNON.mass b' = CANNON.mass b ∧
  CANNON.material b' = CANNON.material b ∧
  CANNON.linearDamping b' = CANNON.linearDamping b ∧
  CANNON.angularDamping b' = CANNON.angularDamping b ∧
  CANNON.shapes b' = CANNON.shapes b.

(** A mesh keeps its geometry, material and shadow flags, and stays
    disposed once it is. *)
Definition sameButUse (m m' : THREE.Mesh) : Prop :=
  THREE.geometry m' = THREE.geometry m ∧
  THREE.material m' = THREE.material m ∧
  THREE.castShadow m' = THREE.castShadow m ∧
  THREE.receiveShadow m' = THREE.receiveShadow m ∧
  (THREE.geometryDisposed m = true → THREE.geometryDisposed m' = true) ∧
  (THREE.materialDisposed m = true → THREE.materialDisposed m' = true).

(** What no call undoes: the record of an object, the make of a body,
    the make of a mesh and its disposal, and the ids handed out. *)
Record kept (s s' : Sys) : Prop := mkKept {
  kept_objs : ∀ a o, objAt s a = Some o → objAt s' a = Some o;
  kept_bodies : ∀ a b, bodyAt s a = Some b →
      ∃ b', bodyAt s' a = Some b' ∧ sameButMotion b b';
  kept_meshes : ∀ a m, meshAt s a = Some m →
      ∃ m', meshAt s' a = Some m' ∧ sameButUse m m';
  kept_objectId : objectId (objectManager s) ≤ objectId (objectManager s');
  kept_colors : colors (objectManager s') = colors (objectManager s);
}.

(** A step that leaves the registry and the scene alone; meshes may move. *)
Record registryKept (s s' : Sys) : Prop := mkRegistryKept {
  rk_objs : objs (store s') = objs (store s);
  rk_manager : objectManager s' = objectManager s;
  rk_scene : inScene s' = inScene s;
  rk_meshes : ∀ a m, meshAt s a = Some m →
      ∃ m', meshAt s' a = Some m' ∧ sameButTransform m m';
}.

(** Every static body of the world stays in it, and stays static. *)
Definition staticsStay (s s' : Sys) : Prop :=
  ∀ b, b ∈ inWorld s → dynamic s b = false → b ∈ inWorld s' ∧ dynamic s' b = false.

(** A step that leaves the registry, the scene and the world's list of
    bodies alone; meshes and bodies may move. *)
Record quiet (s s' : Sys) : Prop := mkQuiet {
  q_objs : objs (store s') = objs (store s);
  q_manager : objectManager s' = objectManager s;
  q_scene : inScene s' = inScene s;
  q_world : inWorld s' = inWorld s;
  q_meshes_len : length (meshes (store s')) = length (meshes (store s));
  q_meshes : ∀ a m, meshAt s a = Some m →
      ∃ m', meshAt s' a = Some m' ∧ sameButTransform m m';
  q_bodies_len : length (bodies (store s')) = length (bodies (store s));
  q_bodies : ∀ a b, bodyAt s a = Some b →
      ∃ b', bodyAt s' a = Some b' ∧ sameButMotion b b';
}.

(** The parameters of the engine, without the pause flag and the
    world's bodies, and the statistics of the renderer. *)
Definition engineParams (s : Sys)
    : Q * Z * Q * CANNON.ContactMaterial * Settings * Vec3 * bool :=
  (timeStep (physicsEngine s), maxSubSteps (physicsEngine s), timeScale (physicsEngine s),
   contactMaterial (physicsEngine s), settings (physicsEngine s),
   CANNON.gravity (world (physicsEngine s)), CANNON.allowSleep (world (physicsEngine s))).

Definition tuned (s s' : Sys) : Prop :=
  engineParams s' = engineParams s ∧
  stats (renderer s') = stats (renderer s).

(** The parameters of the engine and the registry that only their
    setters change. *)
Record coherent (s : Sys) : Prop := mkCoherent {
  co_timeStep : timeStep (physicsEngine s) = (1 / 60)%Q;
  co_maxSubSteps : maxSubSteps (physicsEngine s) = 3%Z;
  co_defaultMass : defaultMass (settings (physicsEngine s)) = 5%Q;
  co_timeScale : (0.1 <= timeScale (physicsEngine s))%Q ∧ (timeScale (physicsEngine s) <= 2)%Q;
  co_gravity : CANNON.gravity (world (physicsEngine s)) = gravity (settings (physicsEngine s));
  co_friction :
    CANNON.friction (contactMaterial (physicsEngine s)) = friction (settings (physicsEngine s));
  co_restitution :
    CANNON.restitution (contactMaterial (physicsEngine s))
    = restitution (settings (physicsEngine s));
  co_allowSleep : CANNON.allowSleep (world (physicsEngine s)) = true;
  co_colors : colors (objectManager s) = palette;
  co_frames : (0 <= Stats.frames (stats (renderer s)))%Z;
  co_fps : (0 <= Stats.fps (stats (renderer s)))%Z;
}.

(** The scene holds the fixtures and then the meshes of the tracked
    objects in registry order, none of them disposed. *)
Record sceneMatches (s : Sys) : Prop := mkSceneMatches {
  sm_scene : inScene s = fixtures ++ (THREE.MeshRef <$> trackedMeshes s);
  sm_live : ∀ a o, a ∈ tracked s → objAt s a = Some o →
      ∃ m, meshAt s (Obj.mesh o) = Some m ∧
           THREE.geometryDisposed m = false ∧ THREE.materialDisposed m = false;
}.

(** The ground body: the first body ever made, static, a plane, in the
    world. *)
Definition groundInPlace (s : Sys) : Prop :=
  0 ∈ inWorld s ∧
  ∃ b, bodyAt s 0 = Some b ∧
       CANNON.mass b = 0%Q ∧
       CANNON.shapes b = [CANNON.Plane] ∧
       CANNON.material b = CANNON.GroundMaterial.

(** The bodies of the tracked objects, in the order of the registry. *)
Definition trackedBodies (s : Sys) : list addr :=
  omap (λ a, Obj.body <$> objAt s a) (tracked s).

(** The world holds the ground, which is static, and then the bodies
    of the tracked objects in registry order. *)
Definition worldMatches (s : Sys) : Prop :=
  dynamic s 0 = false ∧ inWorld s = 0 :: trackedBodies s.

(** A call of the engine's body methods that does not go through the
    registry; app.js makes none. *)
Definition isEngineCall (c : Call) : bool :=
  match c with
  | EngineCreateBody _ _ _ | EngineRemoveBody _ | EngineClearAllBodies => true
  | _ => false
  end.

(** A direct call of [PhysicsEngine.removeBody]. *)
Definition isEngineRemoveBody (c : Call) : bool :=
  match c with
  | EngineRemoveBody _ => true
  | _ => false
  end.

(** A spawn of a supported kind through [spawnRandom], or a frame. *)
Definition isSpawnOrFrame (c : Call) : bool :=
  match c with
  | SpawnRandom ty => bool_decide (ty ∈ kinds)
  | Animate => true
  | _ => false
  end.

(** The kinds spawned by a history of spawns and frames, in order. *)
Definition spawnedKinds (cs : list Call) : list string :=
  omap (λ c, match c with SpawnRandom ty => Some ty | _ => None end) cs.

(** ** app.js: callbacks *)

Module Handlers.

(** The [visibilitychange] callback, for the value of [document.hidden].
    Cancelling the requested frame changes nothing in the state, as
    running it is a later call. *)
Definition visibilityChange (hidden : bool) : M unit :=
  if hidden then ret tt
  else
    let* now := performance_now in
    modify (withDriver (λ d,
      mkDriver (animationId d) now (selectedShape d) (uiPaused d)
               (fpsText d) (objectCountText d))) ;;
    App.animate.

(** [spawnInitialObjects()]: the kinds and delays of the timers it sets. *)
Definition initialObjects : list (string * Q) :=
  [ ("sphere", 0%Q); ("box", 400%Q); ("cylinder", 800%Q);
    ("cone", 1200%Q); ("torus", 1600%Q) ].

(** The timer callbacks in the order they fire, which is the order of
    their delays. *)
Definition spawnInitialObjects : list Call :=
  (λ obj, SpawnRandom obj.1) <$> initialObjects.

End Handlers.

(** ** Further sample data *)

(** The first objects, each followed by a frame. *)
Definition openingHistory : list Call :=
  c ← Handlers.spawnInitialObjects; [c; Animate].

Definition openingIssued : list addr := [0; 1; 2; 3; 4].

Definition openingState : Sys :=
  Eval vm_compute in
    match run sampleEnv openingHistory with
    | Ok _ s => s
    | Throw _ => App.boot sampleEnv
    end.

(** What the sample history is continued with. *)
Definition sampleSequel : list Call :=
  [ RemoveObject 0; EngineRemoveBody 0; SetTimeScale 5; Animate; ClearAll;
    SpawnAtPosition "box" origin10; ResetSimulation ].

Definition sequelIssued : list addr := [4].

Definition sequelState : Sys :=
  Eval vm_compute in
    match perform_all sampleSequel sampleState with
    | Ok _ s => s
    | Throw _ => sampleState
    end.

(** The state after spawning a box into the sample state. *)
Definition sampleSpawned : Sys :=
  Eval vm_compute in
    match ObjectManager.createObject "box" origin10 (Num 2) sampleState with
    | Ok _ s => s
    | Throw _ => sampleState
    end.

(** The state after removing object 0 from the sample state. *)
Definition sampleRemoved : Sys :=
  Eval vm_compute in
    match ObjectManager.removeObject 0 sampleState with
    | Ok _ s => s
    | Throw _ => sampleState
    end.

(** * Properties *)

(** ** Arrays *)

Section ArrayFacts.
Context {A : Type} `{EqDecision A}.
Implicit Types (x y : A) (l : list A).

Lemma indexOf_found x l : x ∈ l → (-1 <? indexOf x l)%Z = true.
Proof.
  intros Hin. unfold indexOf.
  destruct (list_find (λ y, y = x) l) as [[i y]|] eqn:E.
  - apply Z.ltb_lt. lia.
  - apply list_find_None in E. rewrite Forall_forall in E.
    exfalso. by apply (E x).
Qed.

Lemma indexOf_missing x l : x ∉ l → indexOf x l = (-1)%Z.
Proof.
  intros Hn. unfold indexOf.
  destruct (list_find (λ y, y = x) l) as [[i y]|] eqn:E; [|done].
  apply list_find_Some in E as (Hl & -> & _).
  exfalso. apply Hn. by eapply list_elem_of_lookup_2.
Qed.

Lemma removeFirst_nil x : removeFirst x [] = [].
Proof. done. Qed.

Lemma removeFirst_cons x y l :
  removeFirst x (y :: l) = if decide (y = x) then l else y :: removeFirst x l.
Proof.
  unfold removeFirst, indexOf, splice1. simpl.
  destruct (decide (y = x)) as [->|Hne]; simpl; [done|].
  destruct (list_find (λ y, y = x) l) as [[i z]|]; simpl; [|done].
  replace (-1 <? Z.of_nat (S i))%Z with true by (symmetry; apply Z.ltb_lt; lia).
  replace (-1 <? Z.of_nat i)%Z with true by (symmetry; apply Z.ltb_lt; lia).
  by rewrite !Nat2Z.id.
Qed.

Lemma removeFirst_missing x l : x ∉ l → removeFirst x l = l.
Proof. intros Hn. unfold removeFirst. by rewrite indexOf_missing. Qed.

Lemma removeFirst_length x l :
  x ∈ l → S (length (removeFirst x l)) = length l.
Proof.
  induction l as [|y l IH]; intros Hin; [by apply elem_of_nil in Hin|].
  rewrite removeFirst_cons. destruct (decide (y = x)) as [->|Hne]; [done|].
  apply elem_of_cons in Hin as [->|Hin]; [done|]. simpl. by rewrite IH.
Qed.

Lemma removeFirst_subseteq x l : removeFirst x l ⊆ l.
Proof.
  induction l as [|y l IH]; [done|].
  rewrite removeFirst_cons. destruct (decide (y = x)); set_solver.
Qed.

Lemma elem_of_removeFirst_ne x y l : y ≠ x → y ∈ removeFirst x l ↔ y ∈ l.
Proof.
  intros Hne. induction l as [|z l IH]; [done|].
  rewrite removeFirst_cons. destruct (decide (z = x)) as [->|]; set_solver.
Qed.

Lemma removeFirst_NoDup x l : NoDup l → NoDup (removeFirst x l).
Proof.
  induction 1 as [|y l Hy Hl IH]; [constructor|].
  rewrite removeFirst_cons. destruct (decide (y = x)); [done|].
  constructor; [|done]. intros Hin. apply Hy. by apply removeFirst_subseteq in Hin.
Qed.

Lemma removeFirst_gone x l : NoDup l → x ∉ removeFirst x l.
Proof.
  induction 1 as [|y l Hy Hl IH]; [apply not_elem_of_nil|].
  rewrite removeFirst_cons. destruct (decide (y = x)) as [->|]; [done|].
  set_solver.
Qed.

Lemma removeFirst_filter (P : A → bool) pre l :
  (∀ x, x ∈ pre → P x = false) →
  foldl (λ acc x, removeFirst x acc) (pre ++ l) (filter (λ x, P x = true) l)
  = pre ++ filter (λ x, P x = false) l.
Proof.
  revert pre. induction l as [|y l IH]; intros pre Hpre; [done|].
  destruct (P y) eqn:Py.
  - rewrite filter_cons_True by done. rewrite (filter_cons_False (λ x, P x = false)) by congruence.
    simpl. replace (removeFirst y (pre ++ y :: l)) with (pre ++ l); [by apply IH|].
    clear IH. induction pre as [|z pre IHp]; simpl.
    + rewrite removeFirst_cons. by rewrite decide_True.
    + rewrite removeFirst_cons. rewrite decide_False.
      * f_equal. apply IHp. intros; apply Hpre; set_solver.
      * intros ->. specialize (Hpre y). rewrite Hpre in Py; [done|set_solver].
  - rewrite filter_cons_False by congruence. rewrite (filter_cons_True (λ x, P x = false)) by done.
    replace (pre ++ y :: l) with ((pre ++ [y]) ++ l) by (by rewrite <- app_assoc).
    rewrite IH; [by rewrite <- app_assoc|].
    intros x [?| ->%list_elem_of_singleton]%elem_of_app; auto.
Qed.

End ArrayFacts.
Ltac run_monad :=
  unfold PhysicsEngine.removeBody, PhysicsEngine.world_removeBody,
    PhysicsEngine.world_addBody, PhysicsEngine.updWorld,
    PhysicsRenderer.scene_add, PhysicsRenderer.scene_remove,
    Math_random, performance_now, newMeshAt, newBodyAt, newObjAt, deref,
    bind, ret, gets, modify, throw in *.

Lemma kinds_cases ty :
  ty ∈ kinds →
  ty = "box" ∨ ty = "sphere" ∨ ty = "cylinder" ∨ ty = "cone" ∨ ty = "torus".
Proof. unfold kinds. rewrite !elem_of_cons, elem_of_nil. tauto. Qed.

(** ** What one spawn does *)

Lemma caseOf_supported ty sz :
  ty ∈ kinds → ∃ g d, caseOf ty sz = Some (g, d).
Proof.
  intros Hk. apply kinds_cases in Hk.
  destruct Hk as [->|[->|[->|[->| ->]]]]; by eexists _, _.
Qed.

Lemma caseOf_unsupported ty sz : ty ∉ kinds → caseOf ty sz = None.
Proof.
  intros Hn. unfold kinds in Hn. rewrite !not_elem_of_cons in Hn.
  destruct Hn as (H1 & H2 & H3 & H4 & H5 & _).
  apply String.eqb_neq in H1, H2, H3, H4, H5.
  unfold caseOf. by rewrite H1, H2, H3, H4, H5.
Qed.

Lemma caseOf_Some_kinds ty sz g d : caseOf ty sz = Some (g, d) → ty ∈ kinds.
Proof.
  intros H. destruct (decide (ty ∈ kinds)) as [|Hn]; [done|].
  by rewrite caseOf_unsupported in H.
Qed.

(** The library accepts the radius of a sphere that is half of a size
    that is not negative. *)
Lemma newSphere_half q :
  (0 <= q)%Q → CANNON.newSphere (Num (q / 2)) = inr (CANNON.Sphere (Num (q / 2))).
Proof.
  intros Hq. unfold CANNON.newSphere.
  replace (Qle_bool 0 (q / 2)) with true; [done|].
  symmetry. apply Qle_bool_iff. apply Qle_shift_div_l; [done|].
  by rewrite Qmult_0_l.
Qed.

(** For a size as the specification has it, the shape of every case of
    [createObject] can be made. *)
Lemma caseOf_valid ty sz :
  ty ∈ kinds → validSize sz →
  ∃ g d sh, caseOf ty (orDefault 2 sz) = Some (g, d)
            ∧ PhysicsEngine.cannonShapeOf d = inr sh.
Proof.
  intros Hk Hsz. apply kinds_cases in Hk.
  destruct sz as [| |q]; [|done|]; simpl in Hsz;
    destruct Hk as [->|[->|[->|[->| ->]]]];
    eexists _, _, _; (split; [reflexivity|]);
    try reflexivity;
    unfold PhysicsEngine.cannonShapeOf; simpl; by apply newSphere_half.
Qed.

(** [createBody] makes the shape first; if that fails nothing has
    changed, and otherwise the body is stored and added to the world. *)
Lemma createBody_exact d m p s :
  PhysicsEngine.createBody d m p s =
  match PhysicsEngine.cannonShapeOf d with
  | inr sh =>
      Ok (length (bodies (store s)))
         (mkSys (setBodies (bodies (store s) ++ [bodyMade s m sh p]) (store s))
                (setWorld (CANNON.addBody (length (bodies (store s)))
                             (world (physicsEngine s)))
                          (physicsEngine s))
                (renderer s) (objectManager s) (driver s) (drawRandom 3 (env s)))
  | inl e => Throw e
  end.
Proof.
  unfold PhysicsEngine.createBody. unfold bind at 1.
  destruct (PhysicsEngine.cannonShapeOf d) as [e|sh]; [reflexivity|].
  run_monad. simpl. unfold bodyMade, nextRandom, drawRandom.
  rewrite Nat.add_0_r, !Nat.add_1_r.
  replace (randomCalls (env s) + 2) with (S (S (randomCalls (env s)))) by lia.
  reflexivity.
Qed.

Lemma spawnWith_exact ty g d p s :
  spawnWith ty g d p s =
  match PhysicsEngine.cannonShapeOf d with
  | inr sh =>
      Ok (Some (length (objs (store s))))
         (mkSys (mkStore (meshes (store s) ++ [meshMade s ty g])
                         (bodies (store s) ++
                            [bodyMade s (defaultMass (settings (physicsEngine s))) sh p])
                         (objs (store s) ++
                            [Obj.mk (objectId (objectManager s)) ty
                               (length (meshes (store s))) (length (bodies (store s)))]))
                (setWorld (CANNON.addBody (length (bodies (store s)))
                             (world (physicsEngine s)))
                          (physicsEngine s))
                (setScene (THREE.add (THREE.MeshRef (length (meshes (store s)))) (inScene s))
                          (renderer s))
                (mkManager (tracked s ++ [length (objs (store s))])
                           (S (objectId (objectManager s))) (colors (objectManager s)))
                (driver s) (drawRandom 3 (env s)))
  | inl e => Throw e
  end.
Proof.
  unfold spawnWith, ObjectManager.shadowedMesh.
  unfold bind at 1. unfold gets at 1. unfold bind at 1. unfold gets at 1.
  unfold bind at 1. unfold newMeshAt at 1. unfold bind at 1.
  rewrite createBody_exact.
  destruct (PhysicsEngine.cannonShapeOf d) as [e|sh]; [reflexivity|].
  run_monad. simpl. reflexivity.
Qed.

(** [createObject] is its [switch] followed by the common part. *)
Lemma createObject_cases ty p sz s :
  ObjectManager.createObject ty p sz s =
  match caseOf ty (orDefault 2 sz) with
  | Some (g, d) => spawnWith ty g d p s
  | None => Ok None s
  end.
Proof.
  unfold ObjectManager.createObject, caseOf.
  destruct (String.eqb ty "box"); [|
  destruct (String.eqb ty "sphere"); [|
  destruct (String.eqb ty "cylinder"); [|
  destruct (String.eqb ty "cone"); [|
  destruct (String.eqb ty "torus"); [|reflexivity]]]]];
    unfold spawnWith, ObjectManager.createBox, ObjectManager.createSphere,
      ObjectManager.createCylinder, ObjectManager.createCone,
      ObjectManager.createTorus, ObjectManager.shadowedMesh,
      bind, gets, newMeshAt;
    rewrite createBody_exact;
    match goal with
    | |- context [PhysicsEngine.cannonShapeOf ?d] =>
        destruct (PhysicsEngine.cannonShapeOf d)
    end; reflexivity.
Qed.

(** What a spawn of a supported kind returns and stores, when the shape
    of its case can be made. *)
Lemma createObject_exact ty p sz s g d sh :
  caseOf ty (orDefault 2 sz) = Some (g, d) →
  PhysicsEngine.cannonShapeOf d = inr sh →
  ObjectManager.createObject ty p sz s =
  Ok (Some (length (objs (store s))))
     (mkSys (mkStore (meshes (store s) ++ [meshMade s ty g])
                     (bodies (store s) ++
                        [bodyMade s (defaultMass (settings (physicsEngine s))) sh p])
                     (objs (store s) ++
                        [Obj.mk (objectId (objectManager s)) ty
                           (length (meshes (store s))) (length (bodies (store s)))]))
            (setWorld (CANNON.addBody (length (bodies (store s))) (world (physicsEngine s)))
                      (physicsEngine s))
            (setScene (THREE.add (THREE.MeshRef (length (meshes (store s)))) (inScene s))
                      (renderer s))
            (mkManager (tracked s ++ [length (objs (store s))])
                       (S (objectId (objectManager s))) (colors (objectManager s)))
            (driver s) (drawRandom 3 (env s))).
Proof. intros H Hsh. by rewrite createObject_cases, H, spawnWith_exact, Hsh. Qed.

(** A spawn of a supported kind that returns has made one mesh, one
    body and one record. *)
Lemma createObject_run ty p sz s r s' :
  ty ∈ kinds →
  ObjectManager.createObject ty p sz s = Ok r s' →
  ∃ m b,
    r = Some (length (objs (store s)))
    ∧ store s' =
        mkStore (meshes (store s) ++ [m]) (bodies (store s) ++ [b])
          (objs (store s) ++
             [Obj.mk (objectId (objectManager s)) ty
                     (length (meshes (store s))) (length (bodies (store s)))])
    ∧ objectManager s' =
        mkManager (tracked s ++ [length (objs (store s))])
                  (S (objectId (objectManager s))) (colors (objectManager s))
    ∧ inScene s' = THREE.add (THREE.MeshRef (length (meshes (store s)))) (inScene s)
    ∧ inWorld s' =
        CANNON.bodies (CANNON.addBody (length (bodies (store s))) (world (physicsEngine s)))
    ∧ CANNON.mass b = defaultMass (settings (physicsEngine s))
    ∧ settings (physicsEngine s') = settings (physicsEngine s).
Proof.
  intros Hk E. destruct (caseOf_supported ty (orDefault 2 sz) Hk) as (g & d & Hc).
  rewrite createObject_cases, Hc, spawnWith_exact in E.
  destruct (PhysicsEngine.cannonShapeOf d) as [e|sh]; [done|].
  injection E as <- <-. eexists _, _. repeat split.
Qed.

Lemma removeObject_run obj o m s :
  objAt s obj = Some o → meshAt s (Obj.mesh o) = Some m →
  Obj.body o < length (bodies (store s)) →
  ∃ s',
    ObjectManager.removeObject obj s = Ok tt s'
    ∧ store s' =
        setMeshes (<[Obj.mesh o :=
            THREE.mkMesh (THREE.geometry m) (THREE.material m) (THREE.position m)
              (THREE.quaternion m) (THREE.castShadow m) (THREE.receiveShadow m) true true]>
            (meshes (store s))) (store s)
    ∧ objectManager s' = setObjects (removeFirst obj (tracked s)) (objectManager s)
    ∧ renderer s' = setScene (THREE.remove (THREE.MeshRef (Obj.mesh o)) (inScene s)) (renderer s)
    ∧ physicsEngine s' =
        setWorld (CANNON.removeBody (Obj.body o) (world (physicsEngine s))) (physicsEngine s)
    ∧ driver s' = driver s ∧ env s' = env s.
Proof.
  unfold objAt, meshAt. intros Ho Hm Hb.
  apply lookup_lt_is_Some in Hb as [b Hb].
  unfold ObjectManager.removeObject. run_monad. rewrite Ho. simpl. rewrite Hm. simpl.
  rewrite Hb. simpl.
  unfold removeFirst, tracked.
  destruct (-1 <? indexOf obj (objects (objectManager s)))%Z; simpl.
  - eexists. split; [reflexivity|]. simpl. repeat split.
  - eexists. split; [reflexivity|]. simpl. repeat split.
    unfold setObjects. by destruct (objectManager s).
Qed.

Lemma lookup_le_length {A B} (l : list A) (l' : list B) :
  (∀ a x, l !! a = Some x → is_Some (l' !! a)) → length l ≤ length l'.
Proof.
  intros H. destruct (decide (length l = 0)) as [->|Hne]; [lia|].
  destruct (lookup_lt_is_Some_2 l (pred (length l))) as [x Hx]; [lia|].
  apply H in Hx. apply lookup_lt_is_Some in Hx. lia.
Qed.

(** Changes that leave the registry alone. *)
Lemma wf_update s s' :
  wf s →
  objs (store s') = objs (store s) →
  objectManager s' = objectManager s →
  defaultMass (settings (physicsEngine s')) = defaultMass (settings (physicsEngine s)) →
  (∀ a b, bodyAt s a = Some b →
      ∃ b', bodyAt s' a = Some b' ∧ CANNON.mass b' = CANNON.mass b) →
  (∀ a m, meshAt s a = Some m → ∃ m', meshAt s' a = Some m' ∧
      (THREE.geometryDisposed m = true → THREE.geometryDisposed m' = true) ∧
      (THREE.materialDisposed m = true → THREE.materialDisposed m' = true)) →
  NoDup (inScene s') →
  (∀ a, THREE.MeshRef a ∈ inScene s' → a < length (meshes (store s'))) →
  (∀ a, a < length (meshes (store s)) →
        THREE.MeshRef a ∈ inScene s' → THREE.MeshRef a ∈ inScene s) →
  NoDup (inWorld s') →
  (∀ b, b ∈ inWorld s' → b < length (bodies (store s'))) →
  (∀ b, b < length (bodies (store s)) → b ∈ inWorld s' → b ∈ inWorld s) →
  wf s'.
Proof.
  intros W Ho Hm Hdm Hbody Hmesh Hsn Hsv Hss Hwn Hwv Hws.
  assert (Hlen : length (meshes (store s)) ≤ length (meshes (store s'))).
  { apply lookup_le_length. intros a x Hx.
    destruct (Hmesh a x Hx) as (m' & Hm' & _). by exists m'. }
  assert (Hlenb : length (bodies (store s)) ≤ length (bodies (store s'))).
  { apply lookup_le_length. intros a x Hx.
    destruct (Hbody a x Hx) as (m' & Hm' & _). by exists m'. }
  destruct W as [W1 W2 W3 W4 W5 W6 W7 W8 W9 W10 W11 W12 W13 W14].
  unfold objAt, tracked in *.
  split; unfold objAt, tracked; rewrite ?Ho, ?Hm, ?Hdm; try done.
  - intros a o Ha. destruct (W5 a o Ha). lia.
  - intros a o Ha Hn. destruct (W5 a o Ha) as [Hlm Hlb].
    destruct (W12 a o Ha Hn) as (R1 & R2 & m & R3 & R4 & R5).
    split; [|split].
    + intros Hin. apply R1. by apply Hss.
    + intros Hin. apply R2. by apply Hws.
    + destruct (Hmesh _ _ R3) as (m' & E & G1 & G2). exists m'. auto.
  - intros a o Ha. specialize (W14 a o Ha). unfold dynamic in *.
    destruct (bodyAt s (Obj.body o)) as [b|] eqn:Hb; [|done].
    destruct (Hbody _ _ Hb) as (b' & -> & ->). done.
Qed.

(** Changes that touch neither the registry, the scene, the world's
    body list nor any mesh, and keep every body's mass. *)
Lemma wf_same s s' :
  wf s →
  objs (store s') = objs (store s) →
  meshes (store s') = meshes (store s) →
  objectManager s' = objectManager s →
  defaultMass (settings (physicsEngine s')) = defaultMass (settings (physicsEngine s)) →
  (∀ a b, bodyAt s a = Some b →
      ∃ b', bodyAt s' a = Some b' ∧ CANNON.mass b' = CANNON.mass b) →
  length (bodies (store s')) = length (bodies (store s)) →
  inScene s' = inScene s →
  inWorld s' = inWorld s →
  wf s'.
Proof.
  intros W Ho Hme Hm Hdm Hbody Hlen Hsc Hwo.
  apply (wf_update s s' W); try done.
  - unfold meshAt. rewrite Hme. intros a m Ha. by exists m.
  - rewrite Hsc. apply W.
  - rewrite Hsc, Hme. apply W.
  - by rewrite Hsc.
  - rewrite Hwo. apply W.
  - rewrite Hwo, Hlen. apply W.
  - by rewrite Hwo.
Qed.

(** ** Iteration *)

Lemma forEachFrom_stable {A B} (arr : Sys → list A) (f : B → A → M B) :
  (∀ b x s b' s', f b x s = Ok b' s' → arr s' = arr s) →
  ∀ n k b s, n + k = length (arr s) →
    forEachFrom arr f n k b s = foldList f (drop k (arr s)) b s.
Proof.
  intros Hst. induction n as [|n IH]; intros k b s Hlen; simpl.
  - rewrite drop_ge by lia. done.
  - destruct (lookup_lt_is_Some_2 (arr s) k) as [x Hx]; [lia|].
    rewrite Hx. rewrite (drop_S _ _ _ Hx). simpl. unfold bind.
    destruct (f b x s) as [b' s'|e] eqn:E; [|done].
    pose proof (Hst _ _ _ _ _ E) as Harr.
    rewrite IH by (rewrite Harr; lia). by rewrite Harr.
Qed.

Lemma foldEach_stable {A B} (arr : Sys → list A) (f : B → A → M B) b s :
  (∀ b x s b' s', f b x s = Ok b' s' → arr s' = arr s) →
  foldEach arr f b s = foldList f (arr s) b s.
Proof.
  intros Hst. unfold foldEach. rewrite forEachFrom_stable by (done || lia).
  by rewrite drop_0.
Qed.

Lemma foldEach_const {A B} (l : list A) (f : B → A → M B) b s :
  foldEach (λ _, l) f b s = foldList f l b s.
Proof. by apply foldEach_stable. Qed.

(** Reasoning about a loop with an invariant on what is left to visit. *)
Lemma foldList_inv {A B} (f : B → A → M B) (I : list A → B → Sys → Prop) :
  (∀ x rest b s, I (x :: rest) b s → ∃ b' s', f b x s = Ok b' s' ∧ I rest b' s') →
  ∀ l b s, I l b s → ∃ b' s', foldList f l b s = Ok b' s' ∧ I [] b' s'.
Proof.
  intros Hstep. induction l as [|x l IH]; intros b s HI; simpl.
  - by exists b, s.
  - destruct (Hstep _ _ _ _ HI) as (b' & s' & E & HI'). unfold bind. rewrite E.
    by apply IH.
Qed.

(** ** The registry operations keep the invariant *)

Lemma createObject_unsupported ty p sz s :
  ty ∉ kinds → ObjectManager.createObject ty p sz s = Ok None s.
Proof.
  intros Hn. unfold kinds in Hn. rewrite !not_elem_of_cons in Hn.
  destruct Hn as (H1 & H2 & H3 & H4 & H5 & _).
  apply String.eqb_neq in H1, H2, H3, H4, H5.
  unfold ObjectManager.createObject. run_monad.
  by rewrite H1, H2, H3, H4, H5.
Qed.

Lemma add_fresh (o : THREE.Object3D) l : o ∉ l → THREE.add o l = l ++ [o].
Proof. intros Hn. unfold THREE.add. by rewrite removeFirst_missing. Qed.

Lemma addBody_fresh b w :
  b ∉ CANNON.bodies w → CANNON.bodies (CANNON.addBody b w) = CANNON.bodies w ++ [b].
Proof. intros Hn. simpl. by rewrite bool_decide_eq_false_2. Qed.

Lemma createObject_wf ty p sz s r s' :
  wf s → ObjectManager.createObject ty p sz s = Ok r s' → wf s'.
Proof.
  intros W E. destruct (decide (ty ∈ kinds)) as [Hk|Hk].
  2:{ rewrite createObject_unsupported in E by done. by injection E as _ <-. }
  destruct (createObject_run ty p sz s r s' Hk E)
    as (m & b & _ & Hst & Hom & Hsc & Hwo & Hmass & Hset).
  clear E. rename s' into s2.
  destruct W as [W1 W2 W3 W4 W5 W6 W7 W8 W9 W10 W11 W12 W13 W14].
  assert (Hfm : THREE.MeshRef (length (meshes (store s))) ∉ inScene s).
  { intros Hin. apply W9 in Hin. lia. }
  assert (Hfb : length (bodies (store s)) ∉ inWorld s).
  { intros Hin. apply W11 in Hin. lia. }
  rewrite add_fresh in Hsc by done. rewrite addBody_fresh in Hwo by done.
  assert (Hlook : ∀ a o, objAt s2 a = Some o →
            objAt s a = Some o ∨
            (a = length (objs (store s)) ∧
             o = Obj.mk (objectId (objectManager s)) ty
                   (length (meshes (store s))) (length (bodies (store s))))).
  { unfold objAt. rewrite Hst. simpl. intros a o Ha.
    apply lookup_app_Some in Ha as [Ha|[Hge Ha]]; [by left|right].
    apply list_lookup_singleton_Some in Ha as [Ha <-]. split; [lia|done]. }
  split; unfold tracked; rewrite ?Hst, ?Hom, ?Hsc, ?Hwo; simpl.
  - rewrite length_app. simpl. lia.
  - intros a o Ha. destruct (Hlook a o Ha) as [Hold|[-> ->]]; [by apply W2|simpl; lia].
  - intros a Ha. rewrite length_app. simpl.
    apply elem_of_app in Ha as [Ha|Ha%list_elem_of_singleton]; [apply W3 in Ha|]; lia.
  - apply NoDup_app. split; [done|]. split; [|apply NoDup_singleton].
    intros a Ha ->%list_elem_of_singleton. apply W3 in Ha. lia.
  - intros a o Ha. rewrite !length_app. simpl.
    destruct (Hlook a o Ha) as [Hold|[-> ->]]; [apply W5 in Hold|simpl]; lia.
  - intros a a' o o' Ha Ha' Heq.
    destruct (Hlook a o Ha) as [Hold|[-> ->]], (Hlook a' o' Ha') as [Hold'|[-> ->]].
    + by eapply W6.
    + apply W5 in Hold. simpl in Heq. lia.
    + apply W5 in Hold'. simpl in Heq. lia.
    + done.
  - intros a a' o o' Ha Ha' Heq.
    destruct (Hlook a o Ha) as [Hold|[-> ->]], (Hlook a' o' Ha') as [Hold'|[-> ->]].
    + by eapply W7.
    + apply W5 in Hold. simpl in Heq. lia.
    + apply W5 in Hold'. simpl in Heq. lia.
    + done.
  - apply NoDup_app. split; [done|]. split; [|apply NoDup_singleton].
    by intros x Hx ->%list_elem_of_singleton.
  - intros a Ha. rewrite length_app. simpl.
    apply elem_of_app in Ha as [Ha|Ha%list_elem_of_singleton]; [apply W9 in Ha; lia|].
    injection Ha as ->. lia.
  - apply NoDup_app. split; [done|]. split; [|apply NoDup_singleton].
    by intros x Hx ->%list_elem_of_singleton.
  - intros b' Hb. rewrite length_app. simpl.
    apply elem_of_app in Hb as [Hb|Hb%list_elem_of_singleton]; [apply W11 in Hb|]; lia.
  - intros a o Ha Hn. rewrite not_elem_of_app in Hn. destruct Hn as [Hn Hn'].
    destruct (Hlook a o Ha) as [Hold|[-> ->]].
    2:{ exfalso. apply Hn'. by apply list_elem_of_singleton. }
    destruct (W5 _ _ Hold) as [Hlm Hlb].
    destruct (W12 a o Hold Hn) as (R1 & R2 & m0 & R3 & R4 & R5).
    unfold released, meshAt. rewrite Hsc, Hwo, Hst. simpl. split; [|split].
    + rewrite not_elem_of_app. split; [done|].
      intros Hx%list_elem_of_singleton. injection Hx as Hx. lia.
    + rewrite not_elem_of_app. split; [done|].
      intros Hx%list_elem_of_singleton. lia.
    + exists m0. split; [|done]. by apply lookup_app_l_Some.
  - by rewrite Hset.
  - intros a o Ha. unfold dynamic, bodyAt. rewrite Hst. simpl.
    destruct (Hlook a o Ha) as [Hold|[-> ->]].
    + specialize (W14 a o Hold). unfold dynamic, bodyAt in W14.
      destruct (bodies (store s) !! Obj.body o) as [b0|] eqn:Hb0; [|done].
      by rewrite (lookup_app_l_Some _ _ _ _ Hb0).
    + simpl. rewrite lookup_app_r by lia. rewrite Nat.sub_diag. simpl.
      by rewrite Hmass.
Qed.

Lemma removeObject_throws obj s :
  objAt s obj = None → ObjectManager.removeObject obj s = Throw TypeError.
Proof.
  unfold objAt. intros Ho. unfold ObjectManager.removeObject. run_monad. by rewrite Ho.
Qed.

(** What [removeObject] does to a state that satisfies the invariant. *)
Lemma removeObject_wf_run obj o s :
  wf s → objAt s obj = Some o →
  ∃ m s',
    meshAt s (Obj.mesh o) = Some m
    ∧ ObjectManager.removeObject obj s = Ok tt s'
    ∧ store s' =
        setMeshes (<[Obj.mesh o :=
            THREE.mkMesh (THREE.geometry m) (THREE.material m) (THREE.position m)
              (THREE.quaternion m) (THREE.castShadow m) (THREE.receiveShadow m) true true]>
            (meshes (store s))) (store s)
    ∧ objectManager s' = setObjects (removeFirst obj (tracked s)) (objectManager s)
    ∧ renderer s' = setScene (THREE.remove (THREE.MeshRef (Obj.mesh o)) (inScene s)) (renderer s)
    ∧ physicsEngine s' =
        setWorld (CANNON.removeBody (Obj.body o) (world (physicsEngine s))) (physicsEngine s)
    ∧ driver s' = driver s ∧ env s' = env s.
Proof.
  intros W Ho. destruct (wf_fields s W _ _ Ho) as [Hm Hb].
  apply lookup_lt_is_Some in Hm as [m Hm].
  destruct (removeObject_run obj o m s Ho Hm Hb) as (s' & H).
  exists m, s'. split; [done|exact H].
Qed.

Lemma removeObject_wf obj s s' :
  wf s → ObjectManager.removeObject obj s = Ok tt s' → wf s'.
Proof.
  intros W E. destruct (objAt s obj) as [o|] eqn:Ho.
  2:{ by rewrite removeObject_throws in E. }
  destruct (removeObject_wf_run obj o s W Ho)
    as (m & s2 & Hm & E2 & Hst & Hom & Hre & Hpe & _).
  rewrite E2 in E. injection E as <-. clear E2.
  destruct W as [W1 W2 W3 W4 W5 W6 W7 W8 W9 W10 W11 W12 W13 W14].
  assert (Hobjs : ∀ a, objAt s2 a = objAt s a).
  { intros a. unfold objAt. by rewrite Hst. }
  assert (Hflags : ∀ a m0, meshAt s a = Some m0 → ∃ m', meshAt s2 a = Some m' ∧
      (THREE.geometryDisposed m0 = true → THREE.geometryDisposed m' = true) ∧
      (THREE.materialDisposed m0 = true → THREE.materialDisposed m' = true)).
  { unfold meshAt. rewrite Hst. simpl. intros a m0 Ha.
    destruct (decide (a = Obj.mesh o)) as [->|Hne].
    - rewrite list_lookup_insert_eq by (by eapply lookup_lt_Some).
      eexists. split; [reflexivity|]. simpl. done.
    - exists m0. by rewrite list_lookup_insert_ne. }
  split; unfold tracked, inScene, inWorld;
    rewrite ?Hst, ?Hom, ?Hre, ?Hpe; simpl; rewrite ?length_insert; try done.
  - intros a o' Ha. apply (W2 a o'). by rewrite <- Hobjs.
  - intros a Ha. apply W3. by apply removeFirst_subseteq in Ha.
  - by apply removeFirst_NoDup.
  - intros a o' Ha. apply (W5 a o'). by rewrite <- Hobjs.
  - intros a a' o1 o2 Ha Ha'. rewrite Hobjs in Ha, Ha'. by eapply W6.
  - intros a a' o1 o2 Ha Ha'. rewrite Hobjs in Ha, Ha'. by eapply W7.
  - by apply removeFirst_NoDup.
  - intros a Ha. apply W9. by apply removeFirst_subseteq in Ha.
  - by apply removeFirst_NoDup.
  - intros b Hb. apply W11. by apply removeFirst_subseteq in Hb.
  - intros a o' Ha Hn. rewrite Hobjs in Ha.
    unfold released, inScene, inWorld. rewrite Hre, Hpe. simpl.
    destruct (decide (a = obj)) as [->|Hne].
    + assert (o' = o) as -> by congruence.
      split; [by apply removeFirst_gone|]. split; [by apply removeFirst_gone|].
      destruct (Hflags _ _ Hm) as (m' & Hm' & _).
      unfold meshAt in *. rewrite Hst in *. simpl in *.
      rewrite list_lookup_insert_eq in Hm' |- * by (by eapply lookup_lt_Some).
      eexists. split; [reflexivity|]. simpl. done.
    + rewrite elem_of_removeFirst_ne in Hn by done.
      destruct (W12 a o' Ha Hn) as (R1 & R2 & m0 & R3 & R4 & R5).
      split; [|split].
      * intros Hin. apply R1. by apply removeFirst_subseteq in Hin.
      * intros Hin. apply R2. by apply removeFirst_subseteq in Hin.
      * destruct (Hflags _ _ R3) as (m' & Hm' & G1 & G2). exists m'. auto.
  - intros a o' Ha. rewrite Hobjs in Ha. specialize (W14 a o' Ha).
    unfold dynamic, bodyAt in *. by rewrite Hst.
Qed.

(** ** The engine operations *)

Lemma setInWorld_id s : setInWorld (inWorld s) s = s.
Proof. by destruct s as [st [[g a bs] ts ms sc pa cm se] re om dr en]. Qed.

Lemma setInWorld_twice l l' s : setInWorld l (setInWorld l' s) = setInWorld l s.
Proof. done. Qed.

Lemma setInWorld_wf l s :
  wf s → NoDup l → l ⊆ inWorld s → wf (setInWorld l s).
Proof.
  intros W Hnd Hsub. apply (wf_update s _ W); try done.
  - intros a b Hb. by exists b.
  - intros a m Hm. by exists m.
  - apply W.
  - apply W.
  - intros b Hb. apply W. by apply Hsub.
  - intros b _ Hb. by apply Hsub.
Qed.

Lemma createBody_run d m p s a s' :
  PhysicsEngine.createBody d m p s = Ok a s' →
  ∃ b, a = length (bodies (store s))
    ∧ store s' = setBodies (bodies (store s) ++ [b]) (store s)
    ∧ CANNON.mass b = m
    ∧ inWorld s' =
        CANNON.bodies (CANNON.addBody (length (bodies (store s))) (world (physicsEngine s)))
    ∧ settings (physicsEngine s') = settings (physicsEngine s)
    ∧ renderer s' = renderer s ∧ objectManager s' = objectManager s.
Proof.
  rewrite createBody_exact.
  destruct (PhysicsEngine.cannonShapeOf d) as [e|sh]; [done|].
  intros E. injection E as <- <-. eexists. repeat split.
Qed.

Lemma createBody_wf d m p s a s' :
  wf s → PhysicsEngine.createBody d m p s = Ok a s' →
  wf s' ∧ objs (store s') = objs (store s).
Proof.
  intros W E.
  destruct (createBody_run d m p s a s' E) as (b & _ & Hst & _ & Hwo & Hset & Hre & Hom).
  clear E. rename s' into s2.
  assert (Hfb : length (bodies (store s)) ∉ inWorld s).
  { intros Hin. apply (wf_world s W) in Hin. lia. }
  rewrite addBody_fresh in Hwo by done.
  split; [|by rewrite Hst].
  apply (wf_update s s2 W); unfold bodyAt, meshAt, inScene; rewrite ?Hst, ?Hre, ?Hwo, ?Hset;
    simpl; try done.
  - intros a0 b0 Hb0. exists b0. split; [by apply lookup_app_l_Some|done].
  - intros a0 m0 Hm0. by exists m0.
  - apply W.
  - apply W.
  - apply NoDup_app. split; [apply W|]. split; [|apply NoDup_singleton].
    by intros x Hx ->%list_elem_of_singleton.
  - intros b0 Hb0. rewrite length_app. simpl.
    apply elem_of_app in Hb0 as [Hb0|Hb0%list_elem_of_singleton];
      [apply (wf_world s W) in Hb0|]; lia.
  - intros b0 Hlt Hb0.
    apply elem_of_app in Hb0 as [Hb0|Hb0%list_elem_of_singleton]; [done|lia].
Qed.

Lemma removeBody_run b s :
  PhysicsEngine.removeBody b s =
    match bodyAt s b with
    | Some _ => Ok tt (setInWorld (removeFirst b (inWorld s)) s)
    | None => Throw TypeError
    end.
Proof.
  unfold PhysicsEngine.removeBody, PhysicsEngine.world_removeBody, bodyAt.
  run_monad. by destruct (bodies (store s) !! b).
Qed.

Lemma removeBody_wf b s s' :
  wf s → PhysicsEngine.removeBody b s = Ok tt s' →
  wf s' ∧ objs (store s') = objs (store s).
Proof.
  intros W E. rewrite removeBody_run in E. destruct (bodyAt s b); [|done].
  injection E as <-. split; [|done].
  apply setInWorld_wf; [done| |apply removeFirst_subseteq].
  apply removeFirst_NoDup, W.
Qed.

(** The first loop of [clearAllBodies] collects the dynamic bodies. *)
Lemma collect_dynamic l acc s :
  (∀ b, b ∈ l → b < length (bodies (store s))) →
  foldList (λ (acc : list nat) body,
      let* b := deref (λ s, bodies (store s)) body in
      if Qgtb (CANNON.mass b) 0 then ret (acc ++ [body]) else ret acc) l acc s
  = Ok (acc ++ filter (λ b, dynamic s b = true) l) s.
Proof.
  revert acc. induction l as [|x l IH]; intros acc Hv; simpl.
  - by rewrite app_nil_r.
  - destruct (lookup_lt_is_Some_2 (bodies (store s)) x) as [b Hb]; [apply Hv; set_solver|].
    run_monad. rewrite Hb.
    assert (Hd : dynamic s x = Qgtb (CANNON.mass b) 0).
    { unfold dynamic, bodyAt. by rewrite Hb. }
    destruct (Qgtb (CANNON.mass b) 0) eqn:Hq.
    + rewrite IH by (intros; apply Hv; set_solver).
      rewrite filter_cons_True by done. by rewrite <- app_assoc.
    + rewrite IH by (intros; apply Hv; set_solver).
      rewrite filter_cons_False by congruence. done.
Qed.

(** The second loop removes them one by one. *)
Lemma remove_each l s :
  (∀ b, b ∈ l → b < length (bodies (store s))) →
  foldList (λ _ x, PhysicsEngine.world_removeBody x) l tt s
  = Ok tt (setInWorld (foldl (λ acc x, removeFirst x acc) (inWorld s) l) s).
Proof.
  revert s. induction l as [|x l IH]; intros s Hv; simpl.
  - by rewrite setInWorld_id.
  - pose proof (removeBody_run x s) as E.
    unfold PhysicsEngine.removeBody in E. unfold bind. rewrite E.
    destruct (lookup_lt_is_Some_2 (bodies (store s)) x) as [b Hb]; [apply Hv; set_solver|].
    unfold bodyAt. rewrite Hb. rewrite IH by (intros; apply Hv; set_solver). done.
Qed.

Lemma clearAllBodies_run s :
  (∀ b, b ∈ inWorld s → b < length (bodies (store s))) →
  PhysicsEngine.clearAllBodies s
  = Ok tt (setInWorld (filter (λ b, dynamic s b = false) (inWorld s)) s).
Proof.
  intros Hv. unfold PhysicsEngine.clearAllBodies. unfold bind at 1.
  rewrite foldEach_stable.
  2:{ intros b x s0 b' s' E. run_monad.
      destruct (bodies (store s0) !! x); [|done].
      by destruct (Qgtb _ _); injection E as _ <-. }
  rewrite collect_dynamic by done. simpl.
  unfold forEach. rewrite foldEach_const.
  rewrite remove_each.
  2:{ intros b Hb. apply Hv. apply list_elem_of_filter in Hb. tauto. }
  f_equal. f_equal.
  pose proof (removeFirst_filter (λ b, dynamic s b) [] (inWorld s)) as H.
  simpl in H. apply H. intros x Hx. by apply elem_of_nil in Hx.
Qed.

Lemma clearAllBodies_wf s s' :
  wf s → PhysicsEngine.clearAllBodies s = Ok tt s' →
  wf s' ∧ objs (store s') = objs (store s).
Proof.
  intros W E. rewrite clearAllBodies_run in E by apply W. injection E as <-.
  split; [|done]. apply setInWorld_wf; [done| |].
  - apply NoDup_filter, W.
  - intros x Hx. apply list_elem_of_filter in Hx. tauto.
Qed.

Lemma engine_update_paused dt s :
  isPaused (physicsEngine s) = true → PhysicsEngine.update dt s = Ok tt s.
Proof. intros Hp. unfold PhysicsEngine.update. run_monad. by rewrite Hp. Qed.

Lemma setMotion_mass mo b : CANNON.mass (CANNON.setMotion mo b) = CANNON.mass b.
Proof. by destruct mo as [[[p q] v] w]. Qed.

Lemma engine_update_run dt s :
  ∃ s', PhysicsEngine.update dt s = Ok tt s'
    ∧ objs (store s') = objs (store s)
    ∧ meshes (store s') = meshes (store s)
    ∧ length (bodies (store s')) = length (bodies (store s))
    ∧ (∀ a b, bodyAt s a = Some b →
         ∃ b', bodyAt s' a = Some b' ∧ CANNON.mass b' = CANNON.mass b)
    ∧ physicsEngine s' = physicsEngine s ∧ renderer s' = renderer s
    ∧ objectManager s' = objectManager s ∧ driver s' = driver s ∧ env s' = env s.
Proof.
  unfold PhysicsEngine.update, PhysicsEngine.world_step. run_monad.
  destruct (isPaused (physicsEngine s)); simpl.
  - exists s. repeat split; try done. intros a b Hb. by exists b.
  - eexists. split; [reflexivity|]. simpl. rewrite length_imap. repeat split; try done.
    intros a b Hb. unfold bodyAt in *. simpl. rewrite list_lookup_imap, Hb. simpl.
    eexists. split; [reflexivity|]. case_bool_decide; [apply setMotion_mass|done].
Qed.

Lemma engine_update_wf dt s s' :
  wf s → PhysicsEngine.update dt s = Ok tt s' →
  wf s' ∧ objs (store s') = objs (store s).
Proof.
  intros W E.
  destruct (engine_update_run dt s) as (s2 & E2 & Ho & Hm & Hl & Hb & Hpe & Hre & Hom & _).
  rewrite E2 in E. injection E as <-. split; [|done].
  apply (wf_same s s2 W); unfold inScene, inWorld; rewrite ?Hpe, ?Hre; done.
Qed.

(** ** The sync pass *)

Lemma sameButTransform_refl m : sameButTransform m m.
Proof. by repeat split. Qed.

Lemma sameButTransform_trans m1 m2 m3 :
  sameButTransform m1 m2 → sameButTransform m2 m3 → sameButTransform m1 m3.
Proof. unfold sameButTransform. intros (?&?&?&?&?&?) (?&?&?&?&?&?). repeat split; congruence. Qed.

Lemma meshesMoved_refl s : meshesMoved s s.
Proof.
  repeat split; try done. intros a m Hm. exists m.
  split; [done|apply sameButTransform_refl].
Qed.

Lemma meshesMoved_wf s s' : wf s → meshesMoved s s' → wf s'.
Proof.
  intros W (Hpe & Hre & Hom & Hdr & Hen & Hbo & Hob & Hlen & Hme).
  apply (wf_update s s' W); unfold bodyAt, inScene, inWorld; rewrite ?Hpe, ?Hre, ?Hbo; try done.
  - intros a b Hb. by exists b.
  - intros a m Hm. destruct (Hme a m Hm) as (m' & Hm' & _ & _ & _ & _ & G1 & G2).
    exists m'. rewrite G1, G2. done.
  - apply W.
  - rewrite Hlen. apply W.
  - apply W.
  - apply W.
Qed.

Lemma vec3_eta p : mkVec3 (vx p) (vy p) (vz p) = p.
Proof. by destruct p. Qed.

Lemma quat_eta q : mkQuat (qx q) (qy q) (qz q) (qw q) = q.
Proof. by destruct q. Qed.

Lemma sync_run s :
  wf s →
  ∃ s', ObjectManager.update s = Ok tt s'
    ∧ meshesMoved s s'
    ∧ (∀ obj, obj ∈ tracked s → synced s s' obj)
    ∧ (∀ a, (∀ obj o, obj ∈ tracked s → objAt s obj = Some o → Obj.mesh o ≠ a) →
            meshAt s' a = meshAt s a).
Proof.
  intros W. unfold ObjectManager.update, forEach.
  rewrite foldEach_stable.
  2:{ intros [] x s0 [] s1 E. run_monad.
      destruct (objs (store s0) !! x) as [o|]; [|done]. simpl in E.
      destruct (meshes (store s0) !! Obj.mesh o); [|done]. simpl in E.
      destruct (bodies (store s0) !! Obj.body o); [|done]. by injection E as <-. }
  set (I := λ (rest : list nat) (_ : unit) (c : Sys),
    meshesMoved s c ∧
    ∃ visited, tracked s = visited ++ rest ∧
      (∀ obj, obj ∈ visited → synced s c obj) ∧
      (∀ a, (∀ obj o, obj ∈ visited → objAt s obj = Some o → Obj.mesh o ≠ a) →
            meshAt c a = meshAt s a)).
  match goal with
  | |- ∃ _, foldList ?f _ _ _ = _ ∧ _ =>
      destruct (foldList_inv f I) with (l := tracked s) (b := tt) (s := s)
        as ([] & s' & E & HI)
  end.
  - (* one iteration *)
    intros x rest [] c (Hmv & visited & Hsplit & Hsync & Hrest).
    destruct Hmv as (Hpe & Hre & Hom & Hdr & Hen & Hbo & Hob & Hlen & Hme).
    assert (Hx : x ∈ tracked s) by (rewrite Hsplit; set_solver).
    destruct (lookup_lt_is_Some_2 (objs (store s)) x) as [o Ho]; [by apply W|].
    destruct (wf_fields s W x o Ho) as [Hlm Hlb].
    destruct (lookup_lt_is_Some_2 (meshes (store s)) _ Hlm) as [m0 Hm0].
    destruct (lookup_lt_is_Some_2 (bodies (store s)) _ Hlb) as [b Hb].
    destruct (Hme _ _ Hm0) as (m & Hm & Hsame).
    run_monad. rewrite Hob, Ho. simpl. unfold meshAt in Hm. rewrite Hm. simpl.
    rewrite Hbo, Hb. simpl. eexists tt, _. split; [reflexivity|].
    rewrite vec3_eta, quat_eta.
    assert (Hnd : NoDup (visited ++ x :: rest)) by (rewrite <- Hsplit; apply W).
    split.
    + repeat split; simpl; try done.
      * by rewrite length_insert.
      * intros a m1 Hm1. unfold meshAt. simpl.
        destruct (decide (a = Obj.mesh o)) as [->|Hne].
        -- rewrite list_lookup_insert_eq by (rewrite Hlen; lia).
           eexists. split; [reflexivity|].
           assert (m1 = m0) as -> by (unfold meshAt in Hm1; congruence).
           eapply sameButTransform_trans; [exact Hsame|]. by repeat split.
        -- rewrite list_lookup_insert_ne by done. by apply Hme.
    + exists (visited ++ [x]). split; [by rewrite <- app_assoc|]. split.
      * intros obj Hobj. apply elem_of_app in Hobj as [Hobj|Hobj%list_elem_of_singleton].
        -- destruct (Hsync obj Hobj) as (o1 & m1 & b1 & Ho1 & Hb1 & Hm1 & Hp1 & Hq1).
           exists o1, m1, b1. repeat split; try done.
           unfold meshAt. simpl. rewrite list_lookup_insert_ne; [done|].
           intros Heq. assert (x = obj) as -> by (by eapply (wf_mesh_inj s W)).
           apply NoDup_app in Hnd as (_ & Hnd & _). apply (Hnd obj Hobj). set_solver.
        -- subst obj. eexists o, _, b. split; [done|]. split; [done|].
           unfold meshAt. simpl. rewrite list_lookup_insert_eq by (rewrite Hlen; lia).
           split; [reflexivity|]. done.
      * intros a Ha. unfold meshAt. simpl. rewrite list_lookup_insert_ne.
        -- apply Hrest. intros obj o1 Hobj. apply Ha. set_solver.
        -- apply (Ha x o); [set_solver|done].
  - (* the invariant holds initially *)
    split; [apply meshesMoved_refl|]. exists []. split; [done|]. split; [|done].
    intros obj Hobj. by apply elem_of_nil in Hobj.
  - exists s'. split; [done|]. destruct HI as (Hmv & visited & Hsplit & Hsync & Hrest).
    rewrite app_nil_r in Hsplit. subst visited. done.
Qed.

(** ** Clearing *)

Lemma filter_removeFirst_other {A} `{EqDecision A} (P : A → bool) x (l : list A) :
  P x = true →
  filter (λ y, P y = false) (removeFirst x l) = filter (λ y, P y = false) l.
Proof.
  intros Px. induction l as [|y l IH]; [done|].
  rewrite removeFirst_cons. destruct (decide (y = x)) as [->|Hne].
  - rewrite filter_cons_False by congruence. done.
  - rewrite !filter_cons. by rewrite IH.
Qed.

Lemma dynamic_same_bodies s s' b :
  bodies (store s') = bodies (store s) → dynamic s' b = dynamic s b.
Proof. intros H. unfold dynamic, bodyAt. by rewrite H. Qed.

Lemma clearAll_run s :
  wf s →
  ∃ s', ObjectManager.clearAll s = Ok tt s'
    ∧ wf s'
    ∧ tracked s' = []
    ∧ inWorld s' = filter (λ b, dynamic s b = false) (inWorld s)
    ∧ objs (store s') = objs (store s)
    ∧ bodies (store s') = bodies (store s)
    ∧ objectId (objectManager s') = objectId (objectManager s).
Proof.
  intros W. unfold ObjectManager.clearAll. unfold bind at 1. unfold gets.
  unfold bind at 1. unfold forEach. rewrite foldEach_const.
  set (I := λ (rest : list nat) (_ : unit) (c : Sys),
    wf c ∧
    objs (store c) = objs (store s) ∧
    bodies (store c) = bodies (store s) ∧
    objectId (objectManager c) = objectId (objectManager s) ∧
    tracked c ⊆ rest ∧
    rest ⊆ tracked s ∧
    filter (λ b, dynamic s b = false) (inWorld c)
      = filter (λ b, dynamic s b = false) (inWorld s)).
  destruct (foldList_inv (λ _ x, ObjectManager.removeObject x) I)
    with (l := tracked s) (b := tt) (s := s) as ([] & s1 & E & HI).
  - intros x rest [] c (Wc & Hob & Hbo & Hid & Hsub & Hrest & Hfil).
    assert (Hx : x ∈ tracked s) by (apply Hrest; set_solver).
    destruct (lookup_lt_is_Some_2 (objs (store s)) x) as [o Ho]; [by apply W|].
    assert (Hoc : objAt c x = Some o) by (unfold objAt; by rewrite Hob).
    destruct (removeObject_wf_run x o c Wc Hoc)
      as (m & c' & Hm & E & Hst & Hom & Hre & Hpe & _).
    exists tt, c'. split; [done|].
    split; [by eapply removeObject_wf|].
    unfold tracked, inWorld. rewrite Hst, Hom, Hpe. simpl.
    repeat split; try done.
    + intros y Hy. destruct (decide (y = x)) as [->|Hne].
      * exfalso. revert Hy. apply removeFirst_gone, Wc.
      * apply elem_of_removeFirst_ne in Hy; [|done].
        apply Hsub in Hy. set_solver.
    + set_solver.
    + unfold inWorld in Hfil. rewrite <- Hfil.
      apply (filter_removeFirst_other (λ b, dynamic s b)).
      rewrite <- (dynamic_same_bodies _ _ _ Hbo). by apply (wf_mass c Wc x o).
  - refine (conj W (conj eq_refl (conj eq_refl (conj eq_refl (conj _ (conj _ eq_refl)))))); done.
  - destruct HI as (W1 & Hob & Hbo & Hid & Hsub & _ & Hfil).
    assert (Ht : tracked s1 = []).
    { destruct (tracked s1) as [|y l]; [done|]. exfalso.
      apply (not_elem_of_nil y). apply Hsub. set_solver. }
    unfold tracked in E. rewrite E. simpl.
    rewrite clearAllBodies_run by apply W1.
    eexists. split; [reflexivity|].
    assert (Hdyn : filter (λ b, dynamic s1 b = false) (inWorld s1)
                   = filter (λ b, dynamic s b = false) (inWorld s)).
    { rewrite <- Hfil. apply list_filter_iff. intros b.
      by rewrite (dynamic_same_bodies _ _ _ Hbo). }
    split.
    { apply setInWorld_wf; [done| |].
      - apply NoDup_filter, W1.
      - intros y Hy. apply list_elem_of_filter in Hy. tauto. }
    repeat split; done.
Qed.

(** ** Every call keeps the invariant *)

Lemma bind_Ok {A B} (c : M A) (k : A → M B) s r s' :
  bind c k s = Ok r s' → ∃ a s1, c s = Ok a s1 ∧ k a s1 = Ok r s'.
Proof. unfold bind. destruct (c s) as [a s1|e]; [|done]. intros H. by exists a, s1. Qed.

Lemma sameObjects_wf s s' : wf s → sameObjects s s' → wf s'.
Proof.
  intros W (Hst & Hom & Hdm & Hsc & Hwo).
  apply (wf_same s s' W); rewrite ?Hst; try done.
  unfold bodyAt. rewrite Hst. intros a b Hb. by exists b.
Qed.

Ltac same_objects E :=
  run_monad; simpl in E; injection E as <-;
  split; [eapply sameObjects_wf; [eassumption|by repeat split]|done].

Lemma setGravity_wf x y z s s' :
  wf s → PhysicsEngine.setGravity x y z s = Ok tt s' →
  wf s' ∧ objs (store s') = objs (store s).
Proof. intros W E. unfold PhysicsEngine.setGravity in E. same_objects E. Qed.

Lemma updateMaterialProperties_wf r f s s' :
  wf s → PhysicsEngine.updateMaterialProperties r f s = Ok tt s' →
  wf s' ∧ objs (store s') = objs (store s).
Proof. intros W E. unfold PhysicsEngine.updateMaterialProperties in E. same_objects E. Qed.

Lemma setTimeScale_wf sc s s' :
  wf s → PhysicsEngine.setTimeScale sc s = Ok tt s' →
  wf s' ∧ objs (store s') = objs (store s).
Proof. intros W E. unfold PhysicsEngine.setTimeScale in E. same_objects E. Qed.

Lemma setPaused_wf p s s' :
  wf s → PhysicsEngine.setPaused p s = Ok tt s' →
  wf s' ∧ objs (store s') = objs (store s).
Proof. intros W E. unfold PhysicsEngine.setPaused in E. same_objects E. Qed.

Lemma render_wf s s' :
  wf s → PhysicsRenderer.render s = Ok tt s' →
  wf s' ∧ objs (store s') = objs (store s).
Proof.
  intros W E. unfold PhysicsRenderer.render, PhysicsRenderer.updateFPS in E.
  same_objects E.
Qed.

Lemma updateStats_wf s s' :
  wf s → App.updateStats s = Ok tt s' →
  wf s' ∧ objs (store s') = objs (store s).
Proof.
  intros W E.
  unfold App.updateStats, PhysicsRenderer.getStats, ObjectManager.getCount in E.
  same_objects E.
Qed.

Lemma togglePause_wf s s' :
  wf s → App.togglePause s = Ok tt s' →
  wf s' ∧ objs (store s') = objs (store s).
Proof.
  intros W E. unfold App.togglePause, PhysicsEngine.setPaused in E. same_objects E.
Qed.

Lemma sync_wf s s' :
  wf s → ObjectManager.update s = Ok tt s' →
  wf s' ∧ objs (store s') = objs (store s).
Proof.
  intros W E. destruct (sync_run s W) as (s2 & E2 & Hmv & _).
  rewrite E2 in E. injection E as <-.
  split; [by eapply meshesMoved_wf|]. apply Hmv.
Qed.

Lemma clearAll_wf s s' :
  wf s → ObjectManager.clearAll s = Ok tt s' →
  wf s' ∧ objs (store s') = objs (store s).
Proof.
  intros W E. destruct (clearAll_run s W) as (s2 & E2 & W2 & _ & _ & Ho & _).
  rewrite E2 in E. by injection E as <-.
Qed.

Lemma removeObject_keeps obj s s' :
  wf s → ObjectManager.removeObject obj s = Ok tt s' →
  wf s' ∧ objs (store s') = objs (store s).
Proof.
  intros W E. split; [by eapply removeObject_wf|].
  destruct (objAt s obj) as [o|] eqn:Ho; [|by rewrite removeObject_throws in E].
  destruct (removeObject_wf_run obj o s W Ho) as (m & s2 & _ & E2 & Hst & _).
  rewrite E2 in E. injection E as <-. by rewrite Hst.
Qed.

(** Sequencing two steps that keep the invariant and the object store. *)
Lemma keeps_seq {A B} (c : M A) (k : A → M B) s r s' :
  wf s →
  (∀ a s1, c s = Ok a s1 → wf s1 ∧ objs (store s1) = objs (store s)) →
  (∀ a s1 r s', wf s1 → k a s1 = Ok r s' → wf s' ∧ objs (store s') = objs (store s1)) →
  bind c k s = Ok r s' → wf s' ∧ objs (store s') = objs (store s).
Proof.
  intros W Hc Hk E. apply bind_Ok in E as (a & s1 & E1 & E2).
  destruct (Hc _ _ E1) as [W1 H1]. destruct (Hk _ _ _ _ W1 E2) as [W2 H2].
  split; [done|congruence].
Qed.

Lemma animate_wf s s' :
  wf s → App.animate s = Ok tt s' →
  wf s' ∧ objs (store s') = objs (store s).
Proof.
  intros W E. unfold App.animate in E.
  apply bind_Ok in E as ([] & s1 & E1 & E).
  apply bind_Ok in E as (t & s2 & E2 & E).
  apply bind_Ok in E as (l & s3 & E3 & E).
  apply bind_Ok in E as ([] & s4 & E4 & E).
  apply bind_Ok in E as ([] & s5 & E5 & E).
  apply bind_Ok in E as ([] & s6 & E6 & E).
  apply bind_Ok in E as ([] & s7 & E7 & E).
  assert (W4 : wf s4 ∧ objs (store s4) = objs (store s)).
  { run_monad. injection E1 as <-. injection E2 as <- <-. injection E3 as <- <-.
    injection E4 as <-. split; [|done].
    eapply sameObjects_wf; [exact W|by repeat split]. }
  destruct W4 as [W4 H4].
  destruct (engine_update_wf _ _ _ W4 E5) as [W5 H5].
  destruct (sync_wf _ _ W5 E6) as [W6 H6].
  destruct (render_wf _ _ W6 E7) as [W7 H7].
  destruct (updateStats_wf _ _ W7 E) as [W8 H8].
  split; [done|congruence].
Qed.

Lemma resetSimulation_wf s s' :
  wf s → App.resetSimulation s = Ok tt s' →
  wf s' ∧ objs (store s') = objs (store s).
Proof.
  intros W E. unfold App.resetSimulation in E.
  apply bind_Ok in E as ([] & s1 & E1 & E).
  apply bind_Ok in E as ([] & s2 & E2 & E).
  apply bind_Ok in E as ([] & s3 & E3 & E).
  apply bind_Ok in E as (p & s4 & E4 & E).
  destruct (clearAll_wf _ _ W E1) as [W1 H1].
  destruct (setGravity_wf _ _ _ _ _ W1 E2) as [W2 H2].
  destruct (updateMaterialProperties_wf _ _ _ _ W2 E3) as [W3 H3].
  unfold gets in E4. injection E4 as <- <-.
  destruct (uiPaused (driver s3)).
  - apply bind_Ok in E as ([] & s5 & E5 & E).
    unfold modify in E5. injection E5 as <-.
    apply setPaused_wf in E as [W6 H6].
    + split; [done|]. rewrite H6. simpl. congruence.
    + eapply sameObjects_wf; [exact W3|by repeat split].
  - unfold ret in E. injection E as <-. split; [done|congruence].
Qed.

(** ** Histories *)

(** The page after loading and [init()]. *)
Ltac eval_lists :=
  repeat match goal with
  | |- context [inScene ?s] =>
      let v := eval vm_compute in (inScene s) in change (inScene s) with v
  | |- context [inWorld ?s] =>
      let v := eval vm_compute in (inWorld s) in change (inWorld s) with v
  end.

Lemma init_run e :
  ∃ s0, (App.load ;; App.init) (App.boot e) = Ok tt s0 ∧ wf s0 ∧ objs (store s0) = [] ∧
        isPaused (physicsEngine s0) = false ∧ tracked s0 = [].
Proof.
  eexists. split; [vm_compute; reflexivity|].
  split; [|done]. split; simpl; try done.
  - intros a Ha. by apply elem_of_nil in Ha.
  - constructor.
  - eval_lists. repeat (constructor; [rewrite ?elem_of_cons, ?elem_of_nil; naive_solver|]).
    constructor.
  - intros a. eval_lists. rewrite !elem_of_cons, elem_of_nil. naive_solver.
  - eval_lists. repeat constructor. apply not_elem_of_nil.
  - intros b. eval_lists. intros ->%list_elem_of_singleton. simpl. lia.
Qed.

Lemma grows_keeps s s' :
  wf s' ∧ objs (store s') = objs (store s) → grows s [] s'.
Proof. intros [W H]. split; [done|]. exists []. by rewrite app_nil_r. Qed.

Lemma createObject_grows ty p sz s r s' :
  wf s → ObjectManager.createObject ty p sz s = Ok r s' →
  grows s (match r with Some a => [a] | None => [] end) s'.
Proof.
  intros W E. split; [by eapply createObject_wf|].
  destruct (decide (ty ∈ kinds)) as [Hk|Hk].
  - destruct (createObject_run ty p sz s r s' Hk E) as (m & b & Hr & Hst & _).
    subst r. rewrite Hst. simpl. by eexists [_].
  - rewrite createObject_unsupported in E by done. injection E as <- <-.
    exists []. by rewrite app_nil_r.
Qed.

Lemma Math_random_same s r s' : Math_random s = Ok r s' → sameObjects s s'.
Proof. unfold Math_random. intros E. injection E as _ <-. by repeat split. Qed.

Lemma spawnRandom_grows ty s r s' :
  wf s → ObjectManager.spawnRandom ty s = Ok r s' →
  grows s (match r with Some a => [a] | None => [] end) s'.
Proof.
  intros W E. unfold ObjectManager.spawnRandom in E.
  apply bind_Ok in E as (r1 & s1 & E1 & E).
  apply bind_Ok in E as (r2 & s2 & E2 & E).
  apply bind_Ok in E as (r3 & s3 & E3 & E).
  apply bind_Ok in E as (r4 & s4 & E4 & E).
  apply Math_random_same in E1, E2, E3, E4.
  assert (W4 : wf s4) by eauto using sameObjects_wf.
  destruct (createObject_grows _ _ _ _ _ _ W4 E) as (W' & news & Hn & Hx).
  split; [done|]. exists news.
  destruct E1 as [H1 _], E2 as [H2 _], E3 as [H3 _], E4 as [H4 _].
  rewrite H4, H3, H2, H1 in Hn, Hx. done.
Qed.

Lemma spawnAtPosition_grows ty p s r s' :
  wf s → ObjectManager.spawnAtPosition ty p s = Ok r s' →
  grows s (match r with Some a => [a] | None => [] end) s'.
Proof.
  intros W E. unfold ObjectManager.spawnAtPosition in E.
  apply bind_Ok in E as (r1 & s1 & E1 & E).
  apply Math_random_same in E1.
  assert (W1 : wf s1) by eauto using sameObjects_wf.
  destruct (createObject_grows _ _ _ _ _ _ W1 E) as (W' & news & Hn & Hx).
  split; [done|]. exists news. destruct E1 as [H1 _]. rewrite H1 in Hn, Hx. done.
Qed.

Lemma perform_grows c s xs s' :
  wf s → perform c s = Ok xs s' → grows s xs s'.
Proof.
  intros W E.
  destruct c as [ty p sz|ty|ty p|obj| | |sh m p|b|dt| |x y z|r f|sc|pa| | | | ];
    simpl in E; apply bind_Ok in E as (res & s1 & E1 & E); unfold ret in E;
    injection E as <- <-;
    try match type of res with unit => destruct res end.
  - exact (createObject_grows _ _ _ _ _ _ W E1).
  - exact (spawnRandom_grows _ _ _ _ W E1).
  - exact (spawnAtPosition_grows _ _ _ _ _ W E1).
  - by apply grows_keeps, (removeObject_keeps obj).
  - by apply grows_keeps, sync_wf.
  - by apply grows_keeps, clearAll_wf.
  - by apply grows_keeps, (createBody_wf sh m p s res).
  - by apply grows_keeps, (removeBody_wf b).
  - by apply grows_keeps, (engine_update_wf dt).
  - by apply grows_keeps, clearAllBodies_wf.
  - by apply grows_keeps, (setGravity_wf x y z).
  - by apply grows_keeps, (updateMaterialProperties_wf r f).
  - by apply grows_keeps, (setTimeScale_wf sc).
  - by apply grows_keeps, (setPaused_wf pa).
  - by apply grows_keeps, render_wf.
  - by apply grows_keeps, animate_wf.
  - by apply grows_keeps, togglePause_wf.
  - by apply grows_keeps, resetSimulation_wf.
Qed.

Lemma perform_all_grows cs s xs s' :
  wf s → perform_all cs s = Ok xs s' → grows s xs s'.
Proof.
  revert s xs. induction cs as [|c cs IH]; intros s xs W E; simpl in E.
  - unfold ret in E. injection E as <- <-. by apply grows_keeps.
  - apply bind_Ok in E as (ys & s1 & E1 & E).
    apply bind_Ok in E as (zs & s2 & E2 & E). unfold ret in E. injection E as <- <-.
    destruct (perform_grows _ _ _ _ W E1) as (W1 & n1 & H1 & ->).
    destruct (IH _ _ W1 E2) as (W2 & n2 & H2 & ->).
    split; [done|]. exists (n1 ++ n2). rewrite H2, H1, <- app_assoc. split; [done|].
    rewrite !length_app. by rewrite seq_app, Nat.add_comm.
Qed.

(** The invariant holds after every history, and the objects issued
    during it are exactly the records in the store, in order. *)
Lemma run_inv e cs issued s :
  run e cs = Ok issued s →
  wf s ∧ issued = seq 0 (length (objs (store s))).
Proof.
  unfold run. intros E.
  destruct (init_run e) as (s0 & E0 & W0 & H0 & _).
  apply bind_Ok in E as ([] & s1 & E1 & E).
  apply bind_Ok in E as ([] & s2 & E2 & E).
  apply bind_Ok in E0 as ([] & t1 & F1 & F2).
  rewrite E1 in F1. injection F1 as <-.
  rewrite E2 in F2. injection F2 as <-.
  destruct (perform_all_grows _ _ _ _ W0 E) as (W & news & Hn & ->).
  split; [done|]. rewrite Hn, H0. done.
Qed.

(** ** The claims of the specification *)

Lemma ids_wf s : wf s → ids s = tracked s.
Proof.
  intros W. unfold ids.
  assert (H : ∀ a, a ∈ tracked s → Obj.id <$> objAt s a = Some a).
  { intros a Ha. destruct (lookup_lt_is_Some_2 (objs (store s)) a) as [o Ho]; [by apply W|].
    unfold objAt. rewrite Ho. simpl. f_equal. by apply (wf_id s W). }
  induction (tracked s) as [|a l IH]; [done|].
  simpl. rewrite H by set_solver. simpl. f_equal. apply IH. intros; apply H; set_solver.
Qed.

(** C1: on every reachable state, [createObject] with a supported kind
    and a size that is omitted or a number that is not negative returns
    a new tracked object, raises [getCount()] by exactly one, and gives
    the object an id strictly greater than the id of every object issued
    before; the ids of the registry entries stay pairwise distinct, and
    so do the ids of all objects ever issued.  (A sphere or a torus of
    negative size is not spawned: the library refuses the radius.) *)
Theorem createObject_counts_and_numbers e cs issued s ty p sz :
  run e cs = Ok issued s →
  ty ∈ kinds →
  validSize sz →
  ∃ obj o s',
    ObjectManager.createObject ty p sz s = Ok (Some obj) s'
    ∧ (∃ n, ObjectManager.getCount s = Ok n s ∧ ObjectManager.getCount s' = Ok (n + 1) s')
    ∧ obj ∈ tracked s'
    ∧ objAt s' obj = Some o
    ∧ (∀ a, a ∈ issued →
         ∃ o', objAt s a = Some o' ∧ objAt s' a = Some o' ∧ Obj.id o' < Obj.id o)
    ∧ NoDup (ids s')
    ∧ (∀ a a' o1 o2, objAt s' a = Some o1 → objAt s' a' = Some o2 →
         Obj.id o1 = Obj.id o2 → a = a').
Proof.
  intros Hrun Hk Hsz. destruct (run_inv _ _ _ _ Hrun) as [W ->].
  destruct (caseOf_valid ty sz Hk Hsz) as (g & d & sh & Hc & Hsh).
  pose proof (createObject_exact ty p sz s g d sh Hc Hsh) as E.
  match type of E with _ = Ok _ ?x => set (s' := x) in * end.
  destruct (createObject_run ty p sz s _ s' Hk E) as (m & b & _ & Hst & Hom & _).
  assert (W' : wf s') by (by eapply createObject_wf).
  eexists _, _, s'. split; [exact E|].
  split.
  { exists (length (tracked s)). split; [done|].
    unfold ObjectManager.getCount, gets. rewrite Hom. simpl.
    by rewrite length_app. }
  split. { unfold tracked. rewrite Hom. simpl. set_solver. }
  split. { unfold objAt. rewrite Hst. simpl. rewrite lookup_app_r by lia.
           by rewrite Nat.sub_diag. }
  split.
  { intros a Ha. apply elem_of_seq in Ha.
    destruct (lookup_lt_is_Some_2 (objs (store s)) a) as [o' Ho']; [lia|].
    exists o'. split; [done|]. split.
    - unfold objAt. rewrite Hst. simpl. by apply lookup_app_l_Some.
    - simpl. rewrite (wf_id s W a o' Ho'). rewrite <- (wf_issued s W). lia. }
  split. { rewrite ids_wf by done. apply W'. }
  intros a a' o1 o2 H1 H2 Heq.
  rewrite <- (wf_id s' W' a o1 H1), <- (wf_id s' W' a' o2 H2). done.
Qed.

(** C2: on every reachable state, one [update()] gives the mesh of every
    tracked object exactly the position and quaternion its body has at
    the call, and changes nothing else: the registry, the scene, the
    engine and all bodies are as before, and no mesh is added, removed
    or altered except in its transform. *)
Theorem update_copies_every_transform e cs issued s :
  run e cs = Ok issued s →
  ∃ s',
    ObjectManager.update s = Ok tt s'
    ∧ (∀ obj, obj ∈ tracked s → synced s s' obj)
    ∧ meshesMoved s s'.
Proof.
  intros Hrun. destruct (run_inv _ _ _ _ Hrun) as [W _].
  destruct (sync_run s W) as (s' & E & Hmv & Hsync & _).
  by exists s'.
Qed.

Lemma sys_eq s s' :
  store s' = store s → physicsEngine s' = physicsEngine s → renderer s' = renderer s →
  objectManager s' = objectManager s → driver s' = driver s → env s' = env s → s' = s.
Proof. destruct s, s'. simpl. intros. by subst. Qed.

(** Removing an object whose mesh and body are already released. *)
Lemma removeObject_untracked obj o s :
  wf s → objAt s obj = Some o → obj ∉ tracked s →
  ObjectManager.removeObject obj s = Ok tt s.
Proof.
  intros W Ho Hn.
  destruct (removeObject_wf_run obj o s W Ho)
    as (m & s' & Hm & E & Hst & Hom & Hre & Hpe & Hdr & Hen).
  destruct (wf_untracked s W obj o Ho Hn) as (R1 & R2 & m' & Hm' & G1 & G2).
  assert (m' = m) as -> by congruence.
  rewrite E. f_equal. apply sys_eq; try done.
  - rewrite Hst. unfold meshAt in Hm. destruct (store s) as [ms bs os]. simpl in *.
    unfold setMeshes. simpl. f_equal. apply list_insert_id. rewrite Hm. f_equal.
    destruct m. simpl in *. by subst.
  - rewrite Hpe. unfold CANNON.removeBody. rewrite removeFirst_missing by done.
    by destruct (physicsEngine s) as [[] ? ? ? ? ? ?].
  - rewrite Hre. unfold THREE.remove. rewrite removeFirst_missing by done.
    unfold inScene. by destruct (renderer s).
  - rewrite Hom. rewrite removeFirst_missing by done.
    unfold tracked. by destruct (objectManager s).
Qed.

(** C3: on every reachable state and for every object the registry has
    issued, [removeObject] lowers [getCount()] by exactly one when the
    object is tracked; when it is not tracked the call returns normally
    and leaves the whole state, so also the count, as it was.  In
    particular a second [removeObject] on the same object changes
    nothing. *)
Theorem removeObject_counts_and_is_idempotent e cs issued s obj :
  run e cs = Ok issued s →
  obj ∈ issued →
  (obj ∈ tracked s →
     ∃ n s', ObjectManager.removeObject obj s = Ok tt s'
       ∧ ObjectManager.getCount s = Ok (S n) s
       ∧ ObjectManager.getCount s' = Ok n s'
       ∧ obj ∉ tracked s')
  ∧ (obj ∉ tracked s → ObjectManager.removeObject obj s = Ok tt s)
  ∧ (∀ s', ObjectManager.removeObject obj s = Ok tt s' →
           ObjectManager.removeObject obj s' = Ok tt s').
Proof.
  intros Hrun Hobj. destruct (run_inv _ _ _ _ Hrun) as [W ->].
  apply elem_of_seq in Hobj.
  destruct (lookup_lt_is_Some_2 (objs (store s)) obj) as [o Ho]; [lia|].
  destruct (removeObject_wf_run obj o s W Ho) as (m & s1 & Hm & E & Hst & Hom & _).
  assert (W1 : wf s1) by (by eapply removeObject_wf).
  assert (Hgone : obj ∉ tracked s1).
  { unfold tracked. rewrite Hom. simpl. apply removeFirst_gone, W. }
  split; [|split].
  - intros Hin. exists (length (tracked s1)), s1. split; [done|].
    unfold ObjectManager.getCount, gets. split; [|done].
    f_equal. unfold tracked at 1. rewrite Hom. simpl.
    by rewrite removeFirst_length.
  - intros Hn. by eapply removeObject_untracked.
  - intros s' E'. rewrite E in E'. injection E' as <-.
    apply (removeObject_untracked obj o); [done| |done].
    unfold objAt. by rewrite Hst.
Qed.

Lemma bind_run {A B} (c : M A) (k : A → M B) s a s1 :
  c s = Ok a s1 → bind c k s = k a s1.
Proof. intros H. unfold bind. by rewrite H. Qed.

Lemma filter_none {A} (P : A → Prop) `{∀ x, Decision (P x)} (l : list A) :
  (∀ x, x ∈ l → ¬ P x) → filter P l = [].
Proof.
  induction l as [|x l IH]; intros Hl; [done|].
  rewrite filter_cons_False by (apply Hl; set_solver).
  apply IH. intros y Hy. apply Hl. set_solver.
Qed.

Lemma getStats_run s :
  wf s →
  PhysicsEngine.getStats s
  = Ok (length (filter (λ b, dynamic s b = true) (inWorld s)),
        negb (isPaused (physicsEngine s))) s.
Proof.
  intros W. unfold PhysicsEngine.getStats.
  erewrite bind_run by reflexivity.
  erewrite bind_run.
  2:{ rewrite foldEach_const. apply collect_dynamic. apply W. }
  reflexivity.
Qed.

(** C4: on every reachable state, [clearAll()] returns normally, leaves
    [getCount()] at 0 and no dynamic body in the world ([getStats()]
    reports a body count of 0), and keeps exactly the bodies that were
    static, in their order.  Every entry of the collection as it was at
    the call has been removed: its mesh is out of the scene, its body out
    of the world and its resources released. *)
Theorem clearAll_empties_registry_and_world e cs issued s :
  run e cs = Ok issued s →
  ∃ s',
    ObjectManager.clearAll s = Ok tt s'
    ∧ ObjectManager.getCount s' = Ok 0 s'
    ∧ PhysicsEngine.getStats s' = Ok (0, negb (isPaused (physicsEngine s'))) s'
    ∧ (∀ b, b ∈ inWorld s' → dynamic s' b = false)
    ∧ inWorld s' = filter (λ b, dynamic s b = false) (inWorld s)
    ∧ (∀ obj o, obj ∈ tracked s → objAt s obj = Some o → released s' o).
Proof.
  intros Hrun. destruct (run_inv _ _ _ _ Hrun) as [W _].
  destruct (clearAll_run s W) as (s' & E & W' & Ht & Hw & Ho & Hb & _).
  assert (Hstatic : ∀ b, b ∈ inWorld s' → dynamic s' b = false).
  { intros b Hin. rewrite Hw in Hin. apply list_elem_of_filter in Hin as [Hd _].
    by rewrite (dynamic_same_bodies _ _ _ Hb). }
  exists s'. split; [done|]. split.
  { unfold ObjectManager.getCount, gets. unfold tracked in Ht. by rewrite Ht. }
  split.
  { rewrite getStats_run by done. do 2 f_equal.
    rewrite filter_none; [done|]. intros b Hin. by rewrite (Hstatic b Hin). }
  split; [done|]. split; [done|].
  intros obj o Hin Hobj. apply (wf_untracked s' W' obj).
  - unfold objAt. by rewrite Ho.
  - rewrite Ht. apply not_elem_of_nil.
Qed.

(** Without the copy of the array the loop passes over every second
    entry: of two tracked objects one is still tracked afterwards. *)
Remark clearAll_needs_snapshot :
  (∃ s', clearAllWithoutSnapshot twoObjects = Ok tt s' ∧ tracked s' = [1]) ∧
  (∃ s', ObjectManager.clearAll twoObjects = Ok tt s' ∧ tracked s' = []).
Proof. split; eexists; (split; [vm_compute; reflexivity|reflexivity]). Qed.

(** C5: for a kind outside the closed set, [createObject] returns [null]
    and leaves the whole state untouched, so [getCount()], the scene and
    the world are as before; it does not raise. *)
Theorem createObject_rejects_unknown_kind ty p sz s :
  ty ∉ kinds →
  ObjectManager.createObject ty p sz s = Ok None s.
Proof. apply createObject_unsupported. Qed.

Lemma last_lookup {A} (l : list A) x : (l ++ [x]) !! length l = Some x.
Proof. rewrite lookup_app_r by lia. by rewrite Nat.sub_diag. Qed.

(** A spawn makes the geometry of its case and the shape the library
    makes for the description of its case. *)
Lemma spawned_of_case ty p sz s g d sh :
  caseOf ty (orDefault 2 sz) = Some (g, d) →
  PhysicsEngine.cannonShapeOf d = inr sh →
  spawned ty p sz s g sh.
Proof.
  intros Hc Hsh. unfold spawned.
  eexists _, _, _, _, _. split; [by apply (createObject_exact ty p sz s g d sh)|].
  unfold objAt, meshAt, bodyAt. cbn [store objs meshes bodies].
  rewrite last_lookup. split; [reflexivity|]. cbn [Obj.type Obj.mesh Obj.body].
  rewrite !last_lookup. by repeat split.
Qed.

Ltac spawn_case := eapply spawned_of_case; [reflexivity|]; try reflexivity.

(** C6: a sphere spawned with a size [q] that is not negative gets a
    sphere geometry of radius [q/2] for its mesh and a sphere shape of
    radius [q/2] for its body.  (For a negative size the library refuses
    the radius and nothing is spawned.) *)
Theorem sphere_radii_are_half_the_size p q s :
  (0 <= q)%Q →
  spawned "sphere" p (Num q) s
    (THREE.SphereGeometry (Num (q / 2)) 32 32)
    (CANNON.Sphere (Num (q / 2))).
Proof. intros Hq. spawn_case. by apply newSphere_half. Qed.

(** C7 as worded fails: the geometry given to the scene for a cylinder
    of size 2 has 32 radial segments, not 8. *)
Lemma cylinder_scene_segments_are_not_eight :
  ¬ cylinderSceneHasEightSegments origin10 2 sampleState.
Proof.
  intros (sh & obj & o & m & b & s' & E & Ho & _ & Hm & _ & Hg & _).
  vm_compute in E. injection E as <- <-.
  vm_compute in Ho. injection Ho as <-.
  vm_compute in Hm. injection Hm as <-.
  discriminate Hg.
Qed.

(** C7, amended: a cylinder spawned with size [q] gets, for the scene, a
    cylinder geometry with both radii [q/2], height [q] and 32 radial
    segments and, for the simulation, a cylinder shape with both radii
    [q/2], height [q] and 8 segments: the same radius and height. *)
Theorem cylinder_dimensions_agree p q s :
  spawned "cylinder" p (Num q) s
    (THREE.CylinderGeometry (Num (q / 2)) (Num (q / 2)) (Num q) 32)
    (CANNON.Cylinder (Num (q / 2)) (Num (q / 2)) (Num q) (Num 8)).
Proof. spawn_case. Qed.

(** C8: a torus spawned with a size [q] that is not negative gets a
    sphere of radius [q/2] as the shape of its body (and a torus geometry
    for its mesh).  (For a negative size the library refuses the radius
    and nothing is spawned.) *)
Theorem torus_body_is_a_sphere p q s :
  (0 <= q)%Q →
  spawned "torus" p (Num q) s
    (THREE.TorusGeometry (Num (q / 2)) (Num (q / 4)) 16 100)
    (CANNON.Sphere (Num (q / 2))).
Proof. intros Hq. spawn_case. by apply newSphere_half. Qed.

(** The size hypothesis of C1, C6 and C8 is needed: a sphere or a torus
    of negative size is refused by the library before anything is
    stored, while the other kinds take any number. *)
Remark negative_spheres_are_refused p q s :
  (q < 0)%Q →
  ObjectManager.createObject "sphere" p (Num q) s = Throw Error
  ∧ ObjectManager.createObject "torus" p (Num q) s = Throw Error.
Proof.
  intros Hq.
  assert (H : Qle_bool 0 (q / 2) = false).
  { destruct (Qle_bool 0 (q / 2)) eqn:E; [|done]. exfalso.
    apply Qle_bool_iff in E. revert E. apply Qlt_not_le.
    apply Qlt_shift_div_r; [done|]. by rewrite Qmult_0_l. }
  split; rewrite createObject_cases; cbn [caseOf orDefault String.eqb];
    simpl; rewrite spawnWith_exact; unfold PhysicsEngine.cannonShapeOf; simpl;
    by rewrite H.
Qed.

Lemma picture_same s s' :
  meshes (store s') = meshes (store s) → inScene s' = inScene s →
  PhysicsRenderer.picture s' = PhysicsRenderer.picture s.
Proof. unfold PhysicsRenderer.picture, inScene. by intros -> ->. Qed.

(** C9: on every reachable state whose pause flag is set,
    [PhysicsEngine.update] returns at once and changes nothing, and a
    frame of [animate] leaves the engine and every body as they were,
    still copies each tracked object's body transform to its mesh, and
    still draws one frame, which shows the scene after that copy. *)
Theorem paused_frame_skips_the_step_only e cs issued s :
  run e cs = Ok issued s →
  isPaused (physicsEngine s) = true →
  (∀ deltaTime, PhysicsEngine.update deltaTime s = Ok tt s)
  ∧ ∃ s',
      App.animate s = Ok tt s'
      ∧ physicsEngine s' = physicsEngine s
      ∧ bodies (store s') = bodies (store s)
      ∧ (∀ obj, obj ∈ tracked s → synced s s' obj)
      ∧ drawn (renderer s') = drawn (renderer s) ++ [PhysicsRenderer.picture s'].
Proof.
  intros Hrun Hp. destruct (run_inv _ _ _ _ Hrun) as [W _].
  split; [intros dt; by apply engine_update_paused|].
  unfold App.animate.
  erewrite bind_run by reflexivity.
  erewrite bind_run by reflexivity.
  erewrite bind_run by reflexivity.
  erewrite bind_run by reflexivity.
  erewrite bind_run by (by apply engine_update_paused).
  match goal with |- ∃ _, bind _ _ ?x = _ ∧ _ => set (s1 := x) end.
  assert (W1 : wf s1) by (eapply sameObjects_wf; [exact W|by repeat split]).
  destruct (sync_run s1 W1) as (s2 & E2 & Hmv & Hsync & _).
  destruct Hmv as (Hpe & Hre & Hom & Hdr & Hen & Hbo & Hob & Hlen & Hme).
  erewrite bind_run by exact E2.
  unfold PhysicsRenderer.render, PhysicsRenderer.updateFPS, App.updateStats,
    PhysicsRenderer.getStats, ObjectManager.getCount.
  run_monad. simpl. eexists. split; [reflexivity|]. simpl.
  split; [by rewrite Hpe|]. split; [by rewrite Hbo|]. split.
  - intros obj Hobj. destruct (Hsync obj Hobj) as (o & m & b & Ho & Hb & Hm & Hpq).
    by exists o, m, b.
  - rewrite Hre. simpl. do 2 f_equal.
Qed.


(** C10: [createBody] with a shape type it does not know does not fail:
    it makes a body whose one shape is a sphere of radius 1, with the
    given mass, and adds it to the world.  [createObject] never asks for
    that: for a kind outside the closed set it returns before any body
    is made, and for each of the five kinds it is the common spawn
    sequence run with the shape description of its case, whose type
    [createBody] knows. *)
Theorem createBody_fallback_is_unreachable_from_createObject :
  (∀ d m p s, Desc.type d ∉ bodyTypes →
     ∃ b s',
       PhysicsEngine.createBody d m p s = Ok (length (bodies (store s))) s'
       ∧ bodyAt s' (length (bodies (store s))) = Some b
       ∧ CANNON.shapes b = [CANNON.Sphere (Num 1)]
       ∧ CANNON.mass b = m
       ∧ length (bodies (store s)) ∈ inWorld s'
       ∧ inWorld s' =
           CANNON.bodies (CANNON.addBody (length (bodies (store s)))
                            (world (physicsEngine s))))
  ∧ (∀ ty p sz,
       match caseOf ty (orDefault 2 sz) with
       | Some (g, d) =>
           ty ∈ kinds ∧ Desc.type d ∈ bodyTypes ∧
           ∀ s, ObjectManager.createObject ty p sz s = spawnWith ty g d p s
       | None =>
           (ty ∉ kinds) ∧ ∀ s, ObjectManager.createObject ty p sz s = Ok None s
       end).
Proof.
  split.
  - intros d m p s Hn. unfold bodyTypes in Hn. rewrite !not_elem_of_cons in Hn.
    destruct Hn as (H1 & H2 & H3 & H4 & _).
    apply String.eqb_neq in H1, H2, H3, H4.
    rewrite createBody_exact. unfold PhysicsEngine.cannonShapeOf.
    rewrite H1, H2, H3, H4. cbn [CANNON.newSphere].
    replace (Qle_bool 0 1) with true by reflexivity.
    eexists _, _. split; [reflexivity|].
    unfold bodyAt. simpl. rewrite lookup_app_r by lia. rewrite Nat.sub_diag.
    split; [reflexivity|]. repeat split.
    unfold inWorld. simpl. case_bool_decide; [done|].
    apply elem_of_app. right. by apply list_elem_of_singleton.
  - intros ty p sz. destruct (decide (ty ∈ kinds)) as [Hk|Hk].
    + pose proof Hk as Hc. apply kinds_cases in Hc.
      destruct Hc as [->|[->|[->|[->| ->]]]]; simpl;
        (split; [done|]); (split; [|intros s; by rewrite createObject_cases]);
        unfold bodyTypes; rewrite !elem_of_cons; tauto.
    + pose proof Hk as Hn. unfold kinds in Hn. rewrite !not_elem_of_cons in Hn.
      destruct Hn as (H1 & H2 & H3 & H4 & H5 & _).
      apply String.eqb_neq in H1, H2, H3, H4, H5.
      unfold caseOf. rewrite H1, H2, H3, H4, H5.
      split; [done|]. intros s. by apply createObject_unsupported.
Qed.

(** ** The scenarios of the specification *)

(** One box spawned at (0, 10, 0) with size 2 is counted once; after a
    step that leaves its body at (0, 8, 0) and one sync pass, its mesh
    is at (0, 8, 0). *)
Example scenario_box_follows_its_body :
  ∃ s, run mockedEnv [CreateObject "box" origin10 (Num 2); EngineUpdate (1 / 60); SyncAll]
         = Ok [0] s
       ∧ ObjectManager.getCount s = Ok 1 s
       ∧ THREE.position <$> meshAt s 0 = Some (mkVec3 0 8 0).
Proof. eexists. split; [vm_compute; reflexivity|]. split; reflexivity. Qed.

(** Five objects of mixed kinds, then [clearAll()]: none is counted and
    the world reports no dynamic body. *)
Example scenario_five_then_clear :
  ∃ s, run sampleEnv
         [ SpawnRandom "sphere"; SpawnRandom "box"; SpawnRandom "cylinder";
           SpawnRandom "cone"; SpawnRandom "torus"; ClearAll ]
         = Ok [0; 1; 2; 3; 4] s
       ∧ ObjectManager.getCount s = Ok 0 s
       ∧ PhysicsEngine.getStats s = Ok (0, true) s.
Proof. eexists. split; [vm_compute; reflexivity|]. split; reflexivity. Qed.

(** [removeObject] twice on the same object: the first call lowers the
    count from 1 to 0, the second returns normally and changes nothing. *)
Example scenario_remove_twice :
  ∃ s0 s1,
    run sampleEnv [SpawnRandom "cone"] = Ok [0] s0
    ∧ ObjectManager.getCount s0 = Ok 1 s0
    ∧ ObjectManager.removeObject 0 s0 = Ok tt s1
    ∧ ObjectManager.getCount s1 = Ok 0 s1
    ∧ ObjectManager.removeObject 0 s1 = Ok tt s1.
Proof.
  eexists _, _. split; [vm_compute; reflexivity|]. split; [reflexivity|].
  split; [vm_compute; reflexivity|]. split; reflexivity.
Qed.

(** ** The claims at the sample history *)

(** Witness of C1: a sphere of size 3 spawned after the sample history. *)
Lemma createObject_counts_and_numbers_witness :
  run sampleEnv sampleHistory = Ok sampleIssued sampleState ∧
  "sphere" ∈ kinds ∧
  validSize (Num 3) ∧
  ∃ obj o s',
    ObjectManager.createObject "sphere" origin10 (Num 3) sampleState = Ok (Some obj) s'
    ∧ (∃ n, ObjectManager.getCount sampleState = Ok n sampleState
            ∧ ObjectManager.getCount s' = Ok (n + 1) s')
    ∧ obj ∈ tracked s'
    ∧ objAt s' obj = Some o
    ∧ (∀ a, a ∈ sampleIssued →
         ∃ o', objAt sampleState a = Some o' ∧ objAt s' a = Some o' ∧ Obj.id o' < Obj.id o)
    ∧ NoDup (ids s')
    ∧ (∀ a a' o1 o2, objAt s' a = Some o1 → objAt s' a' = Some o2 →
         Obj.id o1 = Obj.id o2 → a = a').
Proof.
  assert (H1 : run sampleEnv sampleHistory = Ok sampleIssued sampleState)
    by (vm_compute; reflexivity).
  assert (H2 : "sphere" ∈ kinds) by (unfold kinds; repeat constructor).
  assert (H3 : validSize (Num 3)) by (vm_compute; discriminate).
  split; [exact H1|]. split; [exact H2|]. split; [exact H3|].
  exact (createObject_counts_and_numbers sampleEnv sampleHistory sampleIssued sampleState
           "sphere" origin10 (Num 3) H1 H2 H3).
Defined.

(** Witness of C2: a sync pass after the sample history. *)
Lemma update_copies_every_transform_witness :
  run sampleEnv sampleHistory = Ok sampleIssued sampleState ∧
  ∃ s',
    ObjectManager.update sampleState = Ok tt s'
    ∧ (∀ obj, obj ∈ tracked sampleState → synced sampleState s' obj)
    ∧ meshesMoved sampleState s'.
Proof.
  assert (H1 : run sampleEnv sampleHistory = Ok sampleIssued sampleState)
    by (vm_compute; reflexivity).
  split; [exact H1|].
  exact (update_copies_every_transform sampleEnv sampleHistory sampleIssued sampleState H1).
Defined.

(** Witness of C3: object 0 is tracked after the sample history and
    object 1 has been removed in it. *)
Lemma removeObject_counts_and_is_idempotent_witness :
  run sampleEnv sampleHistory = Ok sampleIssued sampleState ∧
  (0 ∈ sampleIssued ∧ 0 ∈ tracked sampleState ∧
   ∃ n s', ObjectManager.removeObject 0 sampleState = Ok tt s'
     ∧ ObjectManager.getCount sampleState = Ok (S n) sampleState
     ∧ ObjectManager.getCount s' = Ok n s'
     ∧ 0 ∉ tracked s') ∧
  (1 ∈ sampleIssued ∧ (1 ∉ tracked sampleState) ∧
   ObjectManager.removeObject 1 sampleState = Ok tt sampleState).
Proof.
  assert (H1 : run sampleEnv sampleHistory = Ok sampleIssued sampleState)
    by (vm_compute; reflexivity).
  assert (I0 : 0 ∈ sampleIssued) by (unfold sampleIssued; repeat constructor).
  assert (I1 : 1 ∈ sampleIssued) by (unfold sampleIssued; repeat constructor).
  assert (T0 : 0 ∈ tracked sampleState) by (vm_compute; repeat constructor).
  assert (T1 : 1 ∉ tracked sampleState)
    by (refine (bool_decide_unpack _ _); vm_compute; exact I).
  split; [exact H1|]. split.
  - split; [exact I0|]. split; [exact T0|].
    exact (proj1 (removeObject_counts_and_is_idempotent sampleEnv sampleHistory
             sampleIssued sampleState 0 H1 I0) T0).
  - split; [exact I1|]. split; [exact T1|].
    exact (proj1 (proj2 (removeObject_counts_and_is_idempotent sampleEnv sampleHistory
             sampleIssued sampleState 1 H1 I1)) T1).
Defined.

(** Witness of C4: clearing after the sample history. *)
Lemma clearAll_empties_registry_and_world_witness :
  run sampleEnv sampleHistory = Ok sampleIssued sampleState ∧
  ∃ s',
    ObjectManager.clearAll sampleState = Ok tt s'
    ∧ ObjectManager.getCount s' = Ok 0 s'
    ∧ PhysicsEngine.getStats s' = Ok (0, negb (isPaused (physicsEngine s'))) s'
    ∧ (∀ b, b ∈ inWorld s' → dynamic s' b = false)
    ∧ inWorld s' = filter (λ b, dynamic sampleState b = false) (inWorld sampleState)
    ∧ (∀ obj o, obj ∈ tracked sampleState → objAt sampleState obj = Some o →
         released s' o).
Proof.
  assert (H1 : run sampleEnv sampleHistory = Ok sampleIssued sampleState)
    by (vm_compute; reflexivity).
  split; [exact H1|].
  exact (clearAll_empties_registry_and_world sampleEnv sampleHistory sampleIssued
           sampleState H1).
Defined.

(** Witness of C5: a pyramid is not a supported kind. *)
Lemma createObject_rejects_unknown_kind_witness :
  ("pyramid" ∉ kinds) ∧
  ObjectManager.createObject "pyramid" origin10 (Num 1) sampleState = Ok None sampleState.
Proof.
  assert (H1 : "pyramid" ∉ kinds) by (refine (bool_decide_unpack _ _); vm_compute; exact I).
  split; [exact H1|].
  exact (createObject_rejects_unknown_kind "pyramid" origin10 (Num 1) sampleState H1).
Defined.

(** Witness of C6: a sphere of size 3 spawned into the sample state. *)
Lemma sphere_radii_are_half_the_size_witness :
  (0 <= 3)%Q ∧
  spawned "sphere" origin10 (Num 3) sampleState
    (THREE.SphereGeometry (Num (3 / 2)) 32 32)
    (CANNON.Sphere (Num (3 / 2))).
Proof.
  assert (H1 : (0 <= 3)%Q) by (vm_compute; discriminate).
  split; [exact H1|].
  exact (sphere_radii_are_half_the_size origin10 3 sampleState H1).
Defined.

(** Witness of C8: a torus of size 3 spawned into the sample state. *)
Lemma torus_body_is_a_sphere_witness :
  (0 <= 3)%Q ∧
  spawned "torus" origin10 (Num 3) sampleState
    (THREE.TorusGeometry (Num (3 / 2)) (Num (3 / 4)) 16 100)
    (CANNON.Sphere (Num (3 / 2))).
Proof.
  assert (H1 : (0 <= 3)%Q) by (vm_compute; discriminate).
  split; [exact H1|].
  exact (torus_body_is_a_sphere origin10 3 sampleState H1).
Defined.

(** Witness of C9: the sample history ends with the pause flag set. *)
Lemma paused_frame_skips_the_step_only_witness :
  run sampleEnv sampleHistory = Ok sampleIssued sampleState ∧
  isPaused (physicsEngine sampleState) = true ∧
  (∀ deltaTime, PhysicsEngine.update deltaTime sampleState = Ok tt sampleState) ∧
  ∃ s',
    App.animate sampleState = Ok tt s'
    ∧ physicsEngine s' = physicsEngine sampleState
    ∧ bodies (store s') = bodies (store sampleState)
    ∧ (∀ obj, obj ∈ tracked sampleState → synced sampleState s' obj)
    ∧ drawn (renderer s') = drawn (renderer sampleState) ++ [PhysicsRenderer.picture s'].
Proof.
  assert (H1 : run sampleEnv sampleHistory = Ok sampleIssued sampleState)
    by (vm_compute; reflexivity).
  assert (H2 : isPaused (physicsEngine sampleState) = true) by reflexivity.
  split; [exact H1|]. split; [exact H2|].
  exact (paused_frame_skips_the_step_only sampleEnv sampleHistory sampleIssued
           sampleState H1 H2).
Defined.

(** Witness of C10: a shape description of type ["torus"] reaches the
    fallback of [createBody]. *)
Lemma createBody_fallback_witness :
  (Desc.type (Desc.empty "torus") ∉ bodyTypes) ∧
  ∃ b s',
    PhysicsEngine.createBody (Desc.empty "torus") 5 origin10 sampleState
      = Ok (length (bodies (store sampleState))) s'
    ∧ bodyAt s' (length (bodies (store sampleState))) = Some b
    ∧ CANNON.shapes b = [CANNON.Sphere (Num 1)]
    ∧ CANNON.mass b = 5%Q
    ∧ length (bodies (store sampleState)) ∈ inWorld s'
    ∧ inWorld s' =
        CANNON.bodies (CANNON.addBody (length (bodies (store sampleState)))
                         (world (physicsEngine sampleState))).
Proof.
  assert (H1 : Desc.type (Desc.empty "torus") ∉ bodyTypes)
    by (refine (bool_decide_unpack _ _); vm_compute; exact I).
  split; [exact H1|].
  exact (proj1 createBody_fallback_is_unreachable_from_createObject
           (Desc.empty "torus") 5%Q origin10 sampleState H1).
Defined.

(** * Further properties *)

(** ** Single operations *)

Lemma Qle_bool_false a b : Qle_bool a b = false → (b < a)%Q.
Proof.
  intros H. apply Qnot_le_lt. intros Hle. apply Qle_bool_iff in Hle. congruence.
Qed.

(** X1: [setTimeScale(scale)] always returns and leaves the time scale
    between 0.1 and 2: a scale in that range is taken as it is (up to
    equality of numbers), a smaller one becomes 0.1 and a larger one 2.
    The scale is a number; [NaN] is not among the arguments. *)
Theorem setTimeScale_clamps scale s :
  ∃ s',
    PhysicsEngine.setTimeScale scale s = Ok tt s'
    ∧ (0.1 <= timeScale (physicsEngine s'))%Q
    ∧ (timeScale (physicsEngine s') <= 2)%Q
    ∧ ((0.1 <= scale)%Q → (scale <= 2)%Q → (timeScale (physicsEngine s') == scale)%Q)
    ∧ ((scale < 0.1)%Q → (timeScale (physicsEngine s') == 0.1)%Q)
    ∧ ((2 < scale)%Q → (timeScale (physicsEngine s') == 2)%Q).
Proof.
  eexists. split; [reflexivity|]. simpl. unfold Math_max, Math_min.
  destruct (Qle_bool 2 scale) eqn:H2; [apply Qle_bool_iff in H2|apply Qle_bool_false in H2].
  - replace (Qle_bool 0.1 2) with true by reflexivity. repeat split; intros; lra.
  - destruct (Qle_bool 0.1 scale) eqn:H1;
      [apply Qle_bool_iff in H1|apply Qle_bool_false in H1]; repeat split; intros; lra.
Qed.

(** X2: a box spawned with size [q] gets a box geometry of edges [q]
    for its mesh and a box shape of half extents [q/2] for its body. *)
Theorem box_extents_agree p q s :
  spawned "box" p (Num q) s
    (THREE.BoxGeometry (Num q) (Num q) (Num q))
    (CANNON.Box (Num (q / 2)) (Num (q / 2)) (Num (q / 2))).
Proof. spawn_case. Qed.

(** X3: a cone spawned with size [q] gets a cone geometry of radius
    [q/2], height [q] and 32 segments for its mesh, and for its body a
    cylinder shape of top radius 0.01, bottom radius [q/2], height [q] and
    8 segments. *)
Theorem cone_body_is_a_truncated_cylinder p q s :
  spawned "cone" p (Num q) s
    (THREE.ConeGeometry (Num (q / 2)) (Num q) 32)
    (CANNON.Cylinder (Num 0.01) (Num (q / 2)) (Num q) (Num 8)).
Proof. spawn_case. Qed.

(** X4: when the next four results of [Math.random()] lie in [0, 1),
    [spawnRandom] of a supported kind returns a new object of that kind
    whose body is placed with x and z between -5 and 5 and y between 10
    and 15, and whose mesh and body are those of the kind's case for a
    size between 1.5 and 3, which the library accepts.  The ends are
    included: the program adds in floating point, where a sum below an
    upper end can round to it. *)
Theorem spawnRandom_stays_in_bounds ty s :
  ty ∈ kinds →
  unitInterval (nextRandom s 0) → unitInterval (nextRandom s 1) →
  unitInterval (nextRandom s 2) → unitInterval (nextRandom s 3) →
  ∃ obj o m b size g d sh s',
    ObjectManager.spawnRandom ty s = Ok (Some obj) s'
    ∧ objAt s' obj = Some o
    ∧ Obj.type o = ty
    ∧ meshAt s' (Obj.mesh o) = Some m
    ∧ bodyAt s' (Obj.body o) = Some b
    ∧ (-5 <= vx (CANNON.position b))%Q ∧ (vx (CANNON.position b) <= 5)%Q
    ∧ (10 <= vy (CANNON.position b))%Q ∧ (vy (CANNON.position b) <= 15)%Q
    ∧ (-5 <= vz (CANNON.position b))%Q ∧ (vz (CANNON.position b) <= 5)%Q
    ∧ (1.5 <= size)%Q ∧ (size <= 3)%Q
    ∧ caseOf ty (Num size) = Some (g, d)
    ∧ PhysicsEngine.cannonShapeOf d = inr sh
    ∧ THREE.geometry m = g
    ∧ CANNON.shapes b = [sh].
Proof.
  intros Hk [H0 H0'] [H1 H1'] [H2 H2'] [H3 H3'].
  unfold nextRandom in *. rewrite Nat.add_0_r in *.
  rewrite !Nat.add_1_r in *.
  replace (randomCalls (env s) + 2) with (S (S (randomCalls (env s)))) in * by lia.
  replace (randomCalls (env s) + 3) with (S (S (S (randomCalls (env s))))) in * by lia.
  set (size := (1.5 + random (env s) (S (S (S (randomCalls (env s))))) * 1.5)%Q).
  assert (Hsz : validSize (Num size)) by (unfold size; simpl; lra).
  destruct (caseOf_valid ty (Num size) Hk Hsz) as (g & d & sh & Hc & Hsh).
  unfold ObjectManager.spawnRandom.
  unfold bind at 1. unfold Math_random at 1.
  unfold bind at 1. unfold Math_random at 1.
  unfold bind at 1. unfold Math_random at 1.
  unfold bind at 1. unfold Math_random at 1. cbn [env withEnv random randomCalls].
  fold size. rewrite (createObject_exact _ _ _ _ g d sh) by done.
  eexists _, _, _, _, size, g, d, sh, _. split; [reflexivity|].
  unfold objAt, meshAt, bodyAt. cbn [store objs meshes bodies].
  rewrite last_lookup. split; [reflexivity|]. cbn [Obj.type Obj.mesh Obj.body].
  rewrite !last_lookup. split; [reflexivity|]. split; [reflexivity|]. split; [reflexivity|].
  cbn [bodyMade CANNON.position CANNON.shapes meshMade THREE.geometry vx vy vz].
  unfold size. repeat split; try reflexivity; try lra; done.
Qed.

(** X5: when the next result of [Math.random()] lies in [0, 1),
    [spawnAtPosition] of a supported kind returns a new object of that
    kind whose body is placed at the given x and z and 2 above the given
    y, and whose mesh and body are those of the kind's case for a size
    between 1.5 and 2, which the library accepts.  The ends are included:
    the program adds in floating point, where a sum below the upper end
    can round to it. *)
Theorem spawnAtPosition_lifts_by_two ty p s :
  ty ∈ kinds →
  unitInterval (nextRandom s 0) →
  ∃ obj o m b size g d sh s',
    ObjectManager.spawnAtPosition ty p s = Ok (Some obj) s'
    ∧ objAt s' obj = Some o
    ∧ Obj.type o = ty
    ∧ meshAt s' (Obj.mesh o) = Some m
    ∧ bodyAt s' (Obj.body o) = Some b
    ∧ CANNON.position b = mkVec3 (vx p) (vy p + 2) (vz p)
    ∧ (1.5 <= size)%Q ∧ (size <= 2)%Q
    ∧ caseOf ty (Num size) = Some (g, d)
    ∧ PhysicsEngine.cannonShapeOf d = inr sh
    ∧ THREE.geometry m = g
    ∧ CANNON.shapes b = [sh].
Proof.
  intros Hk [H0 H0']. unfold nextRandom in *. rewrite Nat.add_0_r in *.
  set (size := (1.5 + random (env s) (randomCalls (env s)) * 0.5)%Q).
  assert (Hsz : validSize (Num size)) by (unfold size; simpl; lra).
  destruct (caseOf_valid ty (Num size) Hk Hsz) as (g & d & sh & Hc & Hsh).
  unfold ObjectManager.spawnAtPosition.
  unfold bind at 1. unfold Math_random at 1. cbn [env withEnv random randomCalls].
  fold size. rewrite (createObject_exact _ _ _ _ g d sh) by done.
  eexists _, _, _, _, size, g, d, sh, _. split; [reflexivity|].
  unfold objAt, meshAt, bodyAt. cbn [store objs meshes bodies].
  rewrite last_lookup. split; [reflexivity|]. cbn [Obj.type Obj.mesh Obj.body].
  rewrite !last_lookup. split; [reflexivity|]. split; [reflexivity|]. split; [reflexivity|].
  cbn [bodyMade CANNON.position CANNON.shapes meshMade THREE.geometry vx vy vz].
  unfold size. repeat split; try reflexivity; try lra; done.
Qed.

(** X6: the pause button flips the driver's flag and sets the
    engine's flag to the new value, whatever it was, and touches neither
    registry, scene, world, meshes nor bodies.  A second click restores
    the driver's flag, and restores the whole state when the two flags
    agreed to begin with. *)
Theorem togglePause_makes_the_flags_agree s :
  ∃ s',
    App.togglePause s = Ok tt s'
    ∧ uiPaused (driver s') = negb (uiPaused (driver s))
    ∧ isPaused (physicsEngine s') = negb (uiPaused (driver s))
    ∧ sameObjects s s'
    ∧ ∃ s'',
        App.togglePause s' = Ok tt s''
        ∧ uiPaused (driver s'') = uiPaused (driver s)
        ∧ isPaused (physicsEngine s'') = uiPaused (driver s)
        ∧ (isPaused (physicsEngine s) = uiPaused (driver s) → s'' = s).
Proof.
  eexists. split; [reflexivity|]. simpl. repeat split.
  eexists. split; [reflexivity|]. simpl. rewrite !negb_involutive. repeat split.
  intros H. destruct s as [st [w ts ms sc pa cm se] re om [ai lt sh up ft ot] en].
  simpl in *. subst. unfold withEngine, withDriver. simpl.
  by rewrite negb_involutive.
Qed.

Lemma dynamic_setInWorld l s b : dynamic (setInWorld l s) b = dynamic s b.
Proof. done. Qed.

Lemma filter_filter_same {A} (P : A → Prop) `{∀ x, Decision (P x)} (l : list A) :
  filter P (filter P l) = filter P l.
Proof.
  induction l as [|x l IH]; [done|]. rewrite filter_cons.
  destruct (decide (P x)); [|done]. rewrite filter_cons_True by done. by rewrite IH.
Qed.

Lemma filter_ext_in {A} (P Q : A → Prop) `{∀ x, Decision (P x)} `{∀ x, Decision (Q x)}
    (l : list A) :
  (∀ x, x ∈ l → P x ↔ Q x) → filter P l = filter Q l.
Proof.
  induction l as [|x l IH]; intros Hl; [done|].
  rewrite !filter_cons. rewrite IH by (intros; apply Hl; by right).
  destruct (decide (P x)) as [HP|HP], (decide (Q x)) as [HQ|HQ]; try done.
  - exfalso. apply HQ, Hl; [by left|done].
  - exfalso. apply HP, Hl; [by left|done].
Qed.

(** X7: on every reachable state [clearAllBodies()] returns and
    changes nothing but the world's list of bodies, which keeps exactly
    its static bodies in their order.  No dynamic body is left, so the
    body of no object is in the world, while [getCount()] still reports
    the objects as before: the engine's sweep does not tell the registry.
    A second sweep changes nothing. *)
Theorem clearAllBodies_keeps_statics_only e cs issued s :
  run e cs = Ok issued s →
  ∃ s',
    PhysicsEngine.clearAllBodies s = Ok tt s'
    ∧ s' = setInWorld (statics s) s
    ∧ dynamicCount s' = 0
    ∧ ObjectManager.getCount s' = Ok (length (tracked s)) s'
    ∧ (∀ obj o, objAt s obj = Some o → Obj.body o ∉ inWorld s')
    ∧ PhysicsEngine.clearAllBodies s' = Ok tt s'.
Proof.
  intros Hrun. destruct (run_inv _ _ _ _ Hrun) as [W _].
  assert (E : PhysicsEngine.clearAllBodies s = Ok tt (setInWorld (statics s) s))
    by (apply clearAllBodies_run, W).
  assert (W' : wf (setInWorld (statics s) s)).
  { by destruct (clearAllBodies_wf _ _ W E). }
  eexists. split; [exact E|]. split; [reflexivity|].
  assert (Hst : statics (setInWorld (statics s) s) = statics s).
  { unfold statics at 1. change (inWorld (setInWorld (statics s) s)) with (statics s).
    unfold statics. apply (filter_filter_same (λ b, dynamic s b = false)). }
  split.
  { unfold dynamicCount. change (inWorld (setInWorld (statics s) s)) with (statics s).
    rewrite filter_none; [done|]. intros b Hb. unfold statics in Hb.
    apply list_elem_of_filter in Hb as [Hb _]. rewrite dynamic_setInWorld. congruence. }
  split; [reflexivity|]. split.
  { intros obj o Ho Hin. change (inWorld (setInWorld (statics s) s)) with (statics s) in Hin.
    apply list_elem_of_filter in Hin as [Hd _].
    rewrite (wf_mass s W obj o Ho) in Hd. done. }
  rewrite clearAllBodies_run by apply W'. f_equal.
  change (filter _ (inWorld (setInWorld (statics s) s)))
    with (statics (setInWorld (statics s) s)).
  by rewrite Hst.
Qed.

(** X8: on every reachable state, spawning an object of a supported
    kind, with a size that is omitted or a number not below 0, raises the
    body count that [PhysicsEngine.getStats()] reports by exactly one and
    leaves its activity flag as it was. *)
Theorem createObject_adds_one_dynamic_body e cs issued s ty p sz :
  run e cs = Ok issued s →
  ty ∈ kinds →
  validSize sz →
  ∃ obj s',
    ObjectManager.createObject ty p sz s = Ok (Some obj) s'
    ∧ PhysicsEngine.getStats s
      = Ok (dynamicCount s, negb (isPaused (physicsEngine s))) s
    ∧ PhysicsEngine.getStats s'
      = Ok (dynamicCount s + 1, negb (isPaused (physicsEngine s))) s'.
Proof.
  intros Hrun Hk Hsz. destruct (run_inv _ _ _ _ Hrun) as [W _].
  destruct (caseOf_valid ty sz Hk Hsz) as (g & d & sh & Hc & Hsh).
  pose proof (createObject_exact ty p sz s g d sh Hc Hsh) as E.
  assert (W' := createObject_wf _ _ _ _ _ _ W E).
  eexists _, _. split; [exact E|]. split; [by apply getStats_run|].
  rewrite getStats_run by done. f_equal. f_equal.
  unfold dynamicCount, inWorld. cbn [physicsEngine world setWorld].
  rewrite addBody_fresh.
  2:{ intros Hin. apply (wf_world s W) in Hin. lia. }
  rewrite filter_app, length_app. f_equal.
  - f_equal. apply filter_ext_in. intros b Hb.
    apply (wf_world s W) in Hb. unfold dynamic, bodyAt. cbn [store bodies].
    destruct (lookup_lt_is_Some_2 _ _ Hb) as [x Hx].
    by rewrite (lookup_app_l_Some _ _ _ _ Hx), Hx.
  - rewrite filter_cons_True; [done|].
    unfold dynamic, bodyAt. cbn [store bodies]. rewrite last_lookup. simpl.
    apply W.
Qed.

(** X9: on every reachable state, [createObject] of a supported kind,
    with a size that is omitted or a number not below 0, puts the body at
    the requested position with no rotation, but leaves the new mesh at
    the origin: the mesh shows the position only after the next
    [update()] of the registry. *)
Theorem spawned_mesh_waits_for_the_sync e cs issued s ty p sz :
  run e cs = Ok issued s →
  ty ∈ kinds →
  validSize sz →
  ∃ obj o m1 b s1,
    ObjectManager.createObject ty p sz s = Ok (Some obj) s1
    ∧ objAt s1 obj = Some o
    ∧ meshAt s1 (Obj.mesh o) = Some m1
    ∧ THREE.position m1 = vec3_zero
    ∧ THREE.quaternion m1 = quat_identity
    ∧ bodyAt s1 (Obj.body o) = Some b
    ∧ CANNON.position b = p
    ∧ CANNON.quaternion b = quat_identity
    ∧ ∃ m2 s2,
        ObjectManager.update s1 = Ok tt s2
        ∧ meshAt s2 (Obj.mesh o) = Some m2
        ∧ THREE.position m2 = p
        ∧ THREE.quaternion m2 = quat_identity.
Proof.
  intros Hrun Hk Hsz. destruct (run_inv _ _ _ _ Hrun) as [W _].
  destruct (caseOf_valid ty sz Hk Hsz) as (g & d & sh & Hc & Hsh).
  pose proof (createObject_exact ty p sz s g d sh Hc Hsh) as E.
  assert (W1 := createObject_wf _ _ _ _ _ _ W E).
  match type of E with _ = Ok _ ?x => set (s1 := x) in * end.
  assert (Ho : objAt s1 (length (objs (store s)))
               = Some (Obj.mk (objectId (objectManager s)) ty
                         (length (meshes (store s))) (length (bodies (store s)))))
    by apply last_lookup.
  assert (Hm : meshAt s1 (length (meshes (store s))) = Some (meshMade s ty g))
    by apply last_lookup.
  assert (Hb : bodyAt s1 (length (bodies (store s)))
               = Some (bodyMade s (defaultMass (settings (physicsEngine s))) sh p))
    by apply last_lookup.
  eexists _, _, _, _, s1. split; [exact E|]. split; [exact Ho|].
  split; [exact Hm|]. split; [reflexivity|]. split; [reflexivity|].
  split; [exact Hb|]. split; [apply vec3_eta|]. split; [reflexivity|].
  destruct (sync_run s1 W1) as (s2 & E2 & _ & Hsync & _).
  destruct (Hsync (length (objs (store s)))) as (o' & m2 & b' & Ho' & Hb' & Hm2 & Hp & Hq).
  { unfold tracked. simpl. apply elem_of_app. right. by apply list_elem_of_singleton. }
  rewrite Ho in Ho'. injection Ho' as <-. cbn [Obj.body Obj.mesh] in *.
  rewrite Hb in Hb'. injection Hb' as <-.
  exists m2, s2. split; [exact E2|]. split; [exact Hm2|].
  rewrite Hp, Hq. split; [apply vec3_eta|reflexivity].
Qed.

(** X10: on every reachable state, [createObject] leaves every object
    record, mesh and body there is as it was, only extends the registry,
    the scene and the world's list of bodies at their ends, and changes
    nothing else in the engine, the renderer and the driver. *)
Theorem createObject_only_appends e cs issued s ty p sz r s' :
  run e cs = Ok issued s →
  ObjectManager.createObject ty p sz s = Ok r s' →
  (∀ a o, objAt s a = Some o → objAt s' a = Some o)
  ∧ (∀ a m, meshAt s a = Some m → meshAt s' a = Some m)
  ∧ (∀ a b, bodyAt s a = Some b → bodyAt s' a = Some b)
  ∧ tracked s `prefix_of` tracked s'
  ∧ inScene s `prefix_of` inScene s'
  ∧ inWorld s `prefix_of` inWorld s'
  ∧ physicsEngine s' = setWorld (world (physicsEngine s')) (physicsEngine s)
  ∧ CANNON.gravity (world (physicsEngine s')) = CANNON.gravity (world (physicsEngine s))
  ∧ renderer s' = setScene (inScene s') (renderer s)
  ∧ driver s' = driver s.
Proof.
  intros Hrun E. destruct (run_inv _ _ _ _ Hrun) as [W _].
  rewrite createObject_cases in E.
  destruct (caseOf ty (orDefault 2 sz)) as [[g d]|].
  - rewrite spawnWith_exact in E.
    destruct (PhysicsEngine.cannonShapeOf d) as [ex|sh]; [done|]. injection E as _ <-.
    unfold objAt, meshAt, bodyAt, tracked, inScene, inWorld.
    cbn [store objs meshes bodies objectManager objects renderer scene physicsEngine
         world setWorld setScene driver].
    split; [intros; by apply lookup_app_l_Some|].
    split; [intros; by apply lookup_app_l_Some|].
    split; [intros; by apply lookup_app_l_Some|].
    split; [by eexists|]. split.
    { fold (inScene s). rewrite add_fresh; [by eexists|].
      intros Hin. apply (wf_scene s W) in Hin. lia. }
    split.
    { rewrite addBody_fresh; [by eexists|].
      intros Hin. apply (wf_world s W) in Hin. lia. }
    repeat split.
  - injection E as _ <-. repeat split; try done.
    + by destruct (physicsEngine s).
    + unfold inScene. by destruct (renderer s).
Qed.

(** X11: on every reachable state, [removeObject(obj)] takes the first
    entry [obj] out of the registry and leaves every record and body as
    it was; for every other object the mesh is untouched and it is
    tracked, in the scene and in the world exactly when it was before. *)
Theorem removeObject_touches_one_object_only e cs issued s obj s' :
  run e cs = Ok issued s →
  ObjectManager.removeObject obj s = Ok tt s' →
  tracked s' = removeFirst obj (tracked s)
  ∧ objs (store s') = objs (store s)
  ∧ bodies (store s') = bodies (store s)
  ∧ ∀ a oa, a ≠ obj → objAt s a = Some oa →
      meshAt s' (Obj.mesh oa) = meshAt s (Obj.mesh oa)
      ∧ (a ∈ tracked s' ↔ a ∈ tracked s)
      ∧ (THREE.MeshRef (Obj.mesh oa) ∈ inScene s' ↔ THREE.MeshRef (Obj.mesh oa) ∈ inScene s)
      ∧ (Obj.body oa ∈ inWorld s' ↔ Obj.body oa ∈ inWorld s).
Proof.
  intros Hrun E. destruct (run_inv _ _ _ _ Hrun) as [W _].
  destruct (objAt s obj) as [o|] eqn:Ho; [|by rewrite removeObject_throws in E].
  destruct (removeObject_wf_run obj o s W Ho)
    as (m & s2 & Hm & E2 & Hst & Hom & Hre & Hpe & _).
  rewrite E2 in E. injection E as <-.
  unfold tracked, inScene, inWorld, meshAt. rewrite Hst, Hom, Hre, Hpe.
  cbn [setObjects objects setMeshes meshes bodies objs setScene scene setWorld world
       CANNON.removeBody CANNON.bodies THREE.remove].
  split; [done|]. split; [done|]. split; [done|].
  intros a oa Hne Hoa. repeat split.
  - rewrite list_lookup_insert_ne; [done|].
    intros Heq. apply Hne. symmetry. by eapply (wf_mesh_inj s W).
  - intros Hin. by apply removeFirst_subseteq in Hin.
  - intros Hin. by apply elem_of_removeFirst_ne.
  - intros Hin. by apply removeFirst_subseteq in Hin.
  - intros Hin. apply elem_of_removeFirst_ne; [|done].
    intros Heq. injection Heq as Heq. apply Hne. symmetry. by eapply (wf_mesh_inj s W).
  - intros Hin. by apply removeFirst_subseteq in Hin.
  - intros Hin. apply elem_of_removeFirst_ne; [|done].
    intros Heq. apply Hne. symmetry. by eapply (wf_body_inj s W).
Qed.

(** ** Relations between the state before and after a call *)

Lemma sameButMotion_refl b : sameButMotion b b.
Proof. by repeat split. Qed.

Lemma sameButMotion_trans b1 b2 b3 :
  sameButMotion b1 b2 → sameButMotion b2 b3 → sameButMotion b1 b3.
Proof. unfold sameButMotion. intros (?&?&?&?&?) (?&?&?&?&?). repeat split; congruence. Qed.

Lemma sameButMotion_setMotion mo b : sameButMotion b (CANNON.setMotion mo b).
Proof. destruct mo as [[[p q] v] w]. by repeat split. Qed.

Lemma sameButUse_refl m : sameButUse m m.
Proof. by repeat split. Qed.

Lemma sameButUse_trans m1 m2 m3 :
  sameButUse m1 m2 → sameButUse m2 m3 → sameButUse m1 m3.
Proof.
  unfold sameButUse. intros (?&?&?&?&?&?) (?&?&?&?&?&?).
  repeat split; try congruence; auto.
Qed.

Lemma sameButTransform_use m m' : sameButTransform m m' → sameButUse m m'.
Proof. intros (?&?&?&?&?&?). repeat split; congruence. Qed.

Lemma kept_refl s : kept s s.
Proof.
  split; try done.
  - intros a b Hb. exists b. split; [done|apply sameButMotion_refl].
  - intros a m Hm. exists m. split; [done|apply sameButUse_refl].
Qed.

Lemma kept_trans s1 s2 s3 : kept s1 s2 → kept s2 s3 → kept s1 s3.
Proof.
  intros [A1 A2 A3 A4 A5] [B1 B2 B3 B4 B5]. split.
  - intros a o Ho. by apply B1, A1.
  - intros a b Hb. destruct (A2 a b Hb) as (b2 & Hb2 & S2).
    destruct (B2 a b2 Hb2) as (b3 & Hb3 & S3). exists b3.
    split; [done|by eapply sameButMotion_trans].
  - intros a m Hm. destruct (A3 a m Hm) as (m2 & Hm2 & S2).
    destruct (B3 a m2 Hm2) as (m3 & Hm3 & S3). exists m3.
    split; [done|by eapply sameButUse_trans].
  - lia.
  - congruence.
Qed.

Lemma quiet_refl s : quiet s s.
Proof.
  split; try done.
  - intros a m Hm. exists m. split; [done|apply sameButTransform_refl].
  - intros a b Hb. exists b. split; [done|apply sameButMotion_refl].
Qed.

Lemma quiet_trans s1 s2 s3 : quiet s1 s2 → quiet s2 s3 → quiet s1 s3.
Proof.
  intros [A1 A2 A3 A4 A5 A6 A7 A8] [B1 B2 B3 B4 B5 B6 B7 B8]. split; try congruence.
  - intros a m Hm. destruct (A6 a m Hm) as (m2 & Hm2 & S2).
    destruct (B6 a m2 Hm2) as (m3 & Hm3 & S3). exists m3.
    split; [done|by eapply sameButTransform_trans].
  - intros a b Hb. destruct (A8 a b Hb) as (b2 & Hb2 & S2).
    destruct (B8 a b2 Hb2) as (b3 & Hb3 & S3). exists b3.
    split; [done|by eapply sameButMotion_trans].
Qed.

Lemma quiet_kept s s' : quiet s s' → kept s s'.
Proof.
  intros [A1 A2 A3 A4 A5 A6 A7 A8]. split.
  - unfold objAt. by rewrite A1.
  - done.
  - intros a m Hm. destruct (A6 a m Hm) as (m' & Hm' & S).
    exists m'. split; [done|by apply sameButTransform_use].
  - by rewrite A2.
  - by rewrite A2.
Qed.

Lemma quiet_registryKept s s' : quiet s s' → registryKept s s'.
Proof. intros [A1 A2 A3 A4 A5 A6 A7 A8]. by split. Qed.

Lemma registryKept_refl s : registryKept s s.
Proof.
  split; try done. intros a m Hm. exists m. split; [done|apply sameButTransform_refl].
Qed.

Lemma registryKept_trans s1 s2 s3 :
  registryKept s1 s2 → registryKept s2 s3 → registryKept s1 s3.
Proof.
  intros [A1 A2 A3 A4] [B1 B2 B3 B4]. split; try congruence.
  intros a m Hm. destruct (A4 a m Hm) as (m2 & Hm2 & S2).
  destruct (B4 a m2 Hm2) as (m3 & Hm3 & S3). exists m3.
  split; [done|by eapply sameButTransform_trans].
Qed.

Lemma dynamic_kept s s' b :
  (∀ a x, bodyAt s a = Some x → ∃ x', bodyAt s' a = Some x' ∧ sameButMotion x x') →
  b < length (bodies (store s)) → dynamic s' b = dynamic s b.
Proof.
  intros Hk Hb. destruct (lookup_lt_is_Some_2 _ _ Hb) as [x Hx].
  destruct (Hk b x Hx) as (x' & Hx' & Hm & _).
  unfold dynamic. unfold bodyAt in *. rewrite Hx, Hx'. by rewrite Hm.
Qed.

Lemma quiet_staticsStay s s' : wf s → quiet s s' → staticsStay s s'.
Proof.
  intros W Q b Hb Hd. split; [by rewrite (q_world _ _ Q)|].
  rewrite (dynamic_kept s s'); [done|apply Q|by apply W].
Qed.

Lemma staticsStay_refl s : staticsStay s s.
Proof. by intros b Hb Hd. Qed.

Lemma staticsStay_trans s1 s2 s3 :
  staticsStay s1 s2 → staticsStay s2 s3 → staticsStay s1 s3.
Proof. intros A B b Hb Hd. destruct (A b Hb Hd). by apply B. Qed.

Lemma tuned_refl s : tuned s s.
Proof. done. Qed.

Lemma tuned_trans s1 s2 s3 : tuned s1 s2 → tuned s2 s3 → tuned s1 s3.
Proof. intros [A1 A2] [B1 B2]. split; congruence. Qed.

Lemma meshesMoved_quiet s s' : meshesMoved s s' → quiet s s'.
Proof.
  intros (Hpe & Hre & Hom & Hdr & Hen & Hbo & Hob & Hlen & Hme).
  split; unfold inScene, inWorld, bodyAt; rewrite ?Hpe, ?Hre, ?Hbo; try done.
  intros a b Hb. exists b. split; [done|apply sameButMotion_refl].
Qed.

Lemma meshesMoved_tuned s s' : meshesMoved s s' → tuned s s'.
Proof.
  intros (Hpe & Hre & _). unfold tuned, engineParams. by rewrite Hpe, Hre.
Qed.

Lemma sameObjects_quiet s s' : sameObjects s s' → quiet s s'.
Proof.
  intros (Hst & Hom & Hdm & Hsc & Hwo).
  split; unfold meshAt, bodyAt; rewrite ?Hst; try done.
  - intros a m Hm. exists m. split; [done|apply sameButTransform_refl].
  - intros a b Hb. exists b. split; [done|apply sameButMotion_refl].
Qed.

(** ** What each method keeps *)


Lemma stores_same_kept s s' :
  store s' = store s → objectManager s' = objectManager s → kept s s'.
Proof.
  intros Hst Hom. split; unfold objAt, bodyAt, meshAt; rewrite ?Hst, ?Hom; try done.
  - intros a b Hb. exists b. split; [done|apply sameButMotion_refl].
  - intros a m Hm. exists m. split; [done|apply sameButUse_refl].
Qed.

Lemma stores_same_registryKept s s' :
  store s' = store s → objectManager s' = objectManager s → inScene s' = inScene s →
  registryKept s s'.
Proof.
  intros Hst Hom Hsc. split; unfold meshAt; rewrite ?Hst; try done.
  intros a m Hm. exists m. split; [done|apply sameButTransform_refl].
Qed.

(** *** createObject *)

Lemma createObject_kept ty p sz s r s' :
  ObjectManager.createObject ty p sz s = Ok r s' → kept s s'.
Proof.
  intros E. rewrite createObject_cases in E.
  destruct (caseOf ty (orDefault 2 sz)) as [[g d]|].
  - rewrite spawnWith_exact in E.
    destruct (PhysicsEngine.cannonShapeOf d) as [ex|sh]; [done|]. injection E as _ <-.
    split; unfold objAt, bodyAt, meshAt; cbn [store objs meshes bodies objectManager objectId colors].
    + intros a o Ho. by apply lookup_app_l_Some.
    + intros a b Hb. exists b. split; [by apply lookup_app_l_Some|apply sameButMotion_refl].
    + intros a m Hm. exists m. split; [by apply lookup_app_l_Some|apply sameButUse_refl].
    + lia.
    + done.
  - injection E as _ <-. apply kept_refl.
Qed.

Lemma createObject_tuned ty p sz s r s' :
  ObjectManager.createObject ty p sz s = Ok r s' → tuned s s'.
Proof.
  intros E. rewrite createObject_cases in E.
  destruct (caseOf ty (orDefault 2 sz)) as [[g d]|].
  - rewrite spawnWith_exact in E.
    destruct (PhysicsEngine.cannonShapeOf d) as [ex|sh]; [done|]. by injection E as _ <-.
  - by injection E as _ <-.
Qed.

Lemma createObject_staticsStay ty p sz s r s' :
  wf s → ObjectManager.createObject ty p sz s = Ok r s' → staticsStay s s'.
Proof.
  intros W E b Hb Hd. pose proof (createObject_kept _ _ _ _ _ _ E) as K.
  split.
  - rewrite createObject_cases in E.
    destruct (caseOf ty (orDefault 2 sz)) as [[g d]|].
    + rewrite spawnWith_exact in E.
    destruct (PhysicsEngine.cannonShapeOf d) as [ex|sh]; [done|]. injection E as _ <-.
      unfold inWorld. cbn [physicsEngine world setWorld].
      rewrite addBody_fresh.
      * apply elem_of_app. by left.
      * intros Hin. apply (wf_world s W) in Hin. lia.
    + by injection E as _ <-.
  - rewrite (dynamic_kept s s'); [done|apply K|by apply W].
Qed.

(** *** the random draws before a spawn *)

Lemma Math_random_quiet s r s' : Math_random s = Ok r s' → quiet s s' ∧ tuned s s'.
Proof.
  intros E. split; [apply sameObjects_quiet; by apply (Math_random_same s r)|].
  unfold Math_random in E. by injection E as _ <-.
Qed.

(** *** removeObject *)

Lemma removeObject_kept obj s s' :
  wf s → ObjectManager.removeObject obj s = Ok tt s' → kept s s' ∧ tuned s s'.
Proof.
  intros W E. destruct (objAt s obj) as [o|] eqn:Ho; [|by rewrite removeObject_throws in E].
  destruct (removeObject_wf_run obj o s W Ho)
    as (m & s2 & Hm & E2 & Hst & Hom & Hre & Hpe & _).
  rewrite E2 in E. injection E as <-. split.
  - split; unfold objAt, bodyAt, meshAt; rewrite ?Hst, ?Hom; simpl; try done.
    + intros a b Hb. exists b. split; [done|apply sameButMotion_refl].
    + intros a m0 Hm0. destruct (decide (a = Obj.mesh o)) as [->|Hne].
      * rewrite list_lookup_insert_eq by (by eapply lookup_lt_Some).
        eexists. split; [reflexivity|].
        assert (m0 = m) as -> by (unfold meshAt in Hm; congruence).
        by repeat split.
      * exists m0. rewrite list_lookup_insert_ne by done.
        split; [done|apply sameButUse_refl].
  - unfold tuned, engineParams. by rewrite Hpe, Hre.
Qed.

Lemma removeObject_staticsStay obj s s' :
  wf s → ObjectManager.removeObject obj s = Ok tt s' → staticsStay s s'.
Proof.
  intros W E b Hb Hd.
  destruct (removeObject_kept _ _ _ W E) as [K _].
  destruct (objAt s obj) as [o|] eqn:Ho; [|by rewrite removeObject_throws in E].
  destruct (removeObject_wf_run obj o s W Ho)
    as (m & s2 & Hm & E2 & Hst & Hom & Hre & Hpe & _).
  rewrite E2 in E. injection E as <-. split.
  - unfold inWorld. rewrite Hpe. simpl. apply elem_of_removeFirst_ne; [|done].
    intros ->. rewrite (wf_mass s W obj o Ho) in Hd. done.
  - rewrite (dynamic_kept s s2); [done|apply K|by apply W].
Qed.

(** *** the engine *)

Lemma createBody_effect d m p s a s' :
  wf s → PhysicsEngine.createBody d m p s = Ok a s' →
  kept s s' ∧ tuned s s' ∧ registryKept s s' ∧ staticsStay s s'.
Proof.
  intros W E. rewrite createBody_exact in E.
  destruct (PhysicsEngine.cannonShapeOf d) as [ex|sh]; [done|]. injection E as _ <-.
  assert (K : kept s
    (mkSys (setBodies (bodies (store s) ++ [bodyMade s m sh p]) (store s))
       (setWorld (CANNON.addBody (length (bodies (store s))) (world (physicsEngine s)))
          (physicsEngine s)) (renderer s) (objectManager s) (driver s)
       (drawRandom 3 (env s)))).
  { split; unfold objAt, bodyAt, meshAt; simpl; try done.
    - intros a0 b Hb. exists b. split; [by apply lookup_app_l_Some|apply sameButMotion_refl].
    - intros a0 m0 Hm. exists m0. split; [done|apply sameButUse_refl]. }
  split; [exact K|]. split; [done|]. split.
  - split; try done. intros a0 m0 Hm. exists m0. split; [done|apply sameButTransform_refl].
  - intros b Hb Hd. split.
    + unfold inWorld. cbn [physicsEngine world setWorld]. rewrite addBody_fresh.
      * apply elem_of_app. by left.
      * intros Hin. apply (wf_world s W) in Hin. lia.
    + rewrite (dynamic_kept s _); [done|apply K|by apply W].
Qed.

Lemma setInWorld_effect l s :
  kept s (setInWorld l s) ∧ tuned s (setInWorld l s) ∧ registryKept s (setInWorld l s).
Proof.
  split; [by apply stores_same_kept|]. split; [done|]. by apply stores_same_registryKept.
Qed.

Lemma removeBody_effect b s s' :
  PhysicsEngine.removeBody b s = Ok tt s' →
  kept s s' ∧ tuned s s' ∧ registryKept s s'.
Proof.
  intros E. rewrite removeBody_run in E. destruct (bodyAt s b); [|done].
  injection E as <-. apply setInWorld_effect.
Qed.

Lemma clearAllBodies_effect s s' :
  wf s → PhysicsEngine.clearAllBodies s = Ok tt s' →
  kept s s' ∧ tuned s s' ∧ registryKept s s' ∧ staticsStay s s'.
Proof.
  intros W E. rewrite clearAllBodies_run in E by apply W. injection E as <-.
  destruct (setInWorld_effect (filter (λ b, dynamic s b = false) (inWorld s)) s)
    as (K & T & R).
  split; [exact K|]. split; [exact T|]. split; [exact R|].
  intros b Hb Hd. split; [|exact Hd].
  unfold setInWorld, inWorld. simpl. fold (inWorld s). by apply list_elem_of_filter.
Qed.

Lemma engine_update_effect dt s s' :
  PhysicsEngine.update dt s = Ok tt s' → quiet s s' ∧ tuned s s'.
Proof.
  unfold PhysicsEngine.update, PhysicsEngine.world_step. run_monad.
  destruct (isPaused (physicsEngine s)); simpl; intros E; injection E as <-.
  - split; [apply quiet_refl|apply tuned_refl].
  - split; [|done]. split; simpl; rewrite ?length_imap; try done.
    + intros a m Hm. exists m. split; [done|apply sameButTransform_refl].
    + intros a b Hb. unfold bodyAt in *. simpl. rewrite list_lookup_imap, Hb. simpl.
      eexists. split; [reflexivity|].
      case_bool_decide; [apply sameButMotion_setMotion|apply sameButMotion_refl].
Qed.

Lemma sync_effect s s' :
  wf s → ObjectManager.update s = Ok tt s' → quiet s s' ∧ tuned s s'.
Proof.
  intros W E. destruct (sync_run s W) as (s2 & E2 & Hmv & _).
  rewrite E2 in E. injection E as <-.
  split; [by apply meshesMoved_quiet|by apply meshesMoved_tuned].
Qed.

Ltac quiet_by_computation E :=
  run_monad; simpl in E; injection E as <-;
  apply sameObjects_quiet; by repeat split.

Lemma setGravity_quiet x y z s s' :
  PhysicsEngine.setGravity x y z s = Ok tt s' → quiet s s'.
Proof. intros E. unfold PhysicsEngine.setGravity in E. quiet_by_computation E. Qed.

Lemma updateMaterialProperties_quiet r f s s' :
  PhysicsEngine.updateMaterialProperties r f s = Ok tt s' → quiet s s'.
Proof.
  intros E. unfold PhysicsEngine.updateMaterialProperties in E. quiet_by_computation E.
Qed.

Lemma setTimeScale_quiet sc s s' :
  PhysicsEngine.setTimeScale sc s = Ok tt s' → quiet s s'.
Proof. intros E. unfold PhysicsEngine.setTimeScale in E. quiet_by_computation E. Qed.

Lemma setPaused_quiet pa s s' :
  PhysicsEngine.setPaused pa s = Ok tt s' → quiet s s' ∧ tuned s s'.
Proof.
  intros E. split.
  - unfold PhysicsEngine.setPaused in E. quiet_by_computation E.
  - unfold PhysicsEngine.setPaused in E. run_monad. by injection E as <-.
Qed.

Lemma render_quiet s s' :
  PhysicsRenderer.render s = Ok tt s' →
  quiet s s' ∧ engineParams s' = engineParams s.
Proof.
  intros E. split.
  - unfold PhysicsRenderer.render, PhysicsRenderer.updateFPS in E. quiet_by_computation E.
  - unfold PhysicsRenderer.render, PhysicsRenderer.updateFPS in E. run_monad.
    simpl in E. by injection E as <-.
Qed.

Lemma updateStats_quiet s s' :
  App.updateStats s = Ok tt s' → quiet s s' ∧ tuned s s'.
Proof.
  intros E. split.
  - unfold App.updateStats, PhysicsRenderer.getStats, ObjectManager.getCount in E.
    quiet_by_computation E.
  - unfold App.updateStats, PhysicsRenderer.getStats, ObjectManager.getCount in E.
    run_monad. simpl in E. by injection E as <-.
Qed.

Lemma togglePause_quiet s s' :
  App.togglePause s = Ok tt s' → quiet s s' ∧ tuned s s'.
Proof.
  intros E. split.
  - unfold App.togglePause, PhysicsEngine.setPaused in E. quiet_by_computation E.
  - unfold App.togglePause, PhysicsEngine.setPaused in E. run_monad.
    simpl in E. by injection E as <-.
Qed.

(** ** From the methods to the calls *)

(** [clearAll()] is a loop of [removeObject] and then
    [clearAllBodies()]. *)
Section Sweep.

Variable R : Sys → Sys → Prop.

Hypothesis R_refl : ∀ s, R s s.
Hypothesis R_trans : ∀ s1 s2 s3, R s1 s2 → R s2 s3 → R s1 s3.
Hypothesis R_removeObject : ∀ obj s s',
  wf s → ObjectManager.removeObject obj s = Ok tt s' → R s s'.
Hypothesis R_clearAllBodies : ∀ s s',
  wf s → PhysicsEngine.clearAllBodies s = Ok tt s' → R s s'.

Lemma swept_each l : ∀ s s',
  wf s → foldList (λ _ x, ObjectManager.removeObject x) l tt s = Ok tt s' →
  wf s' ∧ R s s'.
Proof.
  induction l as [|x l IH]; intros s s' W E; simpl in E.
  - unfold ret in E. injection E as <-. by split.
  - apply bind_Ok in E as ([] & s1 & E1 & E).
    pose proof (removeObject_wf _ _ _ W E1) as W1.
    destruct (IH _ _ W1 E) as [W2 H2]. split; [done|].
    eapply R_trans; [by eapply R_removeObject|done].
Qed.

Lemma swept_clearAll s s' :
  wf s → ObjectManager.clearAll s = Ok tt s' → R s s'.
Proof.
  intros W E. unfold ObjectManager.clearAll in E.
  apply bind_Ok in E as (snapshot & s0 & E0 & E).
  unfold gets in E0. injection E0 as <- <-.
  apply bind_Ok in E as ([] & s1 & E1 & E).
  unfold forEach in E1. rewrite foldEach_const in E1.
  destruct (swept_each _ _ _ W E1) as [W1 H1].
  eapply R_trans; [exact H1|by eapply R_clearAllBodies].
Qed.

End Sweep.

(** A relation between the states before and after a step that holds
    for each method on its own holds for the methods built from them,
    and so for every call of a history.  [allowed] says which calls of
    the engine's body methods the history may make itself. *)
Section Closure.

Variable R : Sys → Sys → Prop.
Variable allowed : Call → Prop.

Hypothesis R_refl : ∀ s, R s s.
Hypothesis R_trans : ∀ s1 s2 s3, R s1 s2 → R s2 s3 → R s1 s3.
Hypothesis R_aside : ∀ s s',
  store s' = store s → physicsEngine s' = physicsEngine s →
  renderer s' = renderer s → objectManager s' = objectManager s → R s s'.
Hypothesis R_createObject : ∀ ty p sz s r s',
  wf s → ObjectManager.createObject ty p sz s = Ok r s' → R s s'.
Hypothesis R_removeObject : ∀ obj s s',
  wf s → ObjectManager.removeObject obj s = Ok tt s' → R s s'.
Hypothesis R_sync : ∀ s s', wf s → ObjectManager.update s = Ok tt s' → R s s'.
Hypothesis R_clearAll : ∀ s s', wf s → ObjectManager.clearAll s = Ok tt s' → R s s'.
Hypothesis R_createBody : ∀ d m p s a s',
  allowed (EngineCreateBody d m p) →
  wf s → PhysicsEngine.createBody d m p s = Ok a s' → R s s'.
Hypothesis R_removeBody : ∀ b s s',
  allowed (EngineRemoveBody b) →
  wf s → PhysicsEngine.removeBody b s = Ok tt s' → R s s'.
Hypothesis R_engineUpdate : ∀ dt s s',
  wf s → PhysicsEngine.update dt s = Ok tt s' → R s s'.
Hypothesis R_clearAllBodies : ∀ s s',
  allowed EngineClearAllBodies →
  wf s → PhysicsEngine.clearAllBodies s = Ok tt s' → R s s'.
Hypothesis R_setGravity : ∀ x y z s s',
  wf s → PhysicsEngine.setGravity x y z s = Ok tt s' → R s s'.
Hypothesis R_updateMaterialProperties : ∀ r f s s',
  wf s → PhysicsEngine.updateMaterialProperties r f s = Ok tt s' → R s s'.
Hypothesis R_setTimeScale : ∀ sc s s',
  wf s → PhysicsEngine.setTimeScale sc s = Ok tt s' → R s s'.
Hypothesis R_setPaused : ∀ pa s s',
  wf s → PhysicsEngine.setPaused pa s = Ok tt s' → R s s'.
Hypothesis R_render : ∀ s s', wf s → PhysicsRenderer.render s = Ok tt s' → R s s'.

Lemma aside_wf s s' :
  wf s → store s' = store s → physicsEngine s' = physicsEngine s →
  renderer s' = renderer s → objectManager s' = objectManager s → wf s'.
Proof.
  intros W Hst Hpe Hre Hom. eapply sameObjects_wf; [exact W|].
  unfold sameObjects, inScene, inWorld. by rewrite Hst, Hpe, Hre, Hom.
Qed.

Lemma closed_random s r s' : wf s → Math_random s = Ok r s' → wf s' ∧ R s s'.
Proof.
  intros W E. unfold Math_random in E. injection E as _ <-.
  split; [by eapply aside_wf|by apply R_aside].
Qed.

Lemma closed_spawnRandom ty s r s' :
  wf s → ObjectManager.spawnRandom ty s = Ok r s' → R s s'.
Proof.
  intros W E. unfold ObjectManager.spawnRandom in E.
  apply bind_Ok in E as (r1 & s1 & E1 & E).
  apply bind_Ok in E as (r2 & s2 & E2 & E).
  apply bind_Ok in E as (r3 & s3 & E3 & E).
  apply bind_Ok in E as (r4 & s4 & E4 & E).
  destruct (closed_random _ _ _ W E1) as [W1 H1].
  destruct (closed_random _ _ _ W1 E2) as [W2 H2].
  destruct (closed_random _ _ _ W2 E3) as [W3 H3].
  destruct (closed_random _ _ _ W3 E4) as [W4 H4].
  eapply R_trans; [exact H1|]. eapply R_trans; [exact H2|].
  eapply R_trans; [exact H3|]. eapply R_trans; [exact H4|].
  by eapply R_createObject.
Qed.

Lemma closed_spawnAtPosition ty p s r s' :
  wf s → ObjectManager.spawnAtPosition ty p s = Ok r s' → R s s'.
Proof.
  intros W E. unfold ObjectManager.spawnAtPosition in E.
  apply bind_Ok in E as (r1 & s1 & E1 & E).
  destruct (closed_random _ _ _ W E1) as [W1 H1].
  eapply R_trans; [exact H1|]. by eapply R_createObject.
Qed.

Lemma closed_updateStats s s' : wf s → App.updateStats s = Ok tt s' → R s s'.
Proof.
  intros W E.
  unfold App.updateStats, PhysicsRenderer.getStats, ObjectManager.getCount in E.
  run_monad. simpl in E. injection E as <-. by apply R_aside.
Qed.

Lemma closed_animate s s' : wf s → App.animate s = Ok tt s' → R s s'.
Proof.
  intros W E. unfold App.animate in E.
  apply bind_Ok in E as ([] & s1 & E1 & E).
  apply bind_Ok in E as (t & s2 & E2 & E).
  apply bind_Ok in E as (l & s3 & E3 & E).
  apply bind_Ok in E as ([] & s4 & E4 & E).
  apply bind_Ok in E as ([] & s5 & E5 & E).
  apply bind_Ok in E as ([] & s6 & E6 & E).
  apply bind_Ok in E as ([] & s7 & E7 & E).
  assert (W4 : wf s4 ∧ R s s4).
  { run_monad. injection E1 as <-. injection E2 as <- <-. injection E3 as <- <-.
    injection E4 as <-. split; [by eapply aside_wf|by apply R_aside]. }
  destruct W4 as [W4 H4].
  destruct (engine_update_wf _ _ _ W4 E5) as [W5 _].
  destruct (sync_wf _ _ W5 E6) as [W6 _].
  destruct (render_wf _ _ W6 E7) as [W7 _].
  eapply R_trans; [exact H4|]. eapply R_trans; [by eapply R_engineUpdate|].
  eapply R_trans; [by eapply R_sync|]. eapply R_trans; [by eapply R_render|].
  by apply closed_updateStats.
Qed.

Lemma closed_togglePause s s' : wf s → App.togglePause s = Ok tt s' → R s s'.
Proof.
  intros W E. unfold App.togglePause in E.
  apply bind_Ok in E as ([] & s1 & E1 & E).
  apply bind_Ok in E as (p & s2 & E2 & E).
  run_monad. injection E1 as <-. injection E2 as <- <-.
  eapply R_trans; [|eapply R_setPaused; [|exact E]].
  - by apply R_aside.
  - by eapply aside_wf.
Qed.

Lemma closed_resetSimulation s s' :
  wf s → App.resetSimulation s = Ok tt s' → R s s'.
Proof.
  intros W E. unfold App.resetSimulation in E.
  apply bind_Ok in E as ([] & s1 & E1 & E).
  apply bind_Ok in E as ([] & s2 & E2 & E).
  apply bind_Ok in E as ([] & s3 & E3 & E).
  apply bind_Ok in E as (p & s4 & E4 & E).
  destruct (clearAll_wf _ _ W E1) as [W1 _].
  destruct (setGravity_wf _ _ _ _ _ W1 E2) as [W2 _].
  destruct (updateMaterialProperties_wf _ _ _ _ W2 E3) as [W3 _].
  unfold gets in E4. injection E4 as <- <-.
  assert (H3 : R s s3).
  { eapply R_trans; [by eapply R_clearAll|].
    eapply R_trans; [by eapply R_setGravity|]. by eapply R_updateMaterialProperties. }
  destruct (uiPaused (driver s3)).
  - apply bind_Ok in E as ([] & s5 & E5 & E).
    unfold modify in E5. injection E5 as <-.
    eapply R_trans; [exact H3|]. eapply R_trans; [|eapply R_setPaused; [|exact E]].
    + by apply R_aside.
    + by eapply aside_wf.
  - unfold ret in E. by injection E as <-.
Qed.

Lemma closed_perform c s xs s' :
  allowed c → wf s → perform c s = Ok xs s' → R s s'.
Proof.
  intros Hd W E.
  destruct c as [ty p sz|ty|ty p|obj| | |sh m p|b|dt| |x y z|r f|sc|pa| | | | ];
    simpl in E; apply bind_Ok in E as (res & s1 & E1 & E); unfold ret in E;
    injection E as <- <-;
    try match type of res with unit => destruct res end.
  - by eapply R_createObject.
  - by eapply closed_spawnRandom.
  - by eapply closed_spawnAtPosition.
  - by eapply R_removeObject.
  - by eapply R_sync.
  - by eapply R_clearAll.
  - by eapply R_createBody.
  - by eapply R_removeBody.
  - by eapply R_engineUpdate.
  - by eapply R_clearAllBodies.
  - by eapply R_setGravity.
  - by eapply R_updateMaterialProperties.
  - by eapply R_setTimeScale.
  - by eapply R_setPaused.
  - by eapply R_render.
  - by eapply closed_animate.
  - by eapply closed_togglePause.
  - by eapply closed_resetSimulation.
Qed.

Lemma closed_perform_all cs : ∀ s xs s',
  (∀ c, c ∈ cs → allowed c) →
  wf s → perform_all cs s = Ok xs s' → R s s'.
Proof.
  induction cs as [|c cs IH]; intros s xs s' Hd W E; simpl in E.
  - unfold ret in E. by injection E as _ <-.
  - apply bind_Ok in E as (ys & s1 & E1 & E).
    apply bind_Ok in E as (zs & s2 & E2 & E). unfold ret in E. injection E as _ <-.
    destruct (perform_grows _ _ _ _ W E1) as [W1 _].
    eapply R_trans.
    + eapply closed_perform; [|exact W|exact E1]. apply Hd. by left.
    + eapply IH; [|exact W1|exact E2]. intros c' Hc'. apply Hd. by right.
Qed.

End Closure.

(** ** What every call keeps *)

Lemma clearAll_kept s s' :
  wf s → ObjectManager.clearAll s = Ok tt s' → kept s s'.
Proof.
  apply (swept_clearAll kept kept_refl kept_trans).
  - intros obj s1 s2 W E. by apply (removeObject_kept obj).
  - intros s1 s2 W E. by apply clearAllBodies_effect.
Qed.

Lemma perform_all_kept cs s xs s' :
  wf s → perform_all cs s = Ok xs s' → kept s s'.
Proof.
  intros W E.
  apply (closed_perform_all kept (λ _, True)) with (cs := cs) (xs := xs).
  - apply kept_refl.
  - apply kept_trans.
  - intros. by apply stores_same_kept.
  - intros. by eapply createObject_kept.
  - intros obj s1 s2 W1 E1. by apply (removeObject_kept obj).
  - intros s1 s2 W1 E1. by apply quiet_kept, sync_effect.
  - apply clearAll_kept.
  - intros d m p s1 a s2 _ W1 E1. by eapply createBody_effect.
  - intros b s1 s2 _ W1 E1. by eapply removeBody_effect.
  - intros dt s1 s2 W1 E1. by eapply quiet_kept, engine_update_effect.
  - intros s1 s2 _ W1 E1. by apply clearAllBodies_effect.
  - intros x y z s1 s2 W1 E1. by eapply quiet_kept, setGravity_quiet.
  - intros r f s1 s2 W1 E1. by eapply quiet_kept, updateMaterialProperties_quiet.
  - intros sc s1 s2 W1 E1. by eapply quiet_kept, setTimeScale_quiet.
  - intros pa s1 s2 W1 E1. by eapply quiet_kept, setPaused_quiet.
  - intros s1 s2 W1 E1. by eapply quiet_kept, render_quiet.
  - done.
  - done.
  - done.
Qed.

(** ** The static bodies *)

Lemma clearAll_staticsStay s s' :
  wf s → ObjectManager.clearAll s = Ok tt s' → staticsStay s s'.
Proof.
  apply (swept_clearAll staticsStay staticsStay_refl staticsStay_trans).
  - intros obj s1 s2 W E. by apply (removeObject_staticsStay obj).
  - intros s1 s2 W E. by apply clearAllBodies_effect.
Qed.

Lemma perform_all_staticsStay cs s xs s' :
  (∀ c, c ∈ cs → isEngineRemoveBody c = false) →
  wf s → perform_all cs s = Ok xs s' → staticsStay s s'.
Proof.
  intros Hcs W E.
  apply (closed_perform_all staticsStay (λ c, isEngineRemoveBody c = false))
    with (cs := cs) (xs := xs).
  - apply staticsStay_refl.
  - apply staticsStay_trans.
  - intros s1 s2 Hst Hpe _ _ b Hb Hd. unfold inWorld, dynamic, bodyAt in *.
    by rewrite Hst, Hpe.
  - intros. by eapply createObject_staticsStay.
  - intros obj s1 s2 W1 E1. by apply (removeObject_staticsStay obj).
  - intros s1 s2 W1 E1. by apply quiet_staticsStay, sync_effect.
  - apply clearAll_staticsStay.
  - intros d m p s1 a s2 _ W1 E1. by eapply createBody_effect.
  - intros b s1 s2 Hb. done.
  - intros dt s1 s2 W1 E1. by eapply quiet_staticsStay, engine_update_effect.
  - intros s1 s2 _ W1 E1. by apply clearAllBodies_effect.
  - intros x y z s1 s2 W1 E1. by eapply quiet_staticsStay, setGravity_quiet.
  - intros r f s1 s2 W1 E1. by eapply quiet_staticsStay, updateMaterialProperties_quiet.
  - intros sc s1 s2 W1 E1. by eapply quiet_staticsStay, setTimeScale_quiet.
  - intros pa s1 s2 W1 E1. by eapply quiet_staticsStay, setPaused_quiet.
  - intros s1 s2 W1 E1. by eapply quiet_staticsStay, render_quiet.
  - done.
  - done.
  - done.
Qed.

Lemma groundInPlace_stays s s' :
  kept s s' → staticsStay s s' → groundInPlace s → groundInPlace s'.
Proof.
  intros K S (Hin & b & Hb & Hm & Hsh & Hma).
  destruct (S 0 Hin) as [Hin' _].
  { unfold dynamic. rewrite Hb, Hm. done. }
  split; [done|].
  destruct (kept_bodies s s' K 0 b Hb) as (b' & Hb' & Hm' & Hma' & _ & _ & Hsh').
  exists b'. split; [done|]. by rewrite Hm', Hma', Hsh'.
Qed.

(** ** The parameters *)

Lemma clamp_range scale :
  (0.1 <= Math_max 0.1 (Math_min 2 scale))%Q ∧ (Math_max 0.1 (Math_min 2 scale) <= 2)%Q.
Proof.
  unfold Math_max, Math_min.
  destruct (Qle_bool 2 scale) eqn:E2; destruct (Qle_bool 0.1 _) eqn:E1;
    try apply Qle_bool_iff in E1; try apply Qle_bool_iff in E2;
    try apply Qle_bool_false in E1; try apply Qle_bool_false in E2;
    split; lra.
Qed.

Lemma coherent_tuned s s' :
  tuned s s' → colors (objectManager s') = colors (objectManager s) →
  coherent s → coherent s'.
Proof.
  intros [Hp Hs] Hc C. unfold engineParams in Hp.
  injection Hp as H1 H2 H3 H4 H5 H6 H7.
  split; rewrite ?H1, ?H2, ?H3, ?H4, ?H5, ?H6, ?H7, ?Hs, ?Hc; apply C.
Qed.

Lemma updateFPS_counts (frames : Z) (fps : Z) (lastTime currentTime : Q) :
  (0 <= frames)%Z → (0 <= fps)%Z →
  let st :=
    if Qle_bool (lastTime + 1000)%Q currentTime then
      Stats.mk (Math_round (inject_Z (frames + 1) * 1000 / (currentTime - lastTime))%Q)
               currentTime 0
    else Stats.mk fps lastTime (frames + 1)%Z in
  (0 <= Stats.frames st)%Z ∧ (0 <= Stats.fps st)%Z.
Proof.
  intros Hf Hp. simpl. destruct (Qle_bool (lastTime + 1000) currentTime) eqn:E; simpl.
  - split; [done|]. apply Qle_bool_iff in E. unfold Math_round.
    assert (0 <= inject_Z (frames + 1) * 1000 / (currentTime - lastTime))%Q as H.
    { apply Qle_shift_div_l; [lra|]. 
      assert (0 <= inject_Z (frames + 1))%Q as Hn.
      { change 0%Q with (inject_Z 0). rewrite <- Zle_Qle. lia. }
      rewrite Qmult_0_l. apply Qmult_le_0_compat; [exact Hn|discriminate]. }
    revert H. generalize (inject_Z (frames + 1) * 1000 / (currentTime - lastTime))%Q.
    intros x Hx. rewrite <- (Qfloor_Z 0). apply Qfloor_resp_le.
    unfold inject_Z. assert (1 / 2 == 1 # 2)%Q as -> by reflexivity. lra.
  - split; [lia|done].
Qed.

Lemma render_coherent s s' :
  PhysicsRenderer.render s = Ok tt s' → coherent s → coherent s'.
Proof.
  intros E C. unfold PhysicsRenderer.render, PhysicsRenderer.updateFPS in E.
  run_monad. simpl in E. injection E as <-.
  destruct (updateFPS_counts (Stats.frames (stats (renderer s)))
              (Stats.fps (stats (renderer s))) (Stats.lastTime (stats (renderer s)))
              (clock (env s) (clockReads (env s)))) as [Hf Hp]; [apply C..|].
  split; simpl; try apply C; done.
Qed.

Lemma clearAll_coherent s s' :
  wf s → ObjectManager.clearAll s = Ok tt s' → coherent s → coherent s'.
Proof.
  apply (swept_clearAll (λ s s', coherent s → coherent s')).
  - tauto.
  - tauto.
  - intros obj s1 s2 W E. apply coherent_tuned; by apply (removeObject_kept obj).
  - intros s1 s2 W E. apply coherent_tuned; by apply clearAllBodies_effect.
Qed.

Lemma perform_all_coherent cs s xs s' :
  wf s → perform_all cs s = Ok xs s' → coherent s → coherent s'.
Proof.
  intros W E.
  apply (closed_perform_all (λ s s', coherent s → coherent s') (λ _, True))
    with (cs := cs) (xs := xs).
  - tauto.
  - tauto.
  - intros s1 s2 Hst Hpe Hre Hom C. split; rewrite ?Hpe, ?Hre, ?Hom; apply C.
  - intros ty p sz s1 r s2 W1 E1. apply coherent_tuned.
    + by eapply createObject_tuned.
    + by eapply createObject_kept.
  - intros obj s1 s2 W1 E1. apply coherent_tuned; by apply (removeObject_kept obj).
  - intros s1 s2 W1 E1. destruct (sync_effect _ _ W1 E1) as [Hq Ht].
    apply coherent_tuned; [done|]. by rewrite (q_manager _ _ Hq).
  - apply clearAll_coherent.
  - intros d m p s1 a s2 _ W1 E1.
    destruct (createBody_effect _ _ _ _ _ _ W1 E1) as (K & T & _).
    apply coherent_tuned; [done|apply K].
  - intros b s1 s2 _ W1 E1.
    destruct (removeBody_effect _ _ _ E1) as (K & T & _).
    apply coherent_tuned; [done|apply K].
  - intros dt s1 s2 W1 E1. destruct (engine_update_effect _ _ _ E1) as [Hq Ht].
    apply coherent_tuned; [done|]. by rewrite (q_manager _ _ Hq).
  - intros s1 s2 _ W1 E1. apply coherent_tuned; by apply clearAllBodies_effect.
  - intros x y z s1 s2 W1 E1 C. unfold PhysicsEngine.setGravity in E1.
    run_monad. simpl in E1. injection E1 as <-. split; simpl; try apply C; done.
  - intros r f s1 s2 W1 E1 C. unfold PhysicsEngine.updateMaterialProperties in E1.
    run_monad. simpl in E1. injection E1 as <-. split; simpl; try apply C; done.
  - intros sc s1 s2 W1 E1 C. unfold PhysicsEngine.setTimeScale in E1.
    run_monad. simpl in E1. injection E1 as <-. split; simpl; try apply C.
    apply clamp_range.
  - intros pa s1 s2 W1 E1. destruct (setPaused_quiet _ _ _ E1) as [Hq Ht].
    apply coherent_tuned; [done|]. by rewrite (q_manager _ _ Hq).
  - intros s1 s2 W1 E1. by apply render_coherent.
  - done.
  - done.
  - done.
Qed.

(** ** The scene and the world follow the registry *)

Lemma removeFirst_omap {A B} `{EqDecision A} `{EqDecision B}
    (f : A → option B) x y (l : list A) :
  f x = Some y → (∀ z, z ∈ l → f z = Some y → z = x) →
  omap f (removeFirst x l) = removeFirst y (omap f l).
Proof.
  intros Hx. induction l as [|z l IH]; intros Hinj; [done|].
  rewrite removeFirst_cons. destruct (decide (z = x)) as [->|Hne].
  - simpl. rewrite Hx. rewrite removeFirst_cons. by rewrite decide_True.
  - simpl. destruct (f z) as [y'|] eqn:Hz.
    + rewrite removeFirst_cons. rewrite decide_False.
      * f_equal. apply IH. intros z' Hz'. apply Hinj. by right.
      * intros ->. apply Hne. apply Hinj; [by left|done].
    + apply IH. intros z' Hz'. apply Hinj. by right.
Qed.

Lemma removeFirst_fmap {A B} `{EqDecision A} `{EqDecision B}
    (g : A → B) x (l : list A) :
  (∀ a b, g a = g b → a = b) →
  g <$> removeFirst x l = removeFirst (g x) (g <$> l).
Proof.
  intros Hinj. induction l as [|z l IH]; [done|].
  rewrite fmap_cons, !removeFirst_cons.
  destruct (decide (z = x)) as [->|Hne].
  - by rewrite decide_True.
  - rewrite decide_False by (intros Hg; by apply Hinj in Hg).
    by rewrite fmap_cons, IH.
Qed.

Lemma removeFirst_app_r {A} `{EqDecision A} (x : A) l1 l2 :
  x ∉ l1 → removeFirst x (l1 ++ l2) = l1 ++ removeFirst x l2.
Proof.
  induction l1 as [|z l1 IH]; intros Hn; [done|].
  simpl. rewrite removeFirst_cons. apply not_elem_of_cons in Hn as [Hne Hn].
  rewrite decide_False by done. by rewrite IH.
Qed.

Lemma omap_agree {A B} (f g : A → option B) (l : list A) :
  (∀ x, x ∈ l → f x = g x) → omap f l = omap g l.
Proof.
  induction l as [|x l IH]; intros H; [done|].
  csimpl. rewrite (H x) by (by left). rewrite IH; [done|].
  intros y Hy. apply H. by right.
Qed.

Lemma trackedMeshes_same s s' :
  objs (store s') = objs (store s) → tracked s' = tracked s →
  trackedMeshes s' = trackedMeshes s.
Proof. intros Ho Ht. unfold trackedMeshes, objAt. by rewrite Ho, Ht. Qed.

Lemma trackedBodies_same s s' :
  objs (store s') = objs (store s) → tracked s' = tracked s →
  trackedBodies s' = trackedBodies s.
Proof. intros Ho Ht. unfold trackedBodies, objAt. by rewrite Ho, Ht. Qed.

Lemma sceneMatches_registryKept s s' :
  registryKept s s' → sceneMatches s → sceneMatches s'.
Proof.
  intros [Ho Hm Hs Hme] [Hsc Hl].
  assert (Ht : tracked s' = tracked s) by (unfold tracked; by rewrite Hm).
  split.
  - rewrite Hs, Hsc. by rewrite (trackedMeshes_same s s').
  - intros a o Ha Hoa. rewrite Ht in Ha. unfold objAt in Hoa. rewrite Ho in Hoa.
    destruct (Hl a o Ha Hoa) as (m & Hma & Hg & Hd).
    destruct (Hme _ _ Hma) as (m' & Hm' & _ & _ & _ & _ & Hg' & Hd').
    exists m'. split; [done|]. by rewrite Hg', Hd'.
Qed.

Lemma MeshRef_inj a b : THREE.MeshRef a = THREE.MeshRef b → a = b.
Proof. intros H. by injection H. Qed.

Lemma meshRef_not_fixture a : THREE.MeshRef a ∉ fixtures.
Proof. unfold fixtures. rewrite !not_elem_of_cons. repeat split; try done. apply not_elem_of_nil. Qed.

Lemma createObject_sceneMatches ty p sz s r s' :
  wf s → ObjectManager.createObject ty p sz s = Ok r s' →
  sceneMatches s → sceneMatches s'.
Proof.
  intros W E [Hsc Hl]. rewrite createObject_cases in E.
  destruct (caseOf ty (orDefault 2 sz)) as [[g d]|]; [|by injection E as _ <-].
  rewrite spawnWith_exact in E.
    destruct (PhysicsEngine.cannonShapeOf d) as [ex|sh]; [done|]. injection E as _ <-.
  assert (Hold : ∀ a, a ∈ tracked s →
    (objs (store s) ++ [Obj.mk (objectId (objectManager s)) ty
       (length (meshes (store s))) (length (bodies (store s)))]) !! a
    = objs (store s) !! a).
  { intros a Ha. apply lookup_app_l. by apply W. }
  split.
  - unfold inScene, trackedMeshes, tracked, objAt.
    cbn [renderer setScene scene objectManager objects store objs].
    fold (inScene s) (tracked s).
    rewrite add_fresh.
    2:{ intros Hin. apply (wf_scene s W) in Hin. lia. }
    rewrite Hsc, omap_app, fmap_app, app_assoc. f_equal.
    + f_equal. f_equal. unfold trackedMeshes, objAt. apply omap_agree.
      intros a Ha. by rewrite Hold.
    + simpl. rewrite lookup_app_r by done. by rewrite Nat.sub_diag.
  - intros a o. unfold tracked, objAt, meshAt.
    cbn [objectManager objects store objs meshes]. fold (tracked s).
    intros [Ha| ->%list_elem_of_singleton]%elem_of_app Ho.
    + rewrite Hold in Ho by done.
      destruct (Hl a o Ha Ho) as (m & Hm & Hg & Hd).
      exists m. split; [|done]. by apply lookup_app_l_Some.
    + rewrite lookup_app_r in Ho by done. rewrite Nat.sub_diag in Ho.
      injection Ho as <-. simpl. eexists. split.
      * rewrite lookup_app_r by done. by rewrite Nat.sub_diag.
      * done.
Qed.

Lemma removeObject_sceneMatches obj s s' :
  wf s → ObjectManager.removeObject obj s = Ok tt s' →
  sceneMatches s → sceneMatches s'.
Proof.
  intros W E [Hsc Hl].
  destruct (objAt s obj) as [o|] eqn:Ho; [|by rewrite removeObject_throws in E].
  destruct (removeObject_wf_run obj o s W Ho)
    as (m & s2 & Hm & E2 & Hst & Hom & Hre & Hpe & _).
  rewrite E2 in E. injection E as <-.
  assert (Hobjs : objs (store s2) = objs (store s)) by (by rewrite Hst).
  assert (Htr : tracked s2 = removeFirst obj (tracked s)) by (unfold tracked; by rewrite Hom).
  split.
  - unfold inScene. rewrite Hre. simpl. unfold THREE.remove. rewrite Hsc.
    rewrite removeFirst_app_r by apply meshRef_not_fixture.
    rewrite <- removeFirst_fmap by apply MeshRef_inj.
    replace (trackedMeshes s2) with (removeFirst (Obj.mesh o) (trackedMeshes s)); [done|].
    unfold trackedMeshes, objAt. rewrite Hobjs, Htr. symmetry.
    apply removeFirst_omap.
    + fold (objAt s obj). by rewrite Ho.
    + intros z Hz Hfz. fold (objAt s z) in Hfz.
      destruct (objAt s z) as [oz|] eqn:Hoz; [|done].
      injection Hfz as Hfz. by apply (wf_mesh_inj s W z obj oz o).
  - intros a oa Ha Hoa. rewrite Htr in Ha. unfold objAt in Hoa. rewrite Hobjs in Hoa.
    assert (Hne : a ≠ obj).
    { intros ->. revert Ha. apply removeFirst_gone, W. }
    apply elem_of_removeFirst_ne in Ha; [|done].
    destruct (Hl a oa Ha Hoa) as (ma & Hma & Hg & Hd).
    exists ma. split; [|done]. unfold meshAt. rewrite Hst. simpl.
    rewrite list_lookup_insert_ne; [done|].
    intros Heq. apply Hne. symmetry. by apply (wf_mesh_inj s W obj a o oa).
Qed.

Lemma clearAll_sceneMatches s s' :
  wf s → ObjectManager.clearAll s = Ok tt s' → sceneMatches s → sceneMatches s'.
Proof.
  apply (swept_clearAll (λ s s', sceneMatches s → sceneMatches s')).
  - tauto.
  - tauto.
  - intros obj s1 s2 W E. by apply (removeObject_sceneMatches obj).
  - intros s1 s2 W E. apply sceneMatches_registryKept. by apply clearAllBodies_effect.
Qed.

Lemma perform_all_sceneMatches cs s xs s' :
  wf s → perform_all cs s = Ok xs s' → sceneMatches s → sceneMatches s'.
Proof.
  intros W E.
  apply (closed_perform_all (λ s s', sceneMatches s → sceneMatches s') (λ _, True))
    with (cs := cs) (xs := xs).
  - tauto.
  - tauto.
  - intros s1 s2 Hst Hpe Hre Hom. apply sceneMatches_registryKept.
    by apply stores_same_registryKept; unfold inScene; rewrite ?Hre.
  - intros ty p sz s1 r s2 W1 E1. by eapply createObject_sceneMatches.
  - intros obj s1 s2 W1 E1. by apply (removeObject_sceneMatches obj).
  - intros s1 s2 W1 E1. by apply sceneMatches_registryKept, quiet_registryKept, sync_effect.
  - apply clearAll_sceneMatches.
  - intros d m p s1 a s2 _ W1 E1. apply sceneMatches_registryKept.
    by eapply createBody_effect.
  - intros b s1 s2 _ W1 E1. apply sceneMatches_registryKept. by eapply removeBody_effect.
  - intros dt s1 s2 W1 E1.
    by eapply sceneMatches_registryKept, quiet_registryKept, engine_update_effect.
  - intros s1 s2 _ W1 E1. apply sceneMatches_registryKept. by apply clearAllBodies_effect.
  - intros x y z s1 s2 W1 E1.
    by eapply sceneMatches_registryKept, quiet_registryKept, setGravity_quiet.
  - intros r f s1 s2 W1 E1.
    by eapply sceneMatches_registryKept, quiet_registryKept, updateMaterialProperties_quiet.
  - intros sc s1 s2 W1 E1.
    by eapply sceneMatches_registryKept, quiet_registryKept, setTimeScale_quiet.
  - intros pa s1 s2 W1 E1.
    by eapply sceneMatches_registryKept, quiet_registryKept, setPaused_quiet.
  - intros s1 s2 W1 E1.
    by eapply sceneMatches_registryKept, quiet_registryKept, render_quiet.
  - done.
  - done.
  - done.
Qed.

Lemma worldMatches_ground s : wf s → worldMatches s → 0 < length (bodies (store s)).
Proof. intros W [_ Hw]. apply (wf_world s W). rewrite Hw. by left. Qed.

Lemma trackedBodies_dynamic s b :
  wf s → b ∈ trackedBodies s → dynamic s b = true.
Proof.
  intros W Hb. apply list_elem_of_omap in Hb as (a & Ha & Hb).
  destruct (objAt s a) as [o|] eqn:Ho; [|done]. injection Hb as <-.
  by apply (wf_mass s W a).
Qed.

Lemma worldMatches_quiet s s' :
  wf s → quiet s s' → worldMatches s → worldMatches s'.
Proof.
  intros W Q Hw. pose proof (worldMatches_ground s W Hw) as H0.
  destruct Hw as [Hd Hw]. split.
  - rewrite (dynamic_kept s s'); [done|apply Q|done].
  - rewrite (q_world _ _ Q), Hw. f_equal. symmetry. apply trackedBodies_same; [apply Q|].
    unfold tracked. by rewrite (q_manager _ _ Q).
Qed.

Lemma createObject_worldMatches ty p sz s r s' :
  wf s → ObjectManager.createObject ty p sz s = Ok r s' →
  worldMatches s → worldMatches s'.
Proof.
  intros W E Hw. pose proof (worldMatches_ground s W Hw) as H0.
  destruct Hw as [Hd Hw]. rewrite createObject_cases in E.
  destruct (caseOf ty (orDefault 2 sz)) as [[g d]|]; [|by injection E as _ <-].
  rewrite spawnWith_exact in E.
    destruct (PhysicsEngine.cannonShapeOf d) as [ex|sh]; [done|]. injection E as _ <-.
  split.
  - unfold dynamic, bodyAt in *. cbn [store bodies].
    by rewrite lookup_app_l.
  - unfold inWorld, trackedBodies, tracked, objAt.
    cbn [physicsEngine world setWorld objectManager objects store objs].
    fold (tracked s). rewrite addBody_fresh.
    2:{ intros Hin. apply (wf_world s W) in Hin. lia. }
    fold (inWorld s). rewrite Hw, omap_app. simpl. f_equal. f_equal.
    + unfold trackedBodies, objAt. apply omap_agree.
      intros a Ha. rewrite lookup_app_l; [done|]. by apply W.
    + rewrite lookup_app_r by done. by rewrite Nat.sub_diag.
Qed.

Lemma removeObject_worldMatches obj s s' :
  wf s → ObjectManager.removeObject obj s = Ok tt s' →
  worldMatches s → worldMatches s'.
Proof.
  intros W E [Hd Hw].
  destruct (objAt s obj) as [o|] eqn:Ho; [|by rewrite removeObject_throws in E].
  destruct (removeObject_wf_run obj o s W Ho)
    as (m & s2 & Hm & E2 & Hst & Hom & Hre & Hpe & _).
  rewrite E2 in E. injection E as <-.
  assert (Hobjs : objs (store s2) = objs (store s)) by (by rewrite Hst).
  assert (Htr : tracked s2 = removeFirst obj (tracked s)) by (unfold tracked; by rewrite Hom).
  split.
  - rewrite (dynamic_same_bodies s s2); [done|by rewrite Hst].
  - unfold inWorld. rewrite Hpe. simpl. fold (inWorld s). rewrite Hw.
    rewrite removeFirst_cons. rewrite decide_False.
    2:{ intros H0. pose proof (wf_mass s W obj o Ho) as Hdy. rewrite <- H0 in Hdy.
        congruence. }
    f_equal. unfold trackedBodies, objAt. rewrite Hobjs, Htr. symmetry.
    apply removeFirst_omap.
    + fold (objAt s obj). by rewrite Ho.
    + intros z Hz Hfz. fold (objAt s z) in Hfz.
      destruct (objAt s z) as [oz|] eqn:Hoz; [|done].
      injection Hfz as Hfz. by apply (wf_body_inj s W z obj oz o).
Qed.

Lemma clearAll_worldMatches s s' :
  wf s → ObjectManager.clearAll s = Ok tt s' → worldMatches s → worldMatches s'.
Proof.
  intros W E [Hd Hw].
  destruct (clearAll_run s W) as (s2 & E2 & W2 & Ht & Hin & Hob & Hbo & _).
  rewrite E2 in E. injection E as <-. split.
  - by rewrite (dynamic_same_bodies s s2).
  - rewrite Hin, Hw. rewrite filter_cons_True by done.
    unfold trackedBodies at 2. rewrite Ht. simpl. f_equal.
    apply filter_none. intros b Hb. rewrite (trackedBodies_dynamic s b W Hb). done.
Qed.

Lemma perform_all_worldMatches cs s xs s' :
  (∀ c, c ∈ cs → isEngineCall c = false) →
  wf s → perform_all cs s = Ok xs s' → worldMatches s → worldMatches s'.
Proof.
  intros Hcs W E.
  apply (closed_perform_all (λ s s', worldMatches s → worldMatches s')
           (λ c, isEngineCall c = false)) with (cs := cs) (xs := xs).
  - tauto.
  - tauto.
  - intros s1 s2 Hst Hpe Hre Hom [Hd Hw]. split.
    + by rewrite (dynamic_same_bodies s1 s2) by (by rewrite Hst).
    + unfold inWorld. rewrite Hpe. fold (inWorld s1). rewrite Hw. f_equal. symmetry.
      apply trackedBodies_same; [by rewrite Hst|unfold tracked; by rewrite Hom].
  - intros ty p sz s1 r s2 W1 E1. by eapply createObject_worldMatches.
  - intros obj s1 s2 W1 E1. by apply (removeObject_worldMatches obj).
  - intros s1 s2 W1 E1. by apply worldMatches_quiet, sync_effect.
  - apply clearAll_worldMatches.
  - done.
  - done.
  - intros dt s1 s2 W1 E1. by eapply worldMatches_quiet, engine_update_effect.
  - done.
  - intros x y z s1 s2 W1 E1. by eapply worldMatches_quiet, setGravity_quiet.
  - intros r f s1 s2 W1 E1. by eapply worldMatches_quiet, updateMaterialProperties_quiet.
  - intros sc s1 s2 W1 E1. by eapply worldMatches_quiet, setTimeScale_quiet.
  - intros pa s1 s2 W1 E1. by eapply worldMatches_quiet, setPaused_quiet.
  - intros s1 s2 W1 E1. by eapply worldMatches_quiet, render_quiet.
  - done.
  - done.
  - done.
Qed.

(** ** Histories, from the constructors on *)

(** Every history starts in the state the three constructors leave and
    goes on with the first frame, which [init()] runs. *)
Lemma run_from_constructors e cs issued s :
  run e cs = Ok issued s →
  ∃ s0, wf s0 ∧ coherent s0 ∧ sceneMatches s0 ∧ worldMatches s0 ∧ groundInPlace s0
        ∧ perform_all (Animate :: cs) s0 = Ok issued s
        ∧ tracked s0 = [] ∧ objs (store s0) = [].
Proof.
  unfold run, App.init. intros E.
  apply bind_Ok in E as ([] & s1 & E1 & E).
  apply bind_Ok in E as ([] & s5 & E0 & E).
  apply bind_Ok in E0 as ([] & s2 & E2 & E0).
  apply bind_Ok in E0 as ([] & s3 & E3 & E0).
  apply bind_Ok in E0 as ([] & s4 & E4 & E5).
  vm_compute in E1. injection E1 as <-.
  vm_compute in E2. injection E2 as <-.
  vm_compute in E3. injection E3 as <-.
  vm_compute in E4. injection E4 as <-.
  eexists. split; [|split; [|split; [|split; [|split; [|split]]]]]; cycle 5.
  - simpl. unfold bind at 1. unfold bind at 1. rewrite E5. unfold ret at 1.
    unfold bind. rewrite E. reflexivity.
  - done.
  - split; simpl; try done.
    + intros a Ha. by apply elem_of_nil in Ha.
    + constructor.
    + eval_lists. repeat (constructor; [rewrite ?elem_of_cons, ?elem_of_nil; naive_solver|]).
      constructor.
    + intros a. eval_lists. rewrite !elem_of_cons, elem_of_nil. naive_solver.
    + eval_lists. repeat constructor. apply not_elem_of_nil.
    + intros b. eval_lists. intros ->%list_elem_of_singleton. simpl. lia.
  - split; try done.
  - split; [done|]. intros a o Ha. by apply elem_of_nil in Ha.
  - split; done.
  - split; [by left|]. eexists. split; [reflexivity|]. done.
Qed.

Lemma forallb_elem {A} (f : A → bool) (l : list A) :
  forallb f l = true → ∀ x, x ∈ l → f x = true.
Proof.
  intros H x Hx. rewrite forallb_forall in H. apply H. by apply list_elem_of_In.
Qed.

Lemma negb_false b : negb b = true → b = false.
Proof. by destruct b. Qed.

Lemma run_coherent e cs issued s : run e cs = Ok issued s → coherent s.
Proof.
  intros Hrun.
  destruct (run_from_constructors _ _ _ _ Hrun) as (s0 & W0 & C0 & _ & _ & _ & E & _).
  by apply (perform_all_coherent _ _ _ _ W0 E).
Qed.

(** X12: in every reachable state the engine's time step is 1/60, its
    substep limit 3 and the default mass 5; the time scale lies between
    0.1 and 2; the gravity of the world and the friction and restitution
    of the contact material equal the values kept in [settings]; and the
    world allows sleeping.  Arguments of the setters are numbers. *)
Theorem parameters_stay_coherent e cs issued s :
  run e cs = Ok issued s →
  timeStep (physicsEngine s) = (1 / 60)%Q
  ∧ maxSubSteps (physicsEngine s) = 3%Z
  ∧ defaultMass (settings (physicsEngine s)) = 5%Q
  ∧ (0.1 <= timeScale (physicsEngine s))%Q ∧ (timeScale (physicsEngine s) <= 2)%Q
  ∧ CANNON.gravity (world (physicsEngine s)) = gravity (settings (physicsEngine s))
  ∧ CANNON.friction (contactMaterial (physicsEngine s))
    = friction (settings (physicsEngine s))
  ∧ CANNON.restitution (contactMaterial (physicsEngine s))
    = restitution (settings (physicsEngine s))
  ∧ CANNON.allowSleep (world (physicsEngine s)) = true.
Proof.
  intros Hrun. destruct (run_coherent _ _ _ _ Hrun)
    as [H1 H2 H3 [H4 H4'] H5 H6 H7 H8 _ _ _].
  by repeat split.
Qed.

(** X13: in every reachable state the frame counter and the frame rate
    of the renderer are not negative, and [render()] returns and keeps
    them so: either it restarts the counter at 0, having measured at least
    a second, or it counts one more frame and leaves the rate as it was. *)
Theorem frame_rate_is_never_negative e cs issued s :
  run e cs = Ok issued s →
  (0 <= Stats.frames (stats (renderer s)))%Z
  ∧ (0 <= Stats.fps (stats (renderer s)))%Z
  ∧ ∃ s', PhysicsRenderer.render s = Ok tt s'
          ∧ (0 <= Stats.frames (stats (renderer s')))%Z
          ∧ (0 <= Stats.fps (stats (renderer s')))%Z
          ∧ (Stats.frames (stats (renderer s')) = 0%Z
             ∨ Stats.frames (stats (renderer s')) = (Stats.frames (stats (renderer s)) + 1)%Z
               ∧ Stats.fps (stats (renderer s')) = Stats.fps (stats (renderer s))).
Proof.
  intros Hrun. pose proof (run_coherent _ _ _ _ Hrun) as C.
  split; [apply C|]. split; [apply C|].
  assert (E : ∃ s', PhysicsRenderer.render s = Ok tt s') by (by eexists).
  destruct E as [s' E]. exists s'. split; [exact E|].
  pose proof (render_coherent _ _ E C) as C'.
  split; [apply C'|]. split; [apply C'|].
  unfold PhysicsRenderer.render, PhysicsRenderer.updateFPS in E.
  run_monad. simpl in E. injection E as <-. simpl.
  destruct (Qle_bool _ _); simpl; [by left|by right].
Qed.

(** X14: on every reachable state, the mesh of a newly spawned object
    of a supported kind, with a size that is omitted or a number not below
    0, has a standard material of the colour the table gives for the kind,
    metalness 0.3 and roughness 0.6, casts and receives shadows, and is
    not disposed. *)
Theorem spawned_mesh_has_the_colour_of_its_kind e cs issued s ty p sz :
  run e cs = Ok issued s →
  ty ∈ kinds →
  validSize sz →
  ∃ obj o m c s',
    ObjectManager.createObject ty p sz s = Ok (Some obj) s'
    ∧ objAt s' obj = Some o
    ∧ meshAt s' (Obj.mesh o) = Some m
    ∧ palette !! ty = Some c
    ∧ THREE.material m = THREE.mkMaterial c 0.3 0.6
    ∧ THREE.castShadow m = true ∧ THREE.receiveShadow m = true
    ∧ THREE.geometryDisposed m = false ∧ THREE.materialDisposed m = false.
Proof.
  intros Hrun Hk Hsz. pose proof (run_coherent _ _ _ _ Hrun) as C.
  destruct (caseOf_valid ty sz Hk Hsz) as (g & d & sh & Hc & Hsh).
  assert (Hcol : ∃ c, palette !! ty = Some c
                      ∧ ObjectManager.colorOf (objectManager s) ty = c).
  { unfold ObjectManager.colorOf. rewrite (co_colors s C).
    apply kinds_cases in Hk. destruct Hk as [->|[->|[->|[->| ->]]]];
      eexists; (split; [vm_compute; reflexivity|vm_compute; reflexivity]). }
  destruct Hcol as (c & Hp & Hcol).
  eexists _, _, _, c, _. split; [by apply (createObject_exact ty p sz s g d sh)|].
  unfold objAt, meshAt. cbn [store objs meshes].
  rewrite last_lookup. split; [reflexivity|]. cbn [Obj.mesh].
  rewrite last_lookup. split; [reflexivity|]. split; [exact Hp|].
  unfold meshMade. cbn [THREE.material THREE.castShadow THREE.receiveShadow
    THREE.geometryDisposed THREE.materialDisposed].
  rewrite Hcol. by repeat split.
Qed.

(** X15: in every reachable state the children of the scene are the
    six fixtures the renderer adds in [init()], in that order, followed by
    the meshes of the tracked objects in the order of the registry, and
    the geometry and material of a tracked object's mesh are not
    disposed. *)
Theorem scene_follows_the_registry e cs issued s :
  run e cs = Ok issued s → sceneMatches s.
Proof.
  intros Hrun.
  destruct (run_from_constructors _ _ _ _ Hrun) as (s0 & W0 & _ & S0 & _ & _ & E & _).
  by apply (perform_all_sceneMatches _ _ _ _ W0 E).
Qed.

Lemma filter_all {A} (P : A → Prop) `{∀ x, Decision (P x)} (l : list A) :
  (∀ x, x ∈ l → P x) → filter P l = l.
Proof.
  induction l as [|x l IH]; intros Hl; [done|].
  rewrite filter_cons_True by (apply Hl; by left).
  rewrite IH; [done|]. intros y Hy. apply Hl. by right.
Qed.

Lemma length_omap_total {A B} (f : A → option B) (l : list A) :
  (∀ x, x ∈ l → is_Some (f x)) → length (omap f l) = length l.
Proof.
  induction l as [|x l IH]; intros Hl; [done|].
  csimpl. destruct (Hl x) as [y Hy]; [by left|]. rewrite Hy. simpl.
  f_equal. apply IH. intros z Hz. apply Hl. by right.
Qed.

Lemma worldMatches_count s :
  wf s → worldMatches s → dynamicCount s = length (tracked s).
Proof.
  intros W [Hd Hw]. unfold dynamicCount. rewrite Hw.
  rewrite filter_cons_False by congruence.
  rewrite filter_all by (intros b; by apply trackedBodies_dynamic).
  unfold trackedBodies. apply length_omap_total.
  intros a Ha. destruct (lookup_lt_is_Some_2 (objs (store s)) a) as [o Ho]; [by apply W|].
  unfold objAt. rewrite Ho. by eexists.
Qed.

(** X16: in every state reached without a direct call of the engine's
    [createBody], [removeBody] or [clearAllBodies] (app.js makes none), the
    bodies of the world are the static ground followed by the bodies of
    the tracked objects in the order of the registry, and the body count
    of [PhysicsEngine.getStats()] equals [getCount()]. *)
Theorem world_follows_the_registry e cs issued s :
  run e cs = Ok issued s →
  forallb (λ c, negb (isEngineCall c)) cs = true →
  worldMatches s
  ∧ PhysicsEngine.getStats s
    = Ok (length (tracked s), negb (isPaused (physicsEngine s))) s.
Proof.
  intros Hrun Hcs.
  destruct (run_from_constructors _ _ _ _ Hrun) as (s0 & W0 & _ & _ & M0 & _ & E & _).
  destruct (perform_all_grows _ _ _ _ W0 E) as [W _].
  assert (M : worldMatches s).
  { apply (perform_all_worldMatches (Animate :: cs) s0 issued s); try done.
    intros c [->|Hc]%elem_of_cons; [done|].
    apply negb_false. by apply (forallb_elem _ _ Hcs). }
  split; [exact M|]. rewrite getStats_run by done.
  f_equal. f_equal. by apply worldMatches_count.
Qed.

(** X17: in every state reached without a direct call of the engine's
    [removeBody], the first body ever made is in the world and is the
    ground: static, with the ground material and a plane as its one
    shape.  [clearAll()], [clearAllBodies()] and [resetSimulation()] leave
    it in place. *)
Theorem ground_stays_in_the_world e cs issued s :
  run e cs = Ok issued s →
  forallb (λ c, negb (isEngineRemoveBody c)) cs = true →
  groundInPlace s.
Proof.
  intros Hrun Hcs.
  destruct (run_from_constructors _ _ _ _ Hrun) as (s0 & W0 & _ & _ & _ & G0 & E & _).
  apply (groundInPlace_stays s0 s); [|  |exact G0].
  - by apply (perform_all_kept _ _ _ _ W0 E).
  - apply (perform_all_staticsStay (Animate :: cs) s0 issued s); try done.
    intros c [->|Hc]%elem_of_cons; [done|].
    apply negb_false. by apply (forallb_elem _ _ Hcs).
Qed.

(** X18: whatever calls follow a reachable state, every object record
    of that state is still there unchanged, every body keeps its mass,
    material, damping and shapes, every mesh keeps its geometry, material
    and shadow flags and stays disposed once it is, the id counter does
    not decrease and the colour table stays the same.  The step of the
    physics library is taken to move bodies only. *)
Theorem nothing_made_is_altered e cs issued s more xs s' :
  run e cs = Ok issued s →
  perform_all more s = Ok xs s' →
  kept s s'.
Proof.
  intros Hrun E. destruct (run_inv _ _ _ _ Hrun) as [W _].
  by apply (perform_all_kept _ _ _ _ W E).
Qed.

(** X19: in every reachable state, an object that was issued and is
    no longer tracked has its mesh out of the scene, its geometry and
    material disposed and its body out of the world: mesh and body are
    released together. *)
Theorem untracked_objects_are_released e cs issued s obj :
  run e cs = Ok issued s →
  obj ∈ issued → obj ∉ tracked s →
  ∃ o, objAt s obj = Some o ∧ released s o.
Proof.
  intros Hrun Hi Hn. destruct (run_inv _ _ _ _ Hrun) as [W ->].
  apply elem_of_seq in Hi as [_ Hi]. simpl in Hi.
  destruct (lookup_lt_is_Some_2 _ _ Hi) as [o Ho].
  exists o. split; [exact Ho|]. by apply (wf_untracked s W obj).
Qed.

(** ** Frames, the reset and the first objects *)

Lemma engine_update_exact dt s :
  PhysicsEngine.update dt s =
  Ok tt (if isPaused (physicsEngine s) then s
         else withStore (setBodies
                (imap (λ a b, if bool_decide (a ∈ inWorld s)
                              then CANNON.setMotion
                                     (integrate (env s) (world (physicsEngine s))
                                        (bodies (store s)) (timeStep (physicsEngine s))
                                        (dt * timeScale (physicsEngine s))%Q
                                        (maxSubSteps (physicsEngine s)) a b) b
                              else b) (bodies (store s)))) s).
Proof.
  unfold PhysicsEngine.update, PhysicsEngine.world_step. run_monad.
  by destruct (isPaused (physicsEngine s)).
Qed.

Lemma engine_update_aside dt s t :
  store t = store s → physicsEngine t = physicsEngine s →
  integrate (env t) = integrate (env s) →
  ∃ s1 t1,
    PhysicsEngine.update dt s = Ok tt s1
    ∧ PhysicsEngine.update dt t = Ok tt t1
    ∧ bodies (store t1) = bodies (store s1)
    ∧ physicsEngine t1 = physicsEngine s
    ∧ renderer t1 = renderer t ∧ objectManager t1 = objectManager t
    ∧ driver t1 = driver t ∧ env t1 = env t.
Proof.
  intros Hst Hpe Hin. eexists _, _.
  split; [apply engine_update_exact|]. split; [apply engine_update_exact|].
  unfold inWorld. rewrite Hst, Hpe, Hin.
  destruct (isPaused (physicsEngine s)); simpl; rewrite ?Hst; done.
Qed.

Lemma animate_run s :
  wf s →
  ∃ s1,
    PhysicsEngine.update
      ((clock (env s) (clockReads (env s)) - lastTime (driver s)) / 1000)%Q s = Ok tt s1
    ∧ ∃ s',
    App.animate s = Ok tt s'
    ∧ bodies (store s') = bodies (store s1)
    ∧ physicsEngine s' = physicsEngine s
    ∧ tracked s' = tracked s
    ∧ (∀ obj, obj ∈ tracked s' → synced s' s' obj)
    ∧ drawn (renderer s') = drawn (renderer s) ++ [PhysicsRenderer.picture s']
    ∧ objectCountText (driver s') = length (tracked s')
    ∧ fpsText (driver s') = Stats.fps (stats (renderer s'))
    ∧ lastTime (driver s') = clock (env s) (clockReads (env s))
    ∧ animationId (driver s') = S (animationId (driver s)).
Proof.
  intros W. unfold App.animate.
  erewrite bind_run by reflexivity.
  erewrite bind_run by reflexivity.
  erewrite bind_run by reflexivity.
  erewrite bind_run by reflexivity.
  match goal with |- context [bind (PhysicsEngine.update ?d) _ ?x] =>
    set (s4 := x); change d with
      ((clock (env s) (clockReads (env s)) - lastTime (driver s)) / 1000)%Q;
    destruct (engine_update_aside
                ((clock (env s) (clockReads (env s)) - lastTime (driver s)) / 1000)%Q s s4)
      as (s1 & s5 & E1 & E5 & Hb5 & Hpe5 & Hre5 & Hom5 & Hdr5 & Hen5);
      [reflexivity..|]
  end.
  assert (W4 : wf s4) by (eapply sameObjects_wf; [exact W|by repeat split]).
  destruct (engine_update_wf _ _ _ W4 E5) as [W5 _].
  exists s1. split; [exact E1|].
  erewrite bind_run by exact E5.
  destruct (sync_run s5 W5) as (s6 & E6 & Hmv & Hsync & _).
  destruct Hmv as (Hpe & Hre & Hom & Hdr & Hen & Hbo & Hob & Hlen & Hme).
  erewrite bind_run by exact E6.
  unfold PhysicsRenderer.render, PhysicsRenderer.updateFPS, App.updateStats,
    PhysicsRenderer.getStats, ObjectManager.getCount.
  run_monad. simpl. eexists. split; [reflexivity|]. simpl.
  assert (Ht : tracked s6 = tracked s) by (unfold tracked; by rewrite Hom, Hom5).
  split; [|split; [|split; [|split; [|split; [|split; [|split; [|split]]]]]]].
  - by rewrite Hbo.
  - by rewrite Hpe.
  - exact Ht.
  - intros obj Hobj. unfold tracked in Hobj. simpl in Hobj. fold (tracked s6) in Hobj.
    destruct (Hsync obj) as (o & m & b & Ho & Hb & Hm & Hpq).
    { unfold tracked in *. by rewrite <- Hom. }
    exists o, m, b. unfold objAt, bodyAt, meshAt in *. simpl.
    rewrite Hob, Hbo. done.
  - rewrite Hre, Hre5. simpl. do 2 f_equal.
  - done.
  - done.
  - by rewrite Hdr, Hdr5.
  - by rewrite Hdr, Hdr5.
Qed.

(** X20: on every reachable state a frame of [animate()] returns.  The
    bodies after it are those after [PhysicsEngine.update] for the time
    since the last frame, in seconds; every tracked mesh has the position
    and orientation its body has after that step; one frame is drawn and
    shows the scene so synced; the object count shown is [getCount()] and
    the frame rate shown is the renderer's; the time of the last frame is
    the time read at the start, and one more frame is requested.  The
    registry and the engine's parameters are as before. *)
Theorem frame_steps_syncs_then_draws e cs issued s :
  run e cs = Ok issued s →
  ∃ s1,
    PhysicsEngine.update
      ((clock (env s) (clockReads (env s)) - lastTime (driver s)) / 1000)%Q s = Ok tt s1
    ∧ ∃ s',
    App.animate s = Ok tt s'
    ∧ bodies (store s') = bodies (store s1)
    ∧ physicsEngine s' = physicsEngine s
    ∧ tracked s' = tracked s
    ∧ (∀ obj, obj ∈ tracked s' → synced s' s' obj)
    ∧ drawn (renderer s') = drawn (renderer s) ++ [PhysicsRenderer.picture s']
    ∧ objectCountText (driver s') = length (tracked s')
    ∧ fpsText (driver s') = Stats.fps (stats (renderer s'))
    ∧ lastTime (driver s') = clock (env s) (clockReads (env s))
    ∧ animationId (driver s') = S (animationId (driver s)).
Proof.
  intros Hrun. destruct (run_inv _ _ _ _ Hrun) as [W _]. by apply animate_run.
Qed.

(** X21: the [visibilitychange] callback changes nothing when the page
    becomes hidden.  When the page becomes visible in a reachable state,
    the callback returns and what it does does not depend on the time of
    the last frame: the engine is stepped by the time between the two
    readings of the clock that the callback makes itself, in seconds, not
    by the time the page was hidden, and the meshes of the tracked objects
    show their bodies after that step. *)
Theorem visibilityChange_forgets_the_hidden_time e cs issued s :
  run e cs = Ok issued s →
  Handlers.visibilityChange true s = Ok tt s
  ∧ (∀ t, Handlers.visibilityChange false
            (withDriver (λ d, mkDriver (animationId d) t (selectedShape d) (uiPaused d)
                                       (fpsText d) (objectCountText d)) s)
          = Handlers.visibilityChange false s)
  ∧ ∃ s1,
      PhysicsEngine.update
        ((clock (env s) (S (clockReads (env s))) - clock (env s) (clockReads (env s)))
         / 1000)%Q s = Ok tt s1
      ∧ ∃ s',
          Handlers.visibilityChange false s = Ok tt s'
          ∧ bodies (store s') = bodies (store s1)
          ∧ lastTime (driver s') = clock (env s) (S (clockReads (env s)))
          ∧ tracked s' = tracked s
          ∧ (∀ obj, obj ∈ tracked s' → synced s' s' obj).
Proof.
  intros Hrun. destruct (run_inv _ _ _ _ Hrun) as [W _].
  split; [reflexivity|]. split; [reflexivity|].
  unfold Handlers.visibilityChange.
  erewrite bind_run by reflexivity.
  erewrite bind_run by reflexivity.
  match goal with |- context [App.animate ?x] => set (s0 := x) end.
  assert (W0 : wf s0) by (eapply sameObjects_wf; [exact W|by repeat split]).
  destruct (animate_run s0 W0)
    as (t1 & E1 & s' & E & Hbo & _ & Htr & Hsync & _ & _ & _ & Hlt & _).
  destruct (engine_update_aside
              ((clock (env s) (S (clockReads (env s))) - clock (env s) (clockReads (env s)))
               / 1000)%Q s s0)
    as (s1 & t1' & F1 & F1' & Hb1 & _); [reflexivity..|].
  change (PhysicsEngine.update
            ((clock (env s) (S (clockReads (env s))) - clock (env s) (clockReads (env s)))
             / 1000)%Q s0 = Ok tt t1) in E1.
  rewrite F1' in E1. injection E1 as <-.
  exists s1. split; [exact F1|]. exists s'. split; [exact E|].
  split; [by rewrite Hbo|]. split; [exact Hlt|]. split; [exact Htr|exact Hsync].
Qed.

Lemma clearAll_leaves_the_rest s s' :
  wf s → ObjectManager.clearAll s = Ok tt s' →
  tuned s s' ∧ driver s' = driver s
  ∧ isPaused (physicsEngine s') = isPaused (physicsEngine s).
Proof.
  apply (swept_clearAll (λ s s', tuned s s' ∧ driver s' = driver s
           ∧ isPaused (physicsEngine s') = isPaused (physicsEngine s))).
  - intros s1. split; [apply tuned_refl|done].
  - intros s1 s2 s3 (T1 & D1 & P1) (T2 & D2 & P2).
    split; [by eapply tuned_trans|]. split; congruence.
  - intros obj s1 s2 W E. split; [by apply (removeObject_kept obj)|].
    destruct (objAt s1 obj) as [o|] eqn:Ho; [|by rewrite removeObject_throws in E].
    destruct (removeObject_wf_run obj o s1 W Ho)
      as (m & s3 & Hm & E3 & Hst & Hom & Hre & Hpe & Hdr & _).
    rewrite E3 in E. injection E as <-. split; [done|]. by rewrite Hpe.
  - intros s1 s2 W E. split; [by apply clearAllBodies_effect|].
    rewrite clearAllBodies_run in E by apply W. by injection E as <-.
Qed.

(** X22: on every reachable state [resetSimulation()] returns with no
    tracked object and no dynamic body, gravity (0, -9.8, 0) in both the
    settings and the world, restitution and friction 0.3 in both the
    settings and the contact material, and the driver's pause flag
    cleared.  The engine's pause flag is cleared only if the driver's
    flag was set.  The time scale and the id counter are not reset. *)
Theorem resetSimulation_restores_the_defaults e cs issued s :
  run e cs = Ok issued s →
  ∃ s',
    App.resetSimulation s = Ok tt s'
    ∧ tracked s' = []
    ∧ dynamicCount s' = 0
    ∧ gravity (settings (physicsEngine s')) = mkVec3 0 (-9.8) 0
    ∧ CANNON.gravity (world (physicsEngine s')) = mkVec3 0 (-9.8) 0
    ∧ restitution (settings (physicsEngine s')) = 0.3%Q
    ∧ friction (settings (physicsEngine s')) = 0.3%Q
    ∧ contactMaterial (physicsEngine s') = CANNON.mkContactMaterial 0.3 0.3
    ∧ uiPaused (driver s') = false
    ∧ isPaused (physicsEngine s')
      = (if uiPaused (driver s) then false else isPaused (physicsEngine s))
    ∧ timeScale (physicsEngine s') = timeScale (physicsEngine s)
    ∧ objectId (objectManager s') = objectId (objectManager s).
Proof.
  intros Hrun. destruct (run_inv _ _ _ _ Hrun) as [W _].
  destruct (clearAll_run s W) as (s1 & E1 & W1 & Ht & Hin & Hob & Hbo & Hid).
  destruct (clearAll_leaves_the_rest s s1 W E1) as ([Hp _] & Hdr & Hpa).
  unfold engineParams in Hp. injection Hp as H1 H2 H3 H4 H5 H6 H7.
  assert (Hdyn : filter (λ b, dynamic s1 b = true) (inWorld s1) = []).
  { apply filter_none. intros b Hb. rewrite Hin in Hb.
    apply list_elem_of_filter in Hb as [Hb _].
    rewrite (dynamic_same_bodies s s1) by done. congruence. }
  unfold App.resetSimulation.
  erewrite bind_run by exact E1.
  unfold PhysicsEngine.setGravity, PhysicsEngine.updateMaterialProperties,
    PhysicsEngine.setPaused.
  run_monad. simpl. rewrite Hdr.
  destruct (uiPaused (driver s)) eqn:Hui; simpl;
    (eexists; split; [reflexivity|]); simpl;
    unfold dynamicCount, tracked, inWorld, dynamic, bodyAt in *; simpl;
    rewrite ?Hdr, ?Hui; repeat split; try done; by rewrite Hdyn.
Qed.

Lemma animate_quiet s s' : wf s → App.animate s = Ok tt s' → quiet s s'.
Proof.
  apply (closed_animate quiet quiet_trans).
  - intros s1 s2 Hst Hpe Hre Hom. apply sameObjects_quiet.
    unfold sameObjects, inScene, inWorld. by rewrite Hst, Hpe, Hre, Hom.
  - intros s1 s2 W E. by apply sync_effect.
  - intros dt s1 s2 W E. by eapply engine_update_effect.
  - intros s1 s2 W E. by apply render_quiet.
Qed.

Lemma spawnRandom_supported ty s r s' :
  ty ∈ kinds → ObjectManager.spawnRandom ty s = Ok r s' →
  r = Some (length (objs (store s)))
  ∧ tracked s' = tracked s ++ [length (objs (store s))]
  ∧ ∃ o, objs (store s') = objs (store s) ++ [o] ∧ Obj.type o = ty.
Proof.
  intros Hk E. unfold ObjectManager.spawnRandom in E.
  apply bind_Ok in E as (r1 & s1 & E1 & E).
  apply bind_Ok in E as (r2 & s2 & E2 & E).
  apply bind_Ok in E as (r3 & s3 & E3 & E).
  apply bind_Ok in E as (r4 & s4 & E4 & E).
  apply Math_random_same in E1 as (H1 & M1 & _), E2 as (H2 & M2 & _),
    E3 as (H3 & M3 & _), E4 as (H4 & M4 & _).
  assert (Hst : store s4 = store s) by congruence.
  assert (Hom : objectManager s4 = objectManager s) by congruence.
  destruct (createObject_run _ _ _ _ _ _ Hk E) as (m & b & -> & Hst5 & Hom5 & _).
  unfold tracked. rewrite Hst5, Hom5, Hst. simpl. fold (tracked s4).
  unfold tracked. rewrite Hom.
  split; [done|]. split; [done|]. by eexists.
Qed.

Lemma spawns_and_frames cs : ∀ s0 xs s,
  wf s0 → (∀ c, c ∈ cs → isSpawnOrFrame c = true) →
  perform_all cs s0 = Ok xs s →
  tracked s = tracked s0 ++ xs
  ∧ Obj.type <$> objs (store s) = (Obj.type <$> objs (store s0)) ++ spawnedKinds cs.
Proof.
  induction cs as [|c cs IH]; intros s0 xs s W Hcs E; simpl in E.
  - unfold ret in E. injection E as <- <-. by rewrite !app_nil_r.
  - apply bind_Ok in E as (ys & s1 & E1 & E).
    apply bind_Ok in E as (zs & s2 & E2 & E). unfold ret in E. injection E as <- <-.
    destruct (perform_grows _ _ _ _ W E1) as [W1 _].
    destruct (IH s1 zs s2 W1) as [Ht Hty]; [intros c' Hc'; apply Hcs; by right|done|].
    assert (Hc : isSpawnOrFrame c = true) by (apply Hcs; by left).
    destruct c as [ty p sz|ty|ty p|obj| | |sh m p|b|dt| |x y z|r f|sc|pa| | | | ];
      try discriminate Hc; simpl in Hc, E1.
    + apply bool_decide_eq_true in Hc.
      apply bind_Ok in E1 as (r & s1' & E1 & E1'). unfold ret in E1'.
      injection E1' as <- <-.
      destruct (spawnRandom_supported _ _ _ _ Hc E1) as (-> & Ht1 & o & Ho & Hoty).
      rewrite Ht, Ht1, Hty, Ho, fmap_app. simpl. rewrite Hoty, <- !app_assoc. done.
    + apply bind_Ok in E1 as ([] & s1' & E1 & E1'). unfold ret in E1'.
      injection E1' as <- <-.
      pose proof (animate_quiet _ _ W E1) as Q.
      rewrite Ht, Hty. unfold tracked. rewrite (q_manager _ _ Q), (q_objs _ _ Q). done.
Qed.

(** X23: after a history made only of [spawnRandom] calls of supported
    kinds and of frames, as [spawnInitialObjects()] and the frame loop
    produce, the objects issued are numbered from 0 in the order of the
    calls, all of them are tracked in that order, their kinds are the
    kinds asked for and their ids are their numbers. *)
Theorem spawns_fill_the_registry_in_order e cs issued s :
  run e cs = Ok issued s →
  forallb isSpawnOrFrame cs = true →
  issued = seq 0 (length (spawnedKinds cs))
  ∧ tracked s = issued
  ∧ Obj.type <$> objs (store s) = spawnedKinds cs
  ∧ Obj.id <$> objs (store s) = issued.
Proof.
  intros Hrun Hcs. destruct (run_inv _ _ _ _ Hrun) as [W Hi].
  destruct (run_from_constructors _ _ _ _ Hrun)
    as (s0 & W0 & _ & _ & _ & _ & E & Ht0 & Ho0).
  destruct (spawns_and_frames (Animate :: cs) s0 issued s W0) as [Ht Hty]; [|done|].
  { intros c [->|Hc]%elem_of_cons; [done|]. by apply (forallb_elem _ _ Hcs). }
  rewrite Ht0 in Ht. rewrite Ho0 in Hty. simpl in Ht, Hty.
  assert (Hlen : length (objs (store s)) = length (spawnedKinds cs)).
  { rewrite <- Hty. by rewrite length_fmap. }
  split; [by rewrite Hi, Hlen|]. split; [done|]. split; [done|].
  rewrite Hi. apply list_eq. intros a. rewrite list_lookup_fmap.
  destruct (objs (store s) !! a) as [o|] eqn:Ho; simpl.
  - rewrite (wf_id s W a o Ho). symmetry. apply lookup_seq. split; [done|].
    by eapply lookup_lt_Some.
  - symmetry. apply lookup_seq_ge. by apply lookup_ge_None.
Qed.

(** X24: when the next three results of [Math.random()] lie in
    [0, 1): if the library makes a shape from the description,
    [createBody] returns a new body with the given mass and position, the
    default material, both dampings 0.1, that shape as its one shape, and
    an angular velocity whose components lie in [-1, 1), and it calls
    [Math.random()] three times; if the constructor of the library throws
    (a sphere of negative radius, a cylinder or cone without a number of
    segments above 2), [createBody] throws the same. *)
Theorem createBody_spins_within_bounds d m p s :
  unitInterval (nextRandom s 0) → unitInterval (nextRandom s 1) →
  unitInterval (nextRandom s 2) →
  (∀ sh, PhysicsEngine.cannonShapeOf d = inr sh →
     ∃ a b s',
       PhysicsEngine.createBody d m p s = Ok a s'
       ∧ a = length (bodies (store s))
       ∧ bodyAt s' a = Some b
       ∧ CANNON.mass b = m
       ∧ CANNON.position b = p
       ∧ CANNON.shapes b = [sh]
       ∧ CANNON.material b = CANNON.DefaultMaterial
       ∧ CANNON.linearDamping b = 0.1%Q ∧ CANNON.angularDamping b = 0.1%Q
       ∧ (-1 <= vx (CANNON.angularVelocity b))%Q ∧ (vx (CANNON.angularVelocity b) < 1)%Q
       ∧ (-1 <= vy (CANNON.angularVelocity b))%Q ∧ (vy (CANNON.angularVelocity b) < 1)%Q
       ∧ (-1 <= vz (CANNON.angularVelocity b))%Q ∧ (vz (CANNON.angularVelocity b) < 1)%Q
       ∧ randomCalls (env s') = 3 + randomCalls (env s))
  ∧ (∀ e, PhysicsEngine.cannonShapeOf d = inl e →
       PhysicsEngine.createBody d m p s = Throw e).
Proof.
  intros [H0 H0'] [H1 H1'] [H2 H2']. split.
  - intros sh Hsh. rewrite createBody_exact, Hsh.
    eexists _, _, _. split; [reflexivity|].
    split; [reflexivity|]. unfold bodyAt. cbn [store setBodies bodies].
    rewrite last_lookup. split; [reflexivity|].
    cbn [bodyMade CANNON.mass CANNON.position CANNON.shapes CANNON.material
         CANNON.linearDamping CANNON.angularDamping CANNON.angularVelocity vx vy vz].
    rewrite vec3_eta. repeat split; try reflexivity; lra.
  - intros e He. by rewrite createBody_exact, He.
Qed.

(** ** The further properties at the sample histories *)

(** Witness of X4: a sphere spawned at random after the sample history. *)
Lemma spawnRandom_stays_in_bounds_witness :
  "sphere" ∈ kinds ∧
  unitInterval (nextRandom sampleState 0) ∧ unitInterval (nextRandom sampleState 1) ∧
  unitInterval (nextRandom sampleState 2) ∧ unitInterval (nextRandom sampleState 3) ∧
  ∃ obj o m b size g d sh s',
    ObjectManager.spawnRandom "sphere" sampleState = Ok (Some obj) s'
    ∧ objAt s' obj = Some o
    ∧ Obj.type o = "sphere"
    ∧ meshAt s' (Obj.mesh o) = Some m
    ∧ bodyAt s' (Obj.body o) = Some b
    ∧ (-5 <= vx (CANNON.position b))%Q ∧ (vx (CANNON.position b) <= 5)%Q
    ∧ (10 <= vy (CANNON.position b))%Q ∧ (vy (CANNON.position b) <= 15)%Q
    ∧ (-5 <= vz (CANNON.position b))%Q ∧ (vz (CANNON.position b) <= 5)%Q
    ∧ (1.5 <= size)%Q ∧ (size <= 3)%Q
    ∧ caseOf "sphere" (Num size) = Some (g, d)
    ∧ PhysicsEngine.cannonShapeOf d = inr sh
    ∧ THREE.geometry m = g
    ∧ CANNON.shapes b = [sh].
Proof.
  assert (H0 : "sphere" ∈ kinds) by (unfold kinds; repeat constructor).
  assert (H1 : unitInterval (nextRandom sampleState 0)) by (split; vm_compute; done).
  assert (H2 : unitInterval (nextRandom sampleState 1)) by (split; vm_compute; done).
  assert (H3 : unitInterval (nextRandom sampleState 2)) by (split; vm_compute; done).
  assert (H4 : unitInterval (nextRandom sampleState 3)) by (split; vm_compute; done).
  split; [exact H0|]. split; [exact H1|]. split; [exact H2|]. split; [exact H3|].
  split; [exact H4|].
  exact (spawnRandom_stays_in_bounds "sphere" sampleState H0 H1 H2 H3 H4).
Defined.

(** Witness of X5: a torus spawned above a point after the sample history. *)
Lemma spawnAtPosition_lifts_by_two_witness :
  "torus" ∈ kinds ∧
  unitInterval (nextRandom sampleState 0) ∧
  ∃ obj o m b size g d sh s',
    ObjectManager.spawnAtPosition "torus" origin10 sampleState = Ok (Some obj) s'
    ∧ objAt s' obj = Some o
    ∧ Obj.type o = "torus"
    ∧ meshAt s' (Obj.mesh o) = Some m
    ∧ bodyAt s' (Obj.body o) = Some b
    ∧ CANNON.position b = mkVec3 (vx origin10) (vy origin10 + 2) (vz origin10)
    ∧ (1.5 <= size)%Q ∧ (size <= 2)%Q
    ∧ caseOf "torus" (Num size) = Some (g, d)
    ∧ PhysicsEngine.cannonShapeOf d = inr sh
    ∧ THREE.geometry m = g
    ∧ CANNON.shapes b = [sh].
Proof.
  assert (H0 : "torus" ∈ kinds) by (unfold kinds; repeat constructor).
  assert (H1 : unitInterval (nextRandom sampleState 0)) by (split; vm_compute; done).
  split; [exact H0|]. split; [exact H1|].
  exact (spawnAtPosition_lifts_by_two "torus" origin10 sampleState H0 H1).
Defined.

(** Witness of X21: the page becomes visible after the sample history. *)
Lemma visibilityChange_forgets_the_hidden_time_witness :
  run sampleEnv sampleHistory = Ok sampleIssued sampleState ∧
  Handlers.visibilityChange true sampleState = Ok tt sampleState
  ∧ (∀ t, Handlers.visibilityChange false
            (withDriver (λ d, mkDriver (animationId d) t (selectedShape d) (uiPaused d)
                                       (fpsText d) (objectCountText d)) sampleState)
          = Handlers.visibilityChange false sampleState)
  ∧ ∃ s1,
      PhysicsEngine.update
        ((clock (env sampleState) (S (clockReads (env sampleState)))
          - clock (env sampleState) (clockReads (env sampleState))) / 1000)%Q
        sampleState = Ok tt s1
      ∧ ∃ s',
          Handlers.visibilityChange false sampleState = Ok tt s'
          ∧ bodies (store s') = bodies (store s1)
          ∧ lastTime (driver s') = clock (env sampleState) (S (clockReads (env sampleState)))
          ∧ tracked s' = tracked sampleState
          ∧ (∀ obj, obj ∈ tracked s' → synced s' s' obj).
Proof.
  assert (H1 : run sampleEnv sampleHistory = Ok sampleIssued sampleState)
    by (vm_compute; reflexivity).
  split; [exact H1|].
  exact (visibilityChange_forgets_the_hidden_time sampleEnv sampleHistory sampleIssued
           sampleState H1).
Defined.

(** Witness of X7: the engine's sweep after the sample history. *)
Lemma clearAllBodies_keeps_statics_only_witness :
  run sampleEnv sampleHistory = Ok sampleIssued sampleState ∧
  ∃ s',
    PhysicsEngine.clearAllBodies sampleState = Ok tt s'
    ∧ s' = setInWorld (statics sampleState) sampleState
    ∧ dynamicCount s' = 0
    ∧ ObjectManager.getCount s' = Ok (length (tracked sampleState)) s'
    ∧ (∀ obj o, objAt sampleState obj = Some o → Obj.body o ∉ inWorld s')
    ∧ PhysicsEngine.clearAllBodies s' = Ok tt s'.
Proof.
  assert (H1 : run sampleEnv sampleHistory = Ok sampleIssued sampleState)
    by (vm_compute; reflexivity).
  split; [exact H1|].
  exact (clearAllBodies_keeps_statics_only sampleEnv sampleHistory sampleIssued
           sampleState H1).
Defined.

(** Witness of X8: a sphere of size 3 spawned after the sample history. *)
Lemma createObject_adds_one_dynamic_body_witness :
  run sampleEnv sampleHistory = Ok sampleIssued sampleState ∧
  "sphere" ∈ kinds ∧
  validSize (Num 3) ∧
  ∃ obj s',
    ObjectManager.createObject "sphere" origin10 (Num 3) sampleState = Ok (Some obj) s'
    ∧ PhysicsEngine.getStats sampleState
      = Ok (dynamicCount sampleState, negb (isPaused (physicsEngine sampleState)))
           sampleState
    ∧ PhysicsEngine.getStats s'
      = Ok (dynamicCount sampleState + 1, negb (isPaused (physicsEngine sampleState))) s'.
Proof.
  assert (H1 : run sampleEnv sampleHistory = Ok sampleIssued sampleState)
    by (vm_compute; reflexivity).
  assert (H2 : "sphere" ∈ kinds) by (unfold kinds; repeat constructor).
  assert (H3 : validSize (Num 3)) by (vm_compute; discriminate).
  split; [exact H1|]. split; [exact H2|]. split; [exact H3|].
  exact (createObject_adds_one_dynamic_body sampleEnv sampleHistory sampleIssued
           sampleState "sphere" origin10 (Num 3) H1 H2 H3).
Defined.

(** Witness of X9: a sphere of omitted size spawned and then synced
    after the sample history. *)
Lemma spawned_mesh_waits_for_the_sync_witness :
  run sampleEnv sampleHistory = Ok sampleIssued sampleState ∧
  "sphere" ∈ kinds ∧
  validSize Undefined ∧
  ∃ obj o m1 b s1,
    ObjectManager.createObject "sphere" origin10 Undefined sampleState = Ok (Some obj) s1
    ∧ objAt s1 obj = Some o
    ∧ meshAt s1 (Obj.mesh o) = Some m1
    ∧ THREE.position m1 = vec3_zero
    ∧ THREE.quaternion m1 = quat_identity
    ∧ bodyAt s1 (Obj.body o) = Some b
    ∧ CANNON.position b = origin10
    ∧ CANNON.quaternion b = quat_identity
    ∧ ∃ m2 s2,
        ObjectManager.update s1 = Ok tt s2
        ∧ meshAt s2 (Obj.mesh o) = Some m2
        ∧ THREE.position m2 = origin10
        ∧ THREE.quaternion m2 = quat_identity.
Proof.
  assert (H1 : run sampleEnv sampleHistory = Ok sampleIssued sampleState)
    by (vm_compute; reflexivity).
  assert (H2 : "sphere" ∈ kinds) by (unfold kinds; repeat constructor).
  assert (H3 : validSize Undefined) by exact I.
  split; [exact H1|]. split; [exact H2|]. split; [exact H3|].
  exact (spawned_mesh_waits_for_the_sync sampleEnv sampleHistory sampleIssued
           sampleState "sphere" origin10 Undefined H1 H2 H3).
Defined.

(** Witness of X10: a box spawned after the sample history. *)
Lemma createObject_only_appends_witness :
  run sampleEnv sampleHistory = Ok sampleIssued sampleState ∧
  ObjectManager.createObject "box" origin10 (Num 2) sampleState = Ok (Some 4) sampleSpawned ∧
  (∀ a o, objAt sampleState a = Some o → objAt sampleSpawned a = Some o)
  ∧ (∀ a m, meshAt sampleState a = Some m → meshAt sampleSpawned a = Some m)
  ∧ (∀ a b, bodyAt sampleState a = Some b → bodyAt sampleSpawned a = Some b)
  ∧ tracked sampleState `prefix_of` tracked sampleSpawned
  ∧ inScene sampleState `prefix_of` inScene sampleSpawned
  ∧ inWorld sampleState `prefix_of` inWorld sampleSpawned
  ∧ physicsEngine sampleSpawned
    = setWorld (world (physicsEngine sampleSpawned)) (physicsEngine sampleState)
  ∧ CANNON.gravity (world (physicsEngine sampleSpawned))
    = CANNON.gravity (world (physicsEngine sampleState))
  ∧ renderer sampleSpawned = setScene (inScene sampleSpawned) (renderer sampleState)
  ∧ driver sampleSpawned = driver sampleState.
Proof.
  assert (H1 : run sampleEnv sampleHistory = Ok sampleIssued sampleState)
    by (vm_compute; reflexivity).
  assert (H2 : ObjectManager.createObject "box" origin10 (Num 2) sampleState
               = Ok (Some 4) sampleSpawned) by (vm_compute; reflexivity).
  split; [exact H1|]. split; [exact H2|].
  exact (createObject_only_appends sampleEnv sampleHistory sampleIssued sampleState
           "box" origin10 (Num 2) (Some 4) sampleSpawned H1 H2).
Defined.

(** Witness of X11: object 0 removed after the sample history. *)
Lemma removeObject_touches_one_object_only_witness :
  run sampleEnv sampleHistory = Ok sampleIssued sampleState ∧
  ObjectManager.removeObject 0 sampleState = Ok tt sampleRemoved ∧
  tracked sampleRemoved = removeFirst 0 (tracked sampleState)
  ∧ objs (store sampleRemoved) = objs (store sampleState)
  ∧ bodies (store sampleRemoved) = bodies (store sampleState)
  ∧ ∀ a oa, a ≠ 0 → objAt sampleState a = Some oa →
      meshAt sampleRemoved (Obj.mesh oa) = meshAt sampleState (Obj.mesh oa)
      ∧ (a ∈ tracked sampleRemoved ↔ a ∈ tracked sampleState)
      ∧ (THREE.MeshRef (Obj.mesh oa) ∈ inScene sampleRemoved
         ↔ THREE.MeshRef (Obj.mesh oa) ∈ inScene sampleState)
      ∧ (Obj.body oa ∈ inWorld sampleRemoved ↔ Obj.body oa ∈ inWorld sampleState).
Proof.
  assert (H1 : run sampleEnv sampleHistory = Ok sampleIssued sampleState)
    by (vm_compute; reflexivity).
  assert (H2 : ObjectManager.removeObject 0 sampleState = Ok tt sampleRemoved)
    by (vm_compute; reflexivity).
  split; [exact H1|]. split; [exact H2|].
  exact (removeObject_touches_one_object_only sampleEnv sampleHistory sampleIssued
           sampleState 0 sampleRemoved H1 H2).
Defined.

(** Witness of X12: the parameters after the sample history. *)
Lemma parameters_stay_coherent_witness :
  run sampleEnv sampleHistory = Ok sampleIssued sampleState ∧
  timeStep (physicsEngine sampleState) = (1 / 60)%Q
  ∧ maxSubSteps (physicsEngine sampleState) = 3%Z
  ∧ defaultMass (settings (physicsEngine sampleState)) = 5%Q
  ∧ (0.1 <= timeScale (physicsEngine sampleState))%Q
  ∧ (timeScale (physicsEngine sampleState) <= 2)%Q
  ∧ CANNON.gravity (world (physicsEngine sampleState))
    = gravity (settings (physicsEngine sampleState))
  ∧ CANNON.friction (contactMaterial (physicsEngine sampleState))
    = friction (settings (physicsEngine sampleState))
  ∧ CANNON.restitution (contactMaterial (physicsEngine sampleState))
    = restitution (settings (physicsEngine sampleState))
  ∧ CANNON.allowSleep (world (physicsEngine sampleState)) = true.
Proof.
  assert (H1 : run sampleEnv sampleHistory = Ok sampleIssued sampleState)
    by (vm_compute; reflexivity).
  split; [exact H1|].
  exact (parameters_stay_coherent sampleEnv sampleHistory sampleIssued sampleState H1).
Defined.

(** Witness of X13: the statistics after the sample history. *)
Lemma frame_rate_is_never_negative_witness :
  run sampleEnv sampleHistory = Ok sampleIssued sampleState ∧
  (0 <= Stats.frames (stats (renderer sampleState)))%Z
  ∧ (0 <= Stats.fps (stats (renderer sampleState)))%Z
  ∧ ∃ s', PhysicsRenderer.render sampleState = Ok tt s'
          ∧ (0 <= Stats.frames (stats (renderer s')))%Z
          ∧ (0 <= Stats.fps (stats (renderer s')))%Z
          ∧ (Stats.frames (stats (renderer s')) = 0%Z
             ∨ Stats.frames (stats (renderer s'))
               = (Stats.frames (stats (renderer sampleState)) + 1)%Z
               ∧ Stats.fps (stats (renderer s')) = Stats.fps (stats (renderer sampleState))).
Proof.
  assert (H1 : run sampleEnv sampleHistory = Ok sampleIssued sampleState)
    by (vm_compute; reflexivity).
  split; [exact H1|].
  exact (frame_rate_is_never_negative sampleEnv sampleHistory sampleIssued sampleState H1).
Defined.

(** Witness of X14: a torus of size 2 spawned after the sample history. *)
Lemma spawned_mesh_has_the_colour_of_its_kind_witness :
  run sampleEnv sampleHistory = Ok sampleIssued sampleState ∧
  "torus" ∈ kinds ∧
  validSize (Num 2) ∧
  ∃ obj o m c s',
    ObjectManager.createObject "torus" origin10 (Num 2) sampleState = Ok (Some obj) s'
    ∧ objAt s' obj = Some o
    ∧ meshAt s' (Obj.mesh o) = Some m
    ∧ palette !! "torus" = Some c
    ∧ THREE.material m = THREE.mkMaterial c 0.3 0.6
    ∧ THREE.castShadow m = true ∧ THREE.receiveShadow m = true
    ∧ THREE.geometryDisposed m = false ∧ THREE.materialDisposed m = false.
Proof.
  assert (H1 : run sampleEnv sampleHistory = Ok sampleIssued sampleState)
    by (vm_compute; reflexivity).
  assert (H2 : "torus" ∈ kinds) by (unfold kinds; repeat constructor).
  assert (H3 : validSize (Num 2)) by (vm_compute; discriminate).
  split; [exact H1|]. split; [exact H2|]. split; [exact H3|].
  exact (spawned_mesh_has_the_colour_of_its_kind sampleEnv sampleHistory sampleIssued
           sampleState "torus" origin10 (Num 2) H1 H2 H3).
Defined.

(** Witness of X15: the scene after the sample history. *)
Lemma scene_follows_the_registry_witness :
  run sampleEnv sampleHistory = Ok sampleIssued sampleState ∧ sceneMatches sampleState.
Proof.
  assert (H1 : run sampleEnv sampleHistory = Ok sampleIssued sampleState)
    by (vm_compute; reflexivity).
  split; [exact H1|].
  exact (scene_follows_the_registry sampleEnv sampleHistory sampleIssued sampleState H1).
Defined.

(** Witness of X16: the sample history calls no body method of the
    engine itself. *)
Lemma world_follows_the_registry_witness :
  run sampleEnv sampleHistory = Ok sampleIssued sampleState ∧
  forallb (λ c, negb (isEngineCall c)) sampleHistory = true ∧
  worldMatches sampleState ∧
  PhysicsEngine.getStats sampleState
  = Ok (length (tracked sampleState), negb (isPaused (physicsEngine sampleState)))
       sampleState.
Proof.
  assert (H1 : run sampleEnv sampleHistory = Ok sampleIssued sampleState)
    by (vm_compute; reflexivity).
  assert (H2 : forallb (λ c, negb (isEngineCall c)) sampleHistory = true) by reflexivity.
  split; [exact H1|]. split; [exact H2|].
  exact (world_follows_the_registry sampleEnv sampleHistory sampleIssued sampleState H1 H2).
Defined.

(** Witness of X17: the ground after the sample history. *)
Lemma ground_stays_in_the_world_witness :
  run sampleEnv sampleHistory = Ok sampleIssued sampleState ∧
  forallb (λ c, negb (isEngineRemoveBody c)) sampleHistory = true ∧
  groundInPlace sampleState.
Proof.
  assert (H1 : run sampleEnv sampleHistory = Ok sampleIssued sampleState)
    by (vm_compute; reflexivity).
  assert (H2 : forallb (λ c, negb (isEngineRemoveBody c)) sampleHistory = true)
    by reflexivity.
  split; [exact H1|]. split; [exact H2|].
  exact (ground_stays_in_the_world sampleEnv sampleHistory sampleIssued sampleState H1 H2).
Defined.

(** Witness of X18: the sample history continued. *)
Lemma nothing_made_is_altered_witness :
  run sampleEnv sampleHistory = Ok sampleIssued sampleState ∧
  perform_all sampleSequel sampleState = Ok sequelIssued sequelState ∧
  kept sampleState sequelState.
Proof.
  assert (H1 : run sampleEnv sampleHistory = Ok sampleIssued sampleState)
    by (vm_compute; reflexivity).
  assert (H2 : perform_all sampleSequel sampleState = Ok sequelIssued sequelState)
    by (vm_compute; reflexivity).
  split; [exact H1|]. split; [exact H2|].
  exact (nothing_made_is_altered sampleEnv sampleHistory sampleIssued sampleState
           sampleSequel sequelIssued sequelState H1 H2).
Defined.

(** Witness of X19: object 1 was removed in the sample history. *)
Lemma untracked_objects_are_released_witness :
  run sampleEnv sampleHistory = Ok sampleIssued sampleState ∧
  1 ∈ sampleIssued ∧ (1 ∉ tracked sampleState) ∧
  ∃ o, objAt sampleState 1 = Some o ∧ released sampleState o.
Proof.
  assert (H1 : run sampleEnv sampleHistory = Ok sampleIssued sampleState)
    by (vm_compute; reflexivity).
  assert (H2 : 1 ∈ sampleIssued) by (unfold sampleIssued; repeat constructor).
  assert (H3 : 1 ∉ tracked sampleState)
    by (refine (bool_decide_unpack _ _); vm_compute; exact I).
  split; [exact H1|]. split; [exact H2|]. split; [exact H3|].
  exact (untracked_objects_are_released sampleEnv sampleHistory sampleIssued sampleState
           1 H1 H2 H3).
Defined.

(** Witness of X20: a frame after the first objects, the engine running. *)
Lemma frame_steps_syncs_then_draws_witness :
  run sampleEnv openingHistory = Ok openingIssued openingState ∧
  ∃ s1,
    PhysicsEngine.update
      ((clock (env openingState) (clockReads (env openingState))
        - lastTime (driver openingState)) / 1000)%Q openingState = Ok tt s1
    ∧ ∃ s',
    App.animate openingState = Ok tt s'
    ∧ bodies (store s') = bodies (store s1)
    ∧ physicsEngine s' = physicsEngine openingState
    ∧ tracked s' = tracked openingState
    ∧ (∀ obj, obj ∈ tracked s' → synced s' s' obj)
    ∧ drawn (renderer s') = drawn (renderer openingState) ++ [PhysicsRenderer.picture s']
    ∧ objectCountText (driver s') = length (tracked s')
    ∧ fpsText (driver s') = Stats.fps (stats (renderer s'))
    ∧ lastTime (driver s')
      = clock (env openingState) (clockReads (env openingState))
    ∧ animationId (driver s') = S (animationId (driver openingState)).
Proof.
  assert (H1 : run sampleEnv openingHistory = Ok openingIssued openingState)
    by (vm_compute; reflexivity).
  split; [exact H1|].
  exact (frame_steps_syncs_then_draws sampleEnv openingHistory openingIssued
           openingState H1).
Defined.

(** Witness of X22: a reset after the sample history, which ends paused. *)
Lemma resetSimulation_restores_the_defaults_witness :
  run sampleEnv sampleHistory = Ok sampleIssued sampleState ∧
  ∃ s',
    App.resetSimulation sampleState = Ok tt s'
    ∧ tracked s' = []
    ∧ dynamicCount s' = 0
    ∧ gravity (settings (physicsEngine s')) = mkVec3 0 (-9.8) 0
    ∧ CANNON.gravity (world (physicsEngine s')) = mkVec3 0 (-9.8) 0
    ∧ restitution (settings (physicsEngine s')) = 0.3%Q
    ∧ friction (settings (physicsEngine s')) = 0.3%Q
    ∧ contactMaterial (physicsEngine s') = CANNON.mkContactMaterial 0.3 0.3
    ∧ uiPaused (driver s') = false
    ∧ isPaused (physicsEngine s')
      = (if uiPaused (driver sampleState) then false
         else isPaused (physicsEngine sampleState))
    ∧ timeScale (physicsEngine s') = timeScale (physicsEngine sampleState)
    ∧ objectId (objectManager s') = objectId (objectManager sampleState).
Proof.
  assert (H1 : run sampleEnv sampleHistory = Ok sampleIssued sampleState)
    by (vm_compute; reflexivity).
  split; [exact H1|].
  exact (resetSimulation_restores_the_defaults sampleEnv sampleHistory sampleIssued
           sampleState H1).
Defined.

(** Witness of X23: the first objects of [spawnInitialObjects()], each
    followed by a frame. *)
Lemma spawns_fill_the_registry_in_order_witness :
  run sampleEnv openingHistory = Ok openingIssued openingState ∧
  forallb isSpawnOrFrame openingHistory = true ∧
  openingIssued = seq 0 (length (spawnedKinds openingHistory))
  ∧ tracked openingState = openingIssued
  ∧ Obj.type <$> objs (store openingState) = spawnedKinds openingHistory
  ∧ Obj.id <$> objs (store openingState) = openingIssued.
Proof.
  assert (H1 : run sampleEnv openingHistory = Ok openingIssued openingState)
    by (vm_compute; reflexivity).
  assert (H2 : forallb isSpawnOrFrame openingHistory = true) by reflexivity.
  split; [exact H1|]. split; [exact H2|].
  exact (spawns_fill_the_registry_in_order sampleEnv openingHistory openingIssued
           openingState H1 H2).
Defined.

(** Witness of X24: a sphere of omitted radius, which the library takes
    as 1, made by the engine after the sample history, and a cylinder
    without segments, which it refuses. *)
Lemma createBody_spins_within_bounds_witness :
  unitInterval (nextRandom sampleState 0) ∧ unitInterval (nextRandom sampleState 1) ∧
  unitInterval (nextRandom sampleState 2) ∧
  PhysicsEngine.cannonShapeOf (Desc.empty "sphere") = inr (CANNON.Sphere (Num 1)) ∧
  PhysicsEngine.cannonShapeOf (Desc.empty "cylinder") = inl TypeError ∧
  (∃ a b s',
    PhysicsEngine.createBody (Desc.empty "sphere") 5 origin10 sampleState = Ok a s'
    ∧ a = length (bodies (store sampleState))
    ∧ bodyAt s' a = Some b
    ∧ CANNON.mass b = 5%Q
    ∧ CANNON.position b = origin10
    ∧ CANNON.shapes b = [CANNON.Sphere (Num 1)]
    ∧ CANNON.material b = CANNON.DefaultMaterial
    ∧ CANNON.linearDamping b = 0.1%Q ∧ CANNON.angularDamping b = 0.1%Q
    ∧ (-1 <= vx (CANNON.angularVelocity b))%Q ∧ (vx (CANNON.angularVelocity b) < 1)%Q
    ∧ (-1 <= vy (CANNON.angularVelocity b))%Q ∧ (vy (CANNON.angularVelocity b) < 1)%Q
    ∧ (-1 <= vz (CANNON.angularVelocity b))%Q ∧ (vz (CANNON.angularVelocity b) < 1)%Q
    ∧ randomCalls (env s') = 3 + randomCalls (env sampleState))
  ∧ PhysicsEngine.createBody (Desc.empty "cylinder") 5 origin10 sampleState
    = Throw TypeError.
Proof.
  assert (H1 : unitInterval (nextRandom sampleState 0)) by (split; vm_compute; done).
  assert (H2 : unitInterval (nextRandom sampleState 1)) by (split; vm_compute; done).
  assert (H3 : unitInterval (nextRandom sampleState 2)) by (split; vm_compute; done).
  assert (H4 : PhysicsEngine.cannonShapeOf (Desc.empty "sphere")
               = inr (CANNON.Sphere (Num 1))) by reflexivity.
  assert (H5 : PhysicsEngine.cannonShapeOf (Desc.empty "cylinder") = inl TypeError)
    by reflexivity.
  split; [exact H1|]. split; [exact H2|]. split; [exact H3|].
  split; [exact H4|]. split; [exact H5|]. split.
  - exact (proj1 (createBody_spins_within_bounds (Desc.empty "sphere") 5%Q origin10
                    sampleState H1 H2 H3) _ H4).
  - exact (proj2 (createBody_spins_within_bounds (Desc.empty "cylinder") 5%Q origin10
                    sampleState H1 H2 H3) _ H5).
Defined.
